(** * gopsutil/net on Linux: procfs parsers and the connection enumerator

    A shallow embedding of [vendor/github.com/shirou/gopsutil/net/net_linux.go]:
    the address decoder, the inode-ownership index, the INET and UNIX table
    parsers, the connection enumerator with its duplicate check, the
    protocol-counter reader, the interface-counter reader and the reader of
    the connection-tracking counters.

    Go strings are byte sequences: they are [string] here (one [ascii] per
    byte).  Bytes and machine integers are [Z], with wrap-around written out
    where the source converts.  Go maps are [gmap]s.  A call returns [Ok],
    an [error] value ([Err]) or stops with a run-time [panic] ([Panic]);
    functions that reach the file system also return the list of accesses
    they made, in order. *)

From Stdlib Require Import ZArith String Ascii List DecimalString HexadecimalString Lia.
From stdpp Require Import gmap strings list fin_maps.

Local Open Scope string_scope.
Local Open Scope list_scope.
Local Open Scope Z_scope.

(** ** Results of a Go call *)

(** Run-time panics the modelled code can raise. *)
Inductive panic : Type :=
  | IndexOutOfRange        (* s[i] with i outside [0, len(s)) *)
  | SliceBoundsOutOfRange. (* s[lo:hi] without 0 <= lo <= hi <= len(s) *)

(** [strconv]'s two sentinel errors. *)
Inductive NumErr : Type := ErrSyntax | ErrRange.

(** [encoding/hex]'s two errors. *)
Inductive HexErr : Type := InvalidByteError (b : Z) | ErrLength.

(** The error values of net_linux.go, one constructor per site. *)
Inductive error : Type :=
  | ErrDoesNotContainPort (src : string)  (* "does not contain port, %s" *)
  | ErrInvalidPort (src : string)         (* "invalid port, %s" *)
  | ErrDecodeError (e : HexErr)           (* "decode error, %s" *)
  | ErrInvalidIPv6String                  (* "invalid IPv6 string" *)
  | ErrInvalidKind (kind : string)        (* "invalid kind, %s" *)
  | ErrCouldNotGetPids (pid : Z)          (* "cound not get pid(s), %d" *)
  | ErrExpectedColon (filename : string)  (* filename + " is not fomatted correctly, expected ':'." *)
  | ErrExpectedSameColumns (filename : string)
                                          (* filename + " is not fomatted correctly, expected same number of columns." *)
  | ErrNum (e : NumErr)                   (* a *strconv.NumError, returned as it is *)
  | ErrIO (path : string).                (* an error of the file layer, returned as it is *)

Inductive result (A : Type) : Type :=
  | Ok (a : A)
  | Err (e : error)
  | Panic (p : panic).
Arguments Ok {A} a.
Arguments Err {A} e.
Arguments Panic {A} p.

Definition res_bind {A B : Type} (m : result A) (f : A -> result B) : result B :=
  match m with
  | Ok a => f a
  | Err e => Err e
  | Panic p => Panic p
  end.

#[global] Instance result_ret : MRet result := @Ok.
#[global] Instance result_bind : MBind result := fun A B f m => res_bind m f.

(** ** Machine integers *)

Definition uint32 (z : Z) : Z := z mod 2 ^ 32.
Definition uint64 (z : Z) : Z := z mod 2 ^ 64.
Definition maxUint64 : Z := 2 ^ 64 - 1.
Definition IntSize : Z := 64.

Definition byte_of (c : ascii) : Z := Z.of_N (N_of_ascii c).

(** [len(s)] as a Go int. *)
Definition len (s : string) : Z := Z.of_nat (String.length s).

(** [s[lo:hi]] on a string; [None] is the slice-bounds panic. *)
Definition slice (s : string) (lo hi : Z) : option string :=
  if (0 <=? lo) && (lo <=? hi) && (hi <=? len s)
  then Some (substring (Z.to_nat lo) (Z.to_nat (hi - lo)) s)
  else None.

(** [s[lo:]]. *)
Definition slice_from (s : string) (lo : Z) : option string := slice s lo (len s).

(** Decimal rendering of a signed integer ([%d], [strconv.Itoa]). *)
Definition itoa (z : Z) : string :=
  if z <? 0
  then "-" +:+ DecimalString.NilEmpty.string_of_uint (N.to_uint (Z.to_N (- z)))
  else DecimalString.NilEmpty.string_of_uint (N.to_uint (Z.to_N z)).

(** ** Package unicode/utf8 *)
Module utf8.

Definition RuneError : Z := 65533.
Definition RuneSelf : Z := 128.

(** The entry of [first] for a lead byte: ASCII, invalid, or the size of the
    encoding with the range accepted for its second byte. *)
Inductive lead : Type :=
  | LeadASCII
  | LeadInvalid
  | LeadMulti (sz lo hi : Z).

Definition first (b : Z) : lead :=
  if b <? 128 then LeadASCII
  else if b <? 194 then LeadInvalid                  (* 0x80-0xC1 *)
  else if b <? 224 then LeadMulti 2 128 191          (* 0xC2-0xDF *)
  else if b =? 224 then LeadMulti 3 160 191          (* 0xE0 *)
  else if b <? 237 then LeadMulti 3 128 191          (* 0xE1-0xEC *)
  else if b =? 237 then LeadMulti 3 128 159          (* 0xED *)
  else if b <? 240 then LeadMulti 3 128 191          (* 0xEE-0xEF *)
  else if b =? 240 then LeadMulti 4 144 191          (* 0xF0 *)
  else if b <? 244 then LeadMulti 4 128 191          (* 0xF1-0xF3 *)
  else if b =? 244 then LeadMulti 4 128 143          (* 0xF4 *)
  else LeadInvalid.                                  (* 0xF5-0xFF *)

Definition cont (b : Z) : bool := (128 <=? b) && (b <=? 191).

(** [DecodeRuneInString]: the first rune of [s] and its width in bytes. *)
Definition DecodeRuneInString (s : string) : Z * Z :=
  match s with
  | EmptyString => (RuneError, 0)
  | String c0 t =>
    let s0 := byte_of c0 in
    match first s0 with
    | LeadASCII => (s0, 1)
    | LeadInvalid => (RuneError, 1)
    | LeadMulti sz lo hi =>
      if len s <? sz then (RuneError, 1) else
      match t with
      | EmptyString => (RuneError, 1)
      | String c1 t1 =>
        let s1 := byte_of c1 in
        if (s1 <? lo) || (hi <? s1) then (RuneError, 1) else
        if sz <=? 2 then (Z.lor (Z.shiftl (Z.land s0 31) 6) (Z.land s1 63), 2) else
        match t1 with
        | EmptyString => (RuneError, 1)
        | String c2 t2 =>
          let s2 := byte_of c2 in
          if negb (cont s2) then (RuneError, 1) else
          if sz <=? 3
          then (Z.lor (Z.lor (Z.shiftl (Z.land s0 15) 12) (Z.shiftl (Z.land s1 63) 6))
                      (Z.land s2 63), 3) else
          match t2 with
          | EmptyString => (RuneError, 1)
          | String c3 _ =>
            let s3 := byte_of c3 in
            if negb (cont s3) then (RuneError, 1) else
            (Z.lor (Z.lor (Z.lor (Z.shiftl (Z.land s0 7) 18) (Z.shiftl (Z.land s1 63) 12))
                          (Z.shiftl (Z.land s2 63) 6))
                   (Z.land s3 63), 4)
          end
        end
      end
    end
  end.

Definition UTFMax : Z := 4.

(** [RuneStart(b)]: [b] is not a continuation byte. *)
Definition RuneStart (b : Z) : bool := negb (Z.land b 192 =? 128).

(** [s[i]] where the source has checked the index. *)
Definition byteAt (s : string) (i : Z) : Z :=
  match String.get (Z.to_nat i) s with
  | Some c => byte_of c
  | None => 0
  end.

(** The loop of [DecodeLastRuneInString]:
    [for start--; start >= lim; start-- { if RuneStart(s[start]) { break } }],
    entered after its first [start--]. *)
Fixpoint lastStart (fuel : nat) (s : string) (start lim : Z) : Z :=
  match fuel with
  | O => start
  | S fuel' =>
    if lim <=? start
    then if RuneStart (byteAt s start) then start else lastStart fuel' s (start - 1) lim
    else start
  end.

(** [DecodeLastRuneInString]: the last rune of [s] and its width in bytes. *)
Definition DecodeLastRuneInString (s : string) : Z * Z :=
  let end_ := len s in
  if end_ =? 0 then (RuneError, 0) else
  let start := end_ - 1 in
  let r := byteAt s start in
  if r <? RuneSelf then (r, 1) else
  let lim := if end_ - UTFMax <? 0 then 0 else end_ - UTFMax in
  let start := lastStart 4 s (start - 1) lim in
  let start := if start <? 0 then 0 else start in
  let '(r, size) :=
    DecodeRuneInString (substring (Z.to_nat start) (Z.to_nat (end_ - start)) s) in
  if negb (start + size =? end_) then (RuneError, 1) else (r, size).

End utf8.

(** ** Package unicode *)
Module unicode.

(** [IsSpace]: the Latin-1 cases of the source, then the [White_Space] table. *)
Definition IsSpace (r : Z) : bool :=
  if r <=? 255
  then (r =? 9) || (r =? 10) || (r =? 11) || (r =? 12) || (r =? 13) || (r =? 32)
       || (r =? 133) || (r =? 160)
  else (r =? 5760)                          (* U+1680 *)
       || ((8192 <=? r) && (r <=? 8202))    (* U+2000-U+200A *)
       || (r =? 8232) || (r =? 8233)        (* U+2028, U+2029 *)
       || (r =? 8239)                       (* U+202F *)
       || (r =? 8287)                       (* U+205F *)
       || (r =? 12288).                     (* U+3000 *)

End unicode.

(** ** Package strings *)
Module strings.

(** [Split(s, sep)] for a one-byte separator: the pieces of [s] between the
    occurrences of [sep], one more than there are occurrences. *)
Fixpoint Split (s : string) (sep : ascii) : list string :=
  match s with
  | EmptyString => [EmptyString]
  | String c s' =>
    if Ascii.eqb c sep then EmptyString :: Split s' sep
    else match Split s' sep with
         | [] => [String c EmptyString]
         | piece :: pieces => String c piece :: pieces
         end
  end.

(** [FieldsFunc(s, unicode.IsSpace)], rune by rune.  [skip] counts the bytes
    still to pass of the rune decoded last, [spc] says whether that rune was
    a space, [cur] is the field being read. *)
Fixpoint fieldsFrom (s : string) (skip : nat) (spc : bool) (cur : option string)
  : list string :=
  match s with
  | EmptyString => match cur with Some f => [f] | None => [] end
  | String c s' =>
    let '(spc', skip') :=
      match skip with
      | S k => (spc, k)
      | O => let '(r, size) := utf8.DecodeRuneInString s in
             (unicode.IsSpace r, Z.to_nat (size - 1))
      end in
    if spc'
    then match cur with
         | Some f => f :: fieldsFrom s' skip' true None
         | None => fieldsFrom s' skip' true None
         end
    else fieldsFrom s' skip' false
           (Some (match cur with Some f => f | None => EmptyString end
                  +:+ String c EmptyString))
  end.

(** [Fields(s)]: [s] split around each run of white space; no empty field. *)
Definition Fields (s : string) : list string := fieldsFrom s O false None.

Definition HasPrefix (s prefix : string) : bool := String.prefix prefix s.

Definition HasSuffix (s suffix : string) : bool :=
  (len suffix <=? len s)
  && String.eqb (substring (String.length s - String.length suffix)
                           (String.length suffix) s) suffix.

(** [IndexByte(s, c)], which is [IndexRune] for a rune below [utf8.RuneSelf]:
    the index of the first [c] in [s], or -1. *)
Fixpoint IndexByte (s : string) (c : ascii) : Z :=
  match s with
  | EmptyString => -1
  | String c' s' =>
    if Ascii.eqb c' c then 0
    else let i := IndexByte s' c in if i <? 0 then -1 else i + 1
  end.

Definition isASCII (s : string) : bool :=
  forallb (fun c => byte_of c <? utf8.RuneSelf) (list_ascii_of_string s).

Definition lowerByte (c : ascii) : ascii :=
  let b := byte_of c in
  if (65 <=? b) && (b <=? 90) then ascii_of_N (Z.to_N (b + 32)) else c.

Fixpoint mapBytes (f : ascii -> ascii) (s : string) : string :=
  match s with
  | EmptyString => EmptyString
  | String c s' => String (f c) (mapBytes f s')
  end.

(** [TrimLeftFunc(s, unicode.IsSpace)]: [s] from its first rune that is no
    space, empty when there is none.  [skip] counts the bytes still to pass
    of a space decoded before. *)
Fixpoint trimLeftFrom (s : string) (skip : nat) : string :=
  match s with
  | EmptyString => EmptyString
  | String _ s' =>
    match skip with
    | S k => trimLeftFrom s' k
    | O =>
      let '(r, size) := utf8.DecodeRuneInString s in
      if unicode.IsSpace r then trimLeftFrom s' (Z.to_nat (size - 1)) else s
    end
  end.

Definition TrimLeftSpace (s : string) : string := trimLeftFrom s O.

(** [lastIndexFunc(s, unicode.IsSpace, false)]: the index of the last rune
    that is no space, or -1; the loop [for i := len(s); i > 0;] from [i]. *)
Fixpoint lastIndexNotSpace (fuel : nat) (s : string) (i : Z) : Z :=
  match fuel with
  | O => -1
  | S fuel' =>
    if 0 <? i then
      let '(r, size) := utf8.DecodeLastRuneInString (substring 0 (Z.to_nat i) s) in
      let i := i - size in
      if negb (unicode.IsSpace r) then i else lastIndexNotSpace fuel' s i
    else -1
  end.

(** [TrimRightFunc(s, unicode.IsSpace)]. *)
Definition TrimRightSpace (s : string) : string :=
  let i := lastIndexNotSpace (S (String.length s)) s (len s) in
  let i :=
    if (0 <=? i) && (utf8.RuneSelf <=? utf8.byteAt s i)
    then i + snd (utf8.DecodeRuneInString
                    (substring (Z.to_nat i) (String.length s - Z.to_nat i) s))
    else i + 1 in
  substring 0 (Z.to_nat i) s.

(** [TrimSpace(s)]: [s] without its leading and trailing white space. *)
Definition TrimSpace (s : string) : string := TrimRightSpace (TrimLeftSpace s).

(** The loop of [genSplit] with [k] cuts left to make. *)
Fixpoint splitCuts (k : nat) (s : string) (sep : ascii) : list string :=
  match k with
  | O => [s]
  | S k' =>
    let m := IndexByte s sep in
    if m <? 0 then [s]
    else substring 0 (Z.to_nat m) s
         :: splitCuts k' (substring (Z.to_nat (m + 1)) (String.length s - Z.to_nat (m + 1)) s) sep
  end.

(** [SplitN(s, sep, n)] for a one-byte separator: at most [n] pieces, the
    last one the unsplit rest; all pieces when [n] is negative. *)
Definition SplitN (s : string) (sep : ascii) (n : Z) : list string :=
  if n =? 0 then []
  else if n <? 0 then Split s sep
  else
    let n := if len s + 1 <? n then len s + 1 else n in
    splitCuts (Z.to_nat (n - 1)) s sep.

Section ToLower.
(** [Map(unicode.ToLower, s)], which [ToLower] calls on a string with a
    byte outside ASCII: it needs the Unicode case tables, which are not
    part of this development. *)
Variable mapUnicodeToLower : string -> string.

(** [ToLower(s)]: byte-wise on an ASCII string, as in the source. *)
Definition ToLower (s : string) : string :=
  if isASCII s then mapBytes lowerByte s else mapUnicodeToLower s.
End ToLower.

End strings.

(** ** Package strconv *)
Module strconv.

(** [lower(c)]: [c | ('x' - 'X')]. *)
Definition lower (c : Z) : Z := Z.lor c 32.

(** What [underscoreOK] saw last: the start, a digit, an underscore, or
    something else (['^'], ['0'], ['_'], ['!'] in the source). *)
Inductive saw : Type := SawStart | SawDigit | SawUnderscore | SawOther.

Definition saw_eqb (a b : saw) : bool :=
  match a, b with
  | SawStart, SawStart | SawDigit, SawDigit
  | SawUnderscore, SawUnderscore | SawOther, SawOther => true
  | _, _ => false
  end.

Fixpoint underscoreLoop (hex : bool) (s : string) (sw : saw) : bool :=
  match s with
  | EmptyString => negb (saw_eqb sw SawUnderscore)
  | String ch s' =>
    let c := byte_of ch in
    if ((48 <=? c) && (c <=? 57)) || (hex && (97 <=? lower c) && (lower c <=? 102))
    then underscoreLoop hex s' SawDigit
    else if c =? 95
    then if negb (saw_eqb sw SawDigit) then false else underscoreLoop hex s' SawUnderscore
    else if saw_eqb sw SawUnderscore then false
    else underscoreLoop hex s' SawOther
  end.

(** [underscoreOK(s)]: the underscores of [s] separate digits. *)
Definition underscoreOK (s : string) : bool :=
  let s := match s with
           | String c s' => if (byte_of c =? 45) || (byte_of c =? 43) then s' else s
           | EmptyString => s
           end in
  match s with
  | String c0 (String c1 s') =>
    let l := lower (byte_of c1) in
    if (byte_of c0 =? 48) && ((l =? 98) || (l =? 111) || (l =? 120))
    then underscoreLoop (l =? 120) s' SawDigit
    else underscoreLoop false s SawStart
  | _ => underscoreLoop false s SawStart
  end.

(** The value of a byte read as a digit, in the switch of [ParseUint]. *)
Definition digitOf (c : Z) : option Z :=
  if (48 <=? c) && (c <=? 57) then Some (c - 48)
  else if (97 <=? lower c) && (lower c <=? 122) then Some (lower c - 97 + 10)
  else None.

(** The digit loop of [ParseUint]: [n] is the value read so far,
    [underscores] whether an underscore was passed.  The value comes with
    the error, as in the source. *)
Fixpoint digits (base0 : bool) (base cutoff maxVal : Z) (s : string)
    (n : Z) (underscores : bool) : Z * bool * option NumErr :=
  match s with
  | EmptyString => (n, underscores, None)
  | String ch s' =>
    let c := byte_of ch in
    if (c =? 95) && base0 then digits base0 base cutoff maxVal s' n true
    else
      match digitOf c with
      | None => (0, underscores, Some ErrSyntax)
      | Some d =>
        if base <=? d then (0, underscores, Some ErrSyntax)
        else if cutoff <=? n then (maxVal, underscores, Some ErrRange)
        else
          let n := uint64 (n * base) in
          let n1 := uint64 (n + d) in
          if (n1 <? n) || (maxVal <? n1) then (maxVal, underscores, Some ErrRange)
          else digits base0 base cutoff maxVal s' n1 underscores
      end
  end.

(** [ParseUint(s, base, bitSize)] for a base of 0 or in 2..36 and a bit
    size in 0..64.  With base 0 the prefix chooses the base and underscores
    may separate digits, as since Go 1.13. *)
Definition ParseUint (s : string) (base bitSize : Z) : Z * option NumErr :=
  match s with
  | EmptyString => (0, Some ErrSyntax)
  | String c0 t =>
    let base0 := base =? 0 in
    let s0 := s in
    let '(base, s) :=
      if base0 then
        if byte_of c0 =? 48 then
          match t with
          | String c1 t1 =>
            let l := lower (byte_of c1) in
            if (3 <=? len s) && (l =? 98) then (2, t1)
            else if (3 <=? len s) && (l =? 111) then (8, t1)
            else if (3 <=? len s) && (l =? 120) then (16, t1)
            else (8, t)
          | EmptyString => (8, t)
          end
        else (10, s)
      else (base, s) in
    let bitSize := if bitSize =? 0 then IntSize else bitSize in
    let cutoff := maxUint64 / base + 1 in
    let maxVal := 2 ^ bitSize - 1 in
    match digits base0 base cutoff maxVal s 0 false with
    | (v, _, Some e) => (v, Some e)
    | (n, underscores, None) =>
      if underscores && negb (underscoreOK s0) then (0, Some ErrSyntax)
      else (n, None)
    end
  end.

(** [ParseInt(s, base, bitSize)]. *)
Definition ParseInt (s : string) (base bitSize : Z) : Z * option NumErr :=
  match s with
  | EmptyString => (0, Some ErrSyntax)
  | String c0 t =>
    let '(neg, s) :=
      if byte_of c0 =? 43 then (false, t)
      else if byte_of c0 =? 45 then (true, t)
      else (false, s) in
    match ParseUint s base bitSize with
    | (_, Some ErrSyntax) => (0, Some ErrSyntax)
    | (un, _) =>
      let bitSize := if bitSize =? 0 then IntSize else bitSize in
      let cutoff := 2 ^ (bitSize - 1) in
      if negb neg && (cutoff <=? un) then (cutoff - 1, Some ErrRange)
      else if neg && (cutoff <? un) then (- cutoff, Some ErrRange)
      else (if neg then - un else un, None)
    end
  end.

(** [Atoi(s)]: [ParseInt(s, 10, 0)], of which its short-string path is a
    special case. *)
Definition Atoi (s : string) : Z * option NumErr := ParseInt s 10 0.

End strconv.

(** ** Package encoding/hex *)
Module hex.

(** [reverseHexTable]: the value of a hexadecimal digit, 255 for any other
    byte. *)
Definition reverseHexTable (c : Z) : Z :=
  if (48 <=? c) && (c <=? 57) then c - 48
  else if (97 <=? c) && (c <=? 102) then c - 97 + 10
  else if (65 <=? c) && (c <=? 70) then c - 65 + 10
  else 255.

(** [DecodeString(s)]: the bytes decoded before the error, if any, and the
    error. *)
Fixpoint DecodeString (s : string) : list Z * option HexErr :=
  match s with
  | EmptyString => ([], None)
  | String p EmptyString =>
    if 15 <? reverseHexTable (byte_of p)
    then ([], Some (InvalidByteError (byte_of p)))
    else ([], Some ErrLength)
  | String p (String q s') =>
    let a := reverseHexTable (byte_of p) in
    let b := reverseHexTable (byte_of q) in
    if 15 <? a then ([], Some (InvalidByteError (byte_of p)))
    else if 15 <? b then ([], Some (InvalidByteError (byte_of q)))
    else let '(bs, e) := DecodeString s' in
         (Z.lor (Z.shiftl a 4) b :: bs, e)
  end.

End hex.

(** ** Package net: the text form of an IP *)
Module netip.

Definition IPv4len : Z := 4.
Definition IPv6len : Z := 16.

(** [p[i]] where the source has checked the length. *)
Definition at_ (p : list Z) (i : Z) : Z := nth (Z.to_nat i) p 0.

Definition uitoa (v : Z) : string :=
  DecimalString.NilEmpty.string_of_uint (N.to_uint (Z.to_N v)).

(** [appendHex]: lower-case hexadecimal without leading zeros. *)
Definition hexOf (v : Z) : string :=
  HexadecimalString.NilEmpty.string_of_uint (N.to_hex_uint (Z.to_N v)).

(** Two lower-case hexadecimal digits per byte ([hexString]). *)
Definition hexString (p : list Z) : string :=
  fold_right (fun b acc => hexOf (b / 16) +:+ hexOf (b mod 16) +:+ acc) EmptyString p.

(** [ip.To4()]: the 4-byte form of an IPv4 address, [None] for nil. *)
Definition To4 (ip : list Z) : option (list Z) :=
  if Z.of_nat (length ip) =? IPv4len then Some ip
  else if (Z.of_nat (length ip) =? IPv6len)
          && forallb (fun b => b =? 0) (take 10 ip)
          && (at_ ip 10 =? 255) && (at_ ip 11 =? 255)
  then Some (drop 12 ip)
  else None.

(** The inner loop of the zero-run search: [j] moves over 16-bit zeros. *)
Fixpoint zeroRun (fuel : nat) (p : list Z) (j : Z) : Z :=
  match fuel with
  | O => j
  | S fuel' =>
    if (j <? IPv6len) && (at_ p j =? 0) && (at_ p (j + 1) =? 0)
    then zeroRun fuel' p (j + 2)
    else j
  end.

(** The outer loop: the first longest run of zeros, as [e0, e1). *)
Fixpoint longestRun (fuel : nat) (p : list Z) (i e0 e1 : Z) : Z * Z :=
  match fuel with
  | O => (e0, e1)
  | S fuel' =>
    if i <? IPv6len then
      let j := zeroRun 8 p i in
      if (i <? j) && (e1 - e0 <? j - i)
      then longestRun fuel' p (j + 2) i j
      else longestRun fuel' p (i + 2) e0 e1
    else (e0, e1)
  end.

(** The printing loop, with [::] in place of the run. *)
Fixpoint printGroups (fuel : nat) (p : list Z) (i e0 e1 : Z) (b : string) : string :=
  match fuel with
  | O => b
  | S fuel' =>
    if i <? IPv6len then
      if i =? e0 then
        let b := b +:+ "::" in
        let i := e1 in
        if IPv6len <=? i then b
        else printGroups fuel' p (i + 2) e0 e1
               (b +:+ hexOf (Z.lor (Z.shiftl (at_ p i) 8) (at_ p (i + 1))))
      else
        let b := if 0 <? i then b +:+ ":" else b in
        printGroups fuel' p (i + 2) e0 e1
          (b +:+ hexOf (Z.lor (Z.shiftl (at_ p i) 8) (at_ p (i + 1))))
    else b
  end.

(** [ip.String()]. *)
Definition String (ip : list Z) : string :=
  if Z.of_nat (length ip) =? 0 then "<nil>"
  else match To4 ip with
  | Some [a; b; c; d] => uitoa a +:+ "." +:+ uitoa b +:+ "." +:+ uitoa c +:+ "." +:+ uitoa d
  | _ =>
    if negb (Z.of_nat (length ip) =? IPv6len) then "?" +:+ hexString ip
    else
      let '(e0, e1) := longestRun 8 ip 0 (-1) (-1) in
      let '(e0, e1) := if e1 - e0 <=? 2 then (-1, -1) else (e0, e1) in
      printGroups 8 ip 0 e0 e1 EmptyString
  end.

End netip.

(** ** Package syscall: the constants used *)
Module syscall.
Definition AF_UNIX : Z := 1.
Definition AF_INET : Z := 2.
Definition AF_INET6 : Z := 10.
Definition SOCK_STREAM : Z := 1.
Definition SOCK_DGRAM : Z := 2.
End syscall.

(** ** The file layer

    [common.HostProc], [common.ReadLines] and [common.PathExists] belong to
    gopsutil's internal/common package; [ioutil.ReadDir], [os.Readlink],
    [os.Open] and [Readdirnames] are Go's.  A [Host] answers them; every
    call that reaches the file system is recorded as an [access]. *)

Inductive access : Type :=
  | AccReadLines (path : string)
  | AccPathExists (path : string)
  | AccReadDir (path : string)
  | AccReadlink (path : string)
  | AccReaddirnames (path : string).

Record Host : Type := {
  (* common.HostProc(combineWith...): the procfs root joined with a subpath;
     it reads the environment, not the file system *)
  HostProc : list string -> string;
  (* common.ReadLines(path): the lines of a file, None on failure *)
  ReadLines : string -> option (list string);
  (* common.PathExists(path) *)
  PathExists : string -> bool;
  (* ioutil.ReadDir(path): the names of the entries, None on failure *)
  ReadDir : string -> option (list string);
  (* os.Readlink(path): the target of a symbolic link, None on failure *)
  Readlink : string -> option string;
  (* os.Open(path) followed by Readdirnames(-1), None when either fails *)
  Readdirnames : string -> option (list string)
}.

(** A call with its file accesses, in order, and its outcome. *)
Record IO (A : Type) : Type := mkIO {
  trace : list access;
  outcome : result A
}.
Arguments mkIO {A} trace outcome.
Arguments trace {A} i.
Arguments outcome {A} i.

Definition io_bind {A B : Type} (m : IO A) (f : A -> IO B) : IO B :=
  match outcome m with
  | Ok a => mkIO (trace m ++ trace (f a)) (outcome (f a))
  | Err e => mkIO (trace m) (Err e)
  | Panic p => mkIO (trace m) (Panic p)
  end.

#[global] Instance IO_ret : MRet IO := fun A a => mkIO [] (Ok a).
#[global] Instance IO_bind : MBind IO := fun A B f m => io_bind m f.

(** A computation that touches no file. *)
Definition pure {A : Type} (r : result A) : IO A := mkIO [] r.

(** A loop over a list that threads a state and stops at the first error. *)
Fixpoint foldIO {A S : Type} (f : S -> A -> IO S) (l : list A) (s : S) : IO S :=
  match l with
  | [] => mret s
  | a :: l' => s' ← f s a; foldIO f l' s'
  end.

Fixpoint foldRes {A S : Type} (f : S -> A -> result S) (l : list A) (s : S) : result S :=
  match l with
  | [] => Ok s
  | a :: l' => s' ← f s a; foldRes f l' s'
  end.

Definition readLines (h : Host) (path : string) : IO (list string) :=
  mkIO [AccReadLines path]
       (match ReadLines h path with Some lines => Ok lines | None => Err (ErrIO path) end).

Definition pathExists (h : Host) (path : string) : IO bool :=
  mkIO [AccPathExists path] (Ok (PathExists h path)).

(** [s[i]] on a slice of strings. *)
Definition index (s : list string) (i : Z) : result string :=
  if (0 <=? i) && (i <? Z.of_nat (length s))
  then Ok (nth (Z.to_nat i) s EmptyString)
  else Panic IndexOutOfRange.

(** ** Protocol counters *)

Definition netProtocols : list string :=
  ["ip"; "icmp"; "icmpmsg"; "tcp"; "udp"; "udplite"].

(** Declared in net.go. *)
Record NetProtoCountersStat : Type := {
  Protocol : string;
  Stats : gmap string Z
}.

(** [protos := make(map[string]bool); for _, p := range protocols { protos[p] = true }] *)
Definition protosOf (protocols : list string) : gmap string bool :=
  foldl (fun protos p => <[p := true]> protos) ∅ protocols.

(** [if len(protocols) == 0 { protocols = netProtocols }] *)
Definition protocolsOrAll (protocols : list string) : list string :=
  if Z.of_nat (length protocols) =? 0 then netProtocols else protocols.

(** [protos[proto]], false for a missing key. *)
Definition requested (protos : gmap string bool) (proto : string) : bool :=
  default false (protos !! proto).

(** [for j := range statNames { ... stat.Stats[statNames[j]] = value }],
    from index [j] on. *)
Fixpoint readStats (statNames : list string) (j : Z) (statValues : list string)
    (stats : gmap string Z) : result (gmap string Z) :=
  match statNames with
  | [] => Ok stats
  | name :: names =>
    sv ← index statValues j;
    match strconv.ParseInt sv 10 64 with
    | (_, Some e) => Err (ErrNum e)
    | (value, None) => readStats names (j + 1) statValues (<[name := value]> stats)
    end
  end.

Section ProtoCounters.
Variable mapUnicodeToLower : string -> string.

(** The loop [for i := 0; i < linecount; i++] of NetProtoCounters, on the
    lines from [lines[i]] on: a skipped or parsed protocol moves [i] by
    two, so the loop goes on from the line after the next. *)
Fixpoint protoLoop (filename : string) (protos : gmap string bool)
    (lines : list string) (stats : list NetProtoCountersStat)
  : result (list NetProtoCountersStat) :=
  match lines with
  | [] => Ok stats
  | line :: rest =>
    let r := strings.IndexByte line ":" in
    if r =? -1 then Err (ErrExpectedColon filename) else
    match slice line 0 r with
    | None => Panic SliceBoundsOutOfRange
    | Some prefix =>
      let proto := strings.ToLower mapUnicodeToLower prefix in
      if negb (requested protos proto) then
        (* skip protocol and data line *)
        match rest with
        | [] => Ok stats
        | _ :: rest' => protoLoop filename protos rest' stats
        end
      else
        match slice_from line (r + 2) with
        | None => Panic SliceBoundsOutOfRange
        | Some names =>
          let statNames := strings.Split names " " in
          match rest with
          | [] => Panic IndexOutOfRange
          | dataLine :: rest' =>
            match slice_from dataLine (r + 2) with
            | None => Panic SliceBoundsOutOfRange
            | Some values =>
              let statValues := strings.Split values " " in
              if negb (Z.of_nat (length statNames) =? Z.of_nat (length statValues))
              then Err (ErrExpectedSameColumns filename)
              else
                match readStats statNames 0 statValues ∅ with
                | Ok m =>
                  protoLoop filename protos rest'
                    (stats ++ [{| Protocol := proto; Stats := m |}])
                | Err e => Err e
                | Panic p => Panic p
                end
            end
          end
        end
    end
  end.

Definition NetProtoCounters (h : Host) (protocols : list string)
  : IO (list NetProtoCountersStat) :=
  let protocols := protocolsOrAll protocols in
  let protos := protosOf protocols in
  let filename := HostProc h ["net/snmp"] in
  lines ← readLines h filename;
  pure (protoLoop filename protos lines []).
End ProtoCounters.

(** ** Connection tables *)

(** http://students.mimuw.edu.pl/lxr/source/include/net/tcp_states.h *)
Definition TCPStatuses : gmap string string :=
  list_to_map
    [("01", "ESTABLISHED"); ("02", "SYN_SENT"); ("03", "SYN_RECV");
     ("04", "FIN_WAIT1"); ("05", "FIN_WAIT2"); ("06", "TIME_WAIT");
     ("07", "CLOSE"); ("08", "CLOSE_WAIT"); ("09", "LAST_ACK");
     ("0A", "LISTEN"); ("0B", "CLOSING")].

Module netConnectionKindType.
Record t : Type := mk {
  family : Z;       (* uint32 *)
  sockType : Z;     (* uint32 *)
  filename : string
}.
End netConnectionKindType.

Definition kindTCP4 : netConnectionKindType.t :=
  netConnectionKindType.mk syscall.AF_INET syscall.SOCK_STREAM "tcp".
Definition kindTCP6 : netConnectionKindType.t :=
  netConnectionKindType.mk syscall.AF_INET6 syscall.SOCK_STREAM "tcp6".
Definition kindUDP4 : netConnectionKindType.t :=
  netConnectionKindType.mk syscall.AF_INET syscall.SOCK_DGRAM "udp".
Definition kindUDP6 : netConnectionKindType.t :=
  netConnectionKindType.mk syscall.AF_INET6 syscall.SOCK_DGRAM "udp6".
Definition kindUNIX : netConnectionKindType.t :=
  netConnectionKindType.mk syscall.AF_UNIX 0 "unix".

Definition netConnectionKindTable : list (string * list netConnectionKindType.t) :=
  [("all", [kindTCP4; kindTCP6; kindUDP4; kindUDP6; kindUNIX]);
   ("tcp", [kindTCP4; kindTCP6]);
   ("tcp4", [kindTCP4]);
   ("tcp6", [kindTCP6]);
   ("udp", [kindUDP4; kindUDP6]);
   ("udp4", [kindUDP4]);
   ("udp6", [kindUDP6]);
   ("unix", [kindUNIX]);
   ("inet", [kindTCP4; kindTCP6; kindUDP4; kindUDP6]);
   ("inet4", [kindTCP4; kindUDP4]);
   ("inet6", [kindTCP6; kindUDP6])].

Definition netConnectionKindMap : gmap string (list netConnectionKindType.t) :=
  list_to_map netConnectionKindTable.

Module inodeMap.
Record t : Type := mk {
  pid : Z;  (* int32 *)
  fd : Z    (* uint32 *)
}.
End inodeMap.

(** Declared in net.go. *)
Record Addr : Type := {
  IP : string;
  Port : Z   (* uint32 *)
}.

Module connTmp.
Record t : Type := mk {
  fd : Z;
  family : Z;
  sockType : Z;
  laddr : Addr;
  raddr : Addr;
  status : string;
  pid : Z;
  boundPid : Z;
  path : string
}.
End connTmp.

(** Declared in net.go; the field [Type] is [Type_] here. *)
Record NetConnectionStat : Type := {
  Fd : Z;       (* uint32 *)
  Family : Z;   (* uint32 *)
  Type_ : Z;    (* uint32 *)
  Laddr : Addr;
  Raddr : Addr;
  Status : string;
  Pid : Z       (* int32 *)
}.

(** The zero value of [Addr]. *)
Definition Addr0 : Addr := {| IP := EmptyString; Port := 0 |}.

(** *** The address decoder *)

(** [s[i], s[j] = s[j], s[i]] *)
Definition swap (s : list Z) (i j : Z) : list Z :=
  <[Z.to_nat i := netip.at_ s j]> (<[Z.to_nat j := netip.at_ s i]> s).

(** The loop of Reverse: [for i, j := 0, len(s)-1; i < j; i, j = i+1, j-1]. *)
Fixpoint reverseLoop (fuel : nat) (s : list Z) (i j : Z) : list Z :=
  match fuel with
  | O => s
  | S fuel' => if i <? j then reverseLoop fuel' (swap s i j) (i + 1) (j - 1) else s
  end.

(** Reverse reverses array of bytes. *)
Definition Reverse (s : list Z) : list Z :=
  reverseLoop (length s) s 0 (Z.of_nat (length s) - 1).

(** The loop of parseIPv6HexString: [for i := 0; i < len(src); i += 4].
    Reverse writes into [src[i:i+4]], which no later round reads. *)
Fixpoint ipv6Loop (fuel : nat) (src : list Z) (i : Z) (buf : list Z) : list Z :=
  match fuel with
  | O => buf
  | S fuel' =>
    if i <? Z.of_nat (length src)
    then let r := Reverse (take 4 (drop (Z.to_nat i) src)) in
         ipv6Loop fuel' src (i + 4) (buf ++ r)
    else buf
  end.

(** parseIPv6HexString parse array of bytes to IPv6 string *)
Definition parseIPv6HexString (src : list Z) : result (list Z) :=
  if negb (Z.of_nat (length src) =? 16) then Err ErrInvalidIPv6String
  else Ok (ipv6Loop 4 src 0 []).

(** decodeAddress decode addresse represents addr in proc/net/*
    ex:
    "0500000A:0016" -> "10.0.0.5", 22
    "0085002452100113070057A13F025401:0035" -> "2400:8500:1301:1052:a157:7:154:23f", 53 *)
Definition decodeAddress (family : Z) (src : string) : result Addr :=
  let t := strings.Split src ":" in
  if negb (Z.of_nat (length t) =? 2) then Err (ErrDoesNotContainPort src) else
  let addr := nth 0 t EmptyString in
  match strconv.ParseInt ("0x" +:+ nth 1 t EmptyString) 0 64 with
  | (_, Some _) => Err (ErrInvalidPort src)
  | (port, None) =>
    match hex.DecodeString addr with
    | (_, Some e) => Err (ErrDecodeError e)
    | (decoded, None) =>
      (* Assumes this is little_endian *)
      if family =? syscall.AF_INET
      then Ok {| IP := netip.String (Reverse decoded); Port := uint32 port |}
      else (* IPv6 *)
        ip ← parseIPv6HexString decoded;
        Ok {| IP := netip.String ip; Port := uint32 port |}
    end
  end.

(** *** The table parsers *)

(** One row of /proc/net/{tcp,tcp6,udp,udp6}: the body of the loop of
    processInet.  [Ok None] is a row passed over by [continue]. *)
Definition inetRow (kind : netConnectionKindType.t)
    (inodes : gmap string (list inodeMap.t)) (filterPid : Z) (line : string)
  : result (option connTmp.t) :=
  let l := strings.Fields line in
  if Z.of_nat (length l) <? 10 then Ok None else
  let laddr := nth 1 l EmptyString in
  let raddr := nth 2 l EmptyString in
  let status := nth 3 l EmptyString in
  let inode := nth 9 l EmptyString in
  owner ← match inodes !! inode with
          | Some i =>
            match i with
            | [] => Panic IndexOutOfRange   (* i[0] *)
            | i0 :: _ => Ok (inodeMap.pid i0, inodeMap.fd i0)
            end
          | None => Ok (0, 0)
          end;
  let '(pid, fd) := owner in
  if (0 <? filterPid) && negb (filterPid =? pid) then Ok None else
  let status :=
    if netConnectionKindType.sockType kind =? syscall.SOCK_STREAM
    then default EmptyString (TCPStatuses !! status)
    else "NONE" in
  match decodeAddress (netConnectionKindType.family kind) laddr with
  | Panic p => Panic p
  | Err _ => Ok None
  | Ok la =>
    match decodeAddress (netConnectionKindType.family kind) raddr with
    | Panic p => Panic p
    | Err _ => Ok None
    | Ok ra =>
      Ok (Some (connTmp.mk fd (netConnectionKindType.family kind)
                  (netConnectionKindType.sockType kind) la ra status pid 0 EmptyString))
    end
  end.

(** [for _, line := range lines { ... ret = append(ret, ...) }] of processInet. *)
Definition inetRows (kind : netConnectionKindType.t)
    (inodes : gmap string (list inodeMap.t)) (filterPid : Z)
    (lines : list string) (ret : list connTmp.t) : result (list connTmp.t) :=
  foldRes (fun ret line =>
             c ← inetRow kind inodes filterPid line;
             Ok (match c with Some c => ret ++ [c] | None => ret end))
          lines ret.

(** [lines[1:]] *)
Definition skipFirst (lines : list string) : result (list string) :=
  match lines with
  | [] => Panic SliceBoundsOutOfRange
  | _ :: rest => Ok rest
  end.

Definition processInet (h : Host) (file : string) (kind : netConnectionKindType.t)
    (inodes : gmap string (list inodeMap.t)) (filterPid : Z) : IO (list connTmp.t) :=
  missing ← (if strings.HasSuffix file "6"
             then e ← pathExists h file; mret (negb e)
             else mret false);
  if missing : bool then
    (* IPv6 not supported, return empty. *)
    mret []
  else
    lines ← readLines h file;
    pure (rows ← skipFirst lines; inetRows kind inodes filterPid rows []).

(** The inner loop of processUnix: [for _, pair := range pairs]. *)
Definition unixPairs (kind : netConnectionKindType.t) (filterPid : Z)
    (tokens : list string) (st : Z) (pairs : list inodeMap.t)
    (ret : list connTmp.t) : list connTmp.t :=
  foldl (fun ret pair =>
           if (0 <? filterPid) && negb (filterPid =? inodeMap.pid pair) then ret
           else
             let path :=
               if Z.of_nat (length tokens) =? 8
               then nth (length tokens - 1) tokens EmptyString
               else EmptyString in
             ret ++ [connTmp.mk (inodeMap.fd pair) (netConnectionKindType.family kind)
                       (uint32 st) {| IP := path; Port := 0 |} Addr0 "NONE"
                       (inodeMap.pid pair) 0 path])
        ret pairs.

(** One row of /proc/net/unix: the body of the outer loop of processUnix,
    which returns the list with the records of the row appended. *)
Definition unixRow (kind : netConnectionKindType.t)
    (inodes : gmap string (list inodeMap.t)) (filterPid : Z)
    (ret : list connTmp.t) (line : string) : result (list connTmp.t) :=
  let tokens := strings.Fields line in
  if Z.of_nat (length tokens) <? 6 then Ok ret else
  t4 ← index tokens 4;
  match strconv.Atoi t4 with
  | (_, Some e) => Err (ErrNum e)
  | (st, None) =>
    inode ← index tokens 6;
    let pairs := match inodes !! inode with
                 | Some pairs => pairs
                 | None => [inodeMap.mk 0 0]
                 end in
    Ok (unixPairs kind filterPid tokens st pairs ret)
  end.

Definition unixRows (kind : netConnectionKindType.t)
    (inodes : gmap string (list inodeMap.t)) (filterPid : Z)
    (lines : list string) (ret : list connTmp.t) : result (list connTmp.t) :=
  foldRes (unixRow kind inodes filterPid) lines ret.

Definition processUnix (h : Host) (file : string) (kind : netConnectionKindType.t)
    (inodes : gmap string (list inodeMap.t)) (filterPid : Z) : IO (list connTmp.t) :=
  lines ← readLines h file;
  pure (rows ← skipFirst lines; unixRows kind inodes filterPid rows []).

(** *** The inode-ownership index *)

(** One entry of the fd directory: the body of the loop of getProcInodes. *)
Definition procInode (h : Host) (root : string) (pid : Z)
    (ret : gmap string (list inodeMap.t)) (name : string)
  : IO (gmap string (list inodeMap.t)) :=
  let inodePath := root +:+ "/" +:+ itoa pid +:+ "/fd/" +:+ name in
  mkIO [AccReadlink inodePath]
    match Readlink h inodePath with
    | None => Ok ret
    | Some inode =>
      if negb (strings.HasPrefix inode "socket:[") then Ok ret else
      (* the process is using a socket *)
      let l := len inode in
      match slice inode 8 (l - 1) with
      | None => Panic SliceBoundsOutOfRange
      | Some inode =>
        let ret := match ret !! inode with
                   | Some _ => ret
                   | None => <[inode := []]> ret
                   end in
        match strconv.Atoi name with
        | (_, Some _) => Ok ret
        | (fd, None) =>
          let i := inodeMap.mk pid (uint32 fd) in
          Ok (<[inode := default [] (ret !! inode) ++ [i]]> ret)
        end
      end
    end.

(** getProcInodes returnes fd of the pid. *)
Definition getProcInodes (h : Host) (root : string) (pid : Z)
  : IO (gmap string (list inodeMap.t)) :=
  let dir := root +:+ "/" +:+ itoa pid +:+ "/fd" in
  match ReadDir h dir with
  | None => mkIO [AccReadDir dir] (Ok ∅)
  | Some files =>
    io_bind (mkIO [AccReadDir dir] (Ok tt))
            (fun _ => foldIO (procInode h root pid) files ∅)
  end.

(** Pids retunres all pids. *)
Definition Pids (h : Host) : IO (list Z) :=
  let dir := HostProc h [] in
  mkIO [AccReaddirnames dir]
    match Readdirnames h dir with
    | None => Err (ErrIO dir)
    | Some fnames =>
      Ok (foldl (fun ret fname =>
                   match strconv.ParseInt fname 10 32 with
                   | (_, Some _) => ret   (* if not numeric name, just skip *)
                   | (pid, None) => ret ++ [pid]
                   end)
                [] fnames)
    end.

(** The loop of updateMap visits every key of [add] once; the order does not
    matter, since a round only writes its own key. *)
Definition updateMap (src add : gmap string (list inodeMap.t))
  : gmap string (list inodeMap.t) :=
  map_fold (fun key value src =>
              match src !! key with
              | None => <[key := value]> src
              | Some a => <[key := a ++ value]> src
              end)
           src add.

Definition getProcInodesAll (h : Host) (root : string)
  : IO (gmap string (list inodeMap.t)) :=
  pids ← Pids h;
  foldIO (fun ret pid =>
            t ← getProcInodes h root pid;
            if Z.of_nat (size t) =? 0 then mret ret
            else mret (updateMap ret t))
         pids ∅.

(** *** The connection enumerator *)

Section Connections.
(** [NetConnectionStat.String()], declared in net.go: the JSON text of the
    record. *)
Variable String : NetConnectionStat -> string.

(** The record built from a parsed row. *)
Definition connOf (c : connTmp.t) : NetConnectionStat :=
  {| Fd := connTmp.fd c;
     Family := connTmp.family c;
     Type_ := connTmp.sockType c;
     Laddr := connTmp.laddr c;
     Raddr := connTmp.raddr c;
     Status := connTmp.status c;
     Pid := if connTmp.pid c =? 0 then connTmp.boundPid c else connTmp.pid c |}.

(** [for _, c := range ls]: check duplicate using JSON format. *)
Definition dedup (ls : list connTmp.t)
    (st : gmap string bool * list NetConnectionStat)
  : gmap string bool * list NetConnectionStat :=
  foldl (fun '(dupCheckMap, ret) c =>
           let conn := connOf c in
           let json := String conn in
           match dupCheckMap !! json with
           | Some _ => (dupCheckMap, ret)
           | None => (<[json := true]> dupCheckMap, ret ++ [conn])
           end)
        st ls.

(** One round of [for _, t := range tmap]. *)
Definition connRound (h : Host) (root : string)
    (inodes : gmap string (list inodeMap.t)) (pid : Z)
    (st : gmap string bool * list NetConnectionStat) (t : netConnectionKindType.t)
  : IO (gmap string bool * list NetConnectionStat) :=
  let path := root +:+ "/net/" +:+ netConnectionKindType.filename t in
  ls ← (if (netConnectionKindType.family t =? syscall.AF_INET)
           || (netConnectionKindType.family t =? syscall.AF_INET6)
        then processInet h path t inodes pid
        else if netConnectionKindType.family t =? syscall.AF_UNIX
        then processUnix h path t inodes pid
        else mret []);
  mret (dedup ls st).

(** Return a list of network connections opened by a process. *)
Definition NetConnectionsPid (h : Host) (kind : string) (pid : Z)
  : IO (list NetConnectionStat) :=
  match netConnectionKindMap !! kind with
  | None => pure (Err (ErrInvalidKind kind))
  | Some tmap =>
    let root := HostProc h [] in
    let loop inodes :=
      st ← foldIO (connRound h root inodes pid) tmap (∅, []);
      mret (snd st) in
    if pid =? 0 then
      let all := getProcInodesAll h root in
      match outcome all with
      | Err _ => mkIO (trace all) (Err (ErrCouldNotGetPids pid))
      | _ => inodes ← all; loop inodes
      end
    else
      inodes ← getProcInodes h root pid;
      if Z.of_nat (size inodes) =? 0 then
        (* no connection for the pid *)
        mret []
      else loop inodes
  end.

(** Return a list of network connections opened. *)
Definition NetConnections (h : Host) (kind : string) : IO (list NetConnectionStat) :=
  NetConnectionsPid h kind 0.
End Connections.

(** ** The specification's vocabulary *)

(** The error taxonomy of the specification (section 7). *)
Inductive errorClass : Type := IOError | FormatError | MalformedInput | InvalidArgument.

(** The class of each error value: a token that fails to decode is
    MalformedInput, an unrecognized kind InvalidArgument, a missing
    delimiter or mismatched column counts FormatError, a failure of the
    file layer IOError.  The taxonomy names no class for a numeric parse
    failure. *)
Definition classOf (e : error) : option errorClass :=
  match e with
  | ErrDoesNotContainPort _ | ErrInvalidPort _ | ErrDecodeError _
  | ErrInvalidIPv6String => Some MalformedInput
  | ErrInvalidKind _ => Some InvalidArgument
  | ErrExpectedColon _ | ErrExpectedSameColumns _ => Some FormatError
  | ErrCouldNotGetPids _ | ErrIO _ => Some IOError
  | ErrNum _ => None
  end.

(** What the duplicate check keeps between rounds: the keys of the records
    kept are pairwise different, and the map holds exactly those keys. *)
Definition dupCheckInv (String : NetConnectionStat -> string)
    (st : gmap string bool * list NetConnectionStat) : Prop :=
  NoDup (String <$> st.2)
  /\ forall json, is_Some (st.1 !! json) <-> json ∈ String <$> st.2.

(** The enumerated set of kinds of the specification (section 4.5). *)
Definition validKinds : list string :=
  ["all"; "tcp"; "tcp4"; "tcp6"; "udp"; "udp4"; "udp6"; "unix"; "inet"; "inet4"; "inet6"].

(** A string of hexadecimal digits, as procfs prints an address or a port. *)
Definition isHexDigit (c : ascii) : bool :=
  let b := byte_of c in
  ((48 <=? b) && (b <=? 57)) || ((97 <=? b) && (b <=? 102)) || ((65 <=? b) && (b <=? 70)).

Definition allHex (s : string) : bool := forallb isHexDigit (list_ascii_of_string s).

(** No byte of [s] is [c]. *)
Definition noByte (c : ascii) (s : string) : bool :=
  forallb (fun x => negb (Ascii.eqb x c)) (list_ascii_of_string s).

(** The value of a string of hexadecimal digits, most significant first,
    read after the value [n]. *)
Definition hexFrom (n : Z) (s : string) : Z :=
  fold_left (fun n c => 16 * n + hex.reverseHexTable (byte_of c)) (list_ascii_of_string s) n.

Definition hexValue (s : string) : Z := hexFrom 0 s.

(** A byte that is neither a hexadecimal digit nor an underscore. *)
Definition strayByte (c : ascii) : bool := negb (isHexDigit c) && negb (byte_of c =? 95).

Definition hasStrayByte (s : string) : bool := existsb strayByte (list_ascii_of_string s).

Section SnmpFiles.
Variable mapUnicodeToLower : string -> string.

(** The protocol a header line of /proc/net/snmp names: its prefix up to
    the colon, in lower case. *)
Definition protoOf (line : string) : string :=
  strings.ToLower mapUnicodeToLower
    (default EmptyString (slice line 0 (strings.IndexByte line ":"))).

(** A header line and its value line that parse: a colon, both lines long
    enough, as many labels as values, every value a 64-bit integer. *)
Definition pairParses (header values : string) : bool :=
  let r := strings.IndexByte header ":" in
  negb (r =? -1) &&
  match slice_from header (r + 2), slice_from values (r + 2) with
  | Some ns, Some vs =>
    let statNames := strings.Split ns " " in
    let statValues := strings.Split vs " " in
    (Z.of_nat (length statNames) =? Z.of_nat (length statValues))
    && match readStats statNames 0 statValues ∅ with Ok _ => true | _ => false end
  | _, _ => false
  end.

(** A file made of header/value pairs in which every pair of a requested
    protocol parses and every other header line has its colon. *)
Fixpoint pairsOk (protos : gmap string bool) (lines : list string) : bool :=
  match lines with
  | [] => true
  | header :: rest =>
    match rest with
    | [] => false
    | values :: rest' =>
      (if requested protos (protoOf header) then pairParses header values
       else negb (strings.IndexByte header ":" =? -1))
      && pairsOk protos rest'
    end
  end.

(** The protocols of the pairs of a file, in file order. *)
Fixpoint pairProtos (lines : list string) : list string :=
  match lines with
  | [] => []
  | header :: rest =>
    match rest with
    | [] => []
    | _ :: rest' => protoOf header :: pairProtos rest'
    end
  end.
End SnmpFiles.

(** ** Sample hosts *)

Definition lookupStr {A : Type} (table : list (string * A)) (key : string) : option A :=
  snd <$> List.find (fun kv => String.eqb (fst kv) key) table.

Definition joinProc (subs : list string) : string :=
  foldl (fun acc p => acc +:+ "/" +:+ p) "/proc" subs.

(** A JSON rendering of a connection record, for the sample runs. *)
Definition dquote : string := String "034"%char EmptyString.

Definition jsonKey (k : string) : string := dquote +:+ k +:+ dquote +:+ ":".

Definition jsonAddr (a : Addr) : string :=
  "{" +:+ jsonKey "ip" +:+ dquote +:+ IP a +:+ dquote +:+ ","
      +:+ jsonKey "port" +:+ itoa (Port a) +:+ "}".

Definition jsonString (n : NetConnectionStat) : string :=
  "{" +:+ jsonKey "fd" +:+ itoa (Fd n) +:+ ","
      +:+ jsonKey "family" +:+ itoa (Family n) +:+ ","
      +:+ jsonKey "type" +:+ itoa (Type_ n) +:+ ","
      +:+ jsonKey "localaddr" +:+ jsonAddr (Laddr n) +:+ ","
      +:+ jsonKey "remoteaddr" +:+ jsonAddr (Raddr n) +:+ ","
      +:+ jsonKey "status" +:+ dquote +:+ Status n +:+ dquote +:+ ","
      +:+ jsonKey "pid" +:+ itoa (Pid n) +:+ "}".

Definition tcpHeader : string :=
  "  sl  local_address rem_address   st tx_queue rx_queue tr tm->when retrnsmt   uid  timeout inode".

Definition unixHeader : string := "Num       RefCount Protocol Flags    Type St Inode Path".

(** Rows of /proc/net/tcp: a listening socket, an established connection,
    and a row whose local port is not hexadecimal. *)
Definition tcpListen : string :=
  "   0: 0500000A:0016 00000000:0000 0A 00000000:00000000 00:00000000 00000000     0        0 100 1 0000000000000000 100 0 0 10 0".
Definition tcpEstablished : string :=
  "   1: 0500000A:0016 0100000A:D431 01 00000000:00000000 00:00000000 00000000     0        0 200 1 0000000000000000 100 0 0 10 0".
Definition tcpBadPort : string :=
  "   2: 0500000A:XX16 0100000A:D431 01 00000000:00000000 00:00000000 00000000     0        0 200 1 0000000000000000 100 0 0 10 0".

(** Rows of /proc/net/unix: a bound socket, two unbound ones, a row whose
    socket type is no number, and a row cut after its sixth field. *)
Definition unixNamed : string :=
  "0000000000000000: 00000002 00000000 00010000 0001 01 300 /run/x.sock".
Definition unixUnnamed : string :=
  "0000000000000000: 00000002 00000000 00010000 0001 01 400".
Definition unixLater : string :=
  "0000000000000000: 00000002 00000000 00010000 0001 01 500".
Definition unixBadType : string :=
  "0000000000000000: 00000002 00000000 00010000 000x 01 400".
Definition unixSixFields : string :=
  "0000000000000000: 00000002 00000000 00010000 0001 01".

(** Process 1 holds socket 300 through the descriptors 3 and 03 and socket
    100 through 4; process 2 holds socket 200; process 4 holds no socket.
    The third row of the TCP table has a port that is not hexadecimal. *)
Definition sampleHost : Host := {|
  HostProc := joinProc;
  ReadLines := lookupStr
    [("/proc/net/tcp",
      [tcpHeader; tcpListen; tcpEstablished; tcpBadPort]);
     ("/proc/net/unix",
      [unixHeader; unixNamed; unixUnnamed]);
     ("/proc/net/snmp",
      ["Ip: Forwarding DefaultTTL"; "Ip: 1 64";
       "Icmp: InMsgs InErrors"; "Icmp: 12 0";
       "IcmpMsg: InType3 OutType3"; "IcmpMsg: 5 5";
       "Tcp: RtoAlgorithm RtoMin RtoMax"; "Tcp: 1 200 120000";
       "Udp: InDatagrams NoPorts"; "Udp: 7 0";
       "UdpLite: InDatagrams NoPorts"; "UdpLite: 0 0"])];
  PathExists := fun _ => false;
  ReadDir := lookupStr
    [("/proc/1/fd", ["0"; "3"; "03"; "4"]); ("/proc/2/fd", ["5"]);
     ("/proc/4/fd", ["0"; "1"])];
  Readlink := lookupStr
    [("/proc/1/fd/0", "/dev/null"); ("/proc/1/fd/3", "socket:[300]");
     ("/proc/1/fd/03", "socket:[300]"); ("/proc/1/fd/4", "socket:[100]");
     ("/proc/2/fd/5", "socket:[200]");
     ("/proc/4/fd/0", "/dev/null"); ("/proc/4/fd/1", "pipe:[77]")];
  Readdirnames := lookupStr [("/proc", ["1"; "2"; "4"; "net"; "self"])]
|}.

(** The row of the bound socket of /proc/net/unix as process 1 owns it
    through descriptor 3, and the record made of it. *)
Definition sampleOwned : connTmp.t :=
  connTmp.mk 3 1 1 {| IP := "/run/x.sock"; Port := 0 |} Addr0 "NONE" 1 0 "/run/x.sock".

Definition sampleRecord : NetConnectionStat :=
  {| Fd := 3; Family := 1; Type_ := 1;
     Laddr := {| IP := "/run/x.sock"; Port := 0 |}; Raddr := Addr0;
     Status := "NONE"; Pid := 1 |}.

(** A host whose files are the given tables and nothing else. *)
Definition hostOfFiles (files : list (string * list string)) : Host := {|
  HostProc := joinProc;
  ReadLines := lookupStr files;
  PathExists := fun path => bool_decide (is_Some (lookupStr files path));
  ReadDir := fun _ => None;
  Readlink := fun _ => None;
  Readdirnames := fun _ => Some []
|}.

(** /proc/net/unix with a row cut after its sixth field. *)
Definition sixFieldsHost : Host :=
  hostOfFiles
    [("/proc/net/unix",
      [unixHeader; unixSixFields])].

(** /proc/net/unix whose second row has a socket type that is no number. *)
Definition badTypeHost : Host :=
  hostOfFiles
    [("/proc/net/unix",
      [unixHeader; unixNamed; unixBadType; unixLater])].

(** /proc/net/snmp whose Tcp header has three labels for two values. *)
Definition mismatchHost : Host :=
  hostOfFiles
    [("/proc/net/snmp",
      ["Ip: Forwarding DefaultTTL"; "Ip: 1 64";
       "Tcp: RtoAlgorithm RtoMin RtoMax"; "Tcp: 1 200";
       "Udp: InDatagrams NoPorts"; "Udp: 7 0"])].

(** ** Interface counters *)

(** Declared in net.go. *)
Record NetIOCountersStat : Type := {
  Name : string;
  BytesSent : Z;     (* uint64 *)
  BytesRecv : Z;
  PacketsSent : Z;
  PacketsRecv : Z;
  Errin : Z;
  Errout : Z;
  Dropin : Z;
  Dropout : Z
}.

(** [strconv.ParseUint(fields[i], 10, 64)]: the index panics, the parse
    fails with its error. *)
Definition uintField (fields : list string) (i : Z) : result Z :=
  s ← index fields i;
  match strconv.ParseUint s 10 64 with
  | (_, Some e) => Err (ErrNum e)
  | (v, None) => Ok v
  end.

(** One line of /proc/net/dev: the body of the loop of NetIOCountersByFile.
    [Ok None] is a line passed over by [continue], [Err] the error the
    function returns at once. *)
Definition ioRow (line : string) : result (option NetIOCountersStat) :=
  let parts := strings.SplitN line ":" 2 in
  if negb (Z.of_nat (length parts) =? 2) then Ok None else
  let interfaceName := strings.TrimSpace (nth 0 parts EmptyString) in
  if String.eqb interfaceName EmptyString then Ok None else
  let fields := strings.Fields (strings.TrimSpace (nth 1 parts EmptyString)) in
  bytesRecv ← uintField fields 0;
  packetsRecv ← uintField fields 1;
  errIn ← uintField fields 2;
  dropIn ← uintField fields 3;
  bytesSent ← uintField fields 8;
  packetsSent ← uintField fields 9;
  errOut ← uintField fields 10;
  dropOut ← uintField fields 13;
  Ok (Some {| Name := interfaceName;
              BytesRecv := bytesRecv;
              PacketsRecv := packetsRecv;
              Errin := errIn;
              Dropin := dropIn;
              BytesSent := bytesSent;
              PacketsSent := packetsSent;
              Errout := errOut;
              Dropout := dropOut |}).

(** [for _, line := range lines { ... ret = append(ret, nic) }]: the slice
    at the end of the loop with no error, or the slice and the error of
    [return ret, err]. *)
Fixpoint ioRows (lines : list string) (ret : list NetIOCountersStat)
  : result (list NetIOCountersStat * option error) :=
  match lines with
  | [] => Ok (ret, None)
  | line :: rest =>
    match ioRow line with
    | Ok None => ioRows rest ret
    | Ok (Some nic) => ioRows rest (ret ++ [nic])
    | Err e => Ok (ret, Some e)
    | Panic p => Panic p
    end
  end.

(** The panics of NetIOCountersByFile: [make] with a negative capacity, or
    one of the others. *)
Inductive ioPanic : Type :=
  | MakeSliceCapOutOfRange
  | Runtime (p : panic).

(** What NetIOCountersByFile gives its caller: both results of a return,
    or a panic. *)
Inductive ioReturn : Type :=
  | Returns (ret : list NetIOCountersStat) (err : option error)
  | Panics (p : ioPanic).

Section InterfaceCounters.
(** [getNetIOCountersAll], declared in net.go: the sum of the records as
    one record. *)
Variable getNetIOCountersAll :
  list NetIOCountersStat -> list NetIOCountersStat * option error.

Definition NetIOCountersByFile (h : Host) (pernic : bool) (filename : string)
  : list access * ioReturn :=
  ([AccReadLines filename],
   match ReadLines h filename with
   | None => Returns [] (Some (ErrIO filename))
   | Some lines =>
     let statlen := Z.of_nat (length lines) - 1 in
     if statlen <? 0 then Panics MakeSliceCapOutOfRange else
     match lines with
     | _ :: _ :: rows =>
       match ioRows rows [] with
       | Panic p => Panics (Runtime p)
       | Err e => Returns [] (Some e)
       | Ok (ret, Some err) => Returns ret (Some err)
       | Ok (ret, None) =>
         if negb pernic
         then let '(all, err) := getNetIOCountersAll ret in Returns all err
         else Returns ret None
       end
     | _ => Panics (Runtime SliceBoundsOutOfRange)   (* lines[2:] *)
     end
   end).

(** NetIOCounters returnes network I/O statistics for every network
    interface installed on the system. *)
Definition NetIOCounters (h : Host) (pernic : bool) : list access * ioReturn :=
  NetIOCountersByFile h pernic (HostProc h ["net/dev"]).
End InterfaceCounters.

(** ** Connection tracking *)

(** Declared in net.go. *)
Record NetFilterStat : Type := {
  ConnTrackCount : Z;   (* int64 *)
  ConnTrackMax : Z
}.

(** [s[0]] on a slice of integers. *)
Definition firstOf (s : list Z) : result Z :=
  match s with
  | [] => Panic IndexOutOfRange
  | x :: _ => Ok x
  end.

Section NetFilter.
(** [common.ReadInts(path)], of gopsutil's internal/common package: the
    integers of a file, None on failure. *)
Variable ReadInts : string -> option (list Z).

(** NetFilterCounters returns iptables conntrack statistics: the files it
    read through [ReadInts], in order, and its outcome. *)
Definition NetFilterCounters (h : Host) : list string * result (list NetFilterStat) :=
  let countfile := HostProc h ["sys/net/netfilter/nf_conntrack_count"] in
  let maxfile := HostProc h ["sys/net/netfilter/nf_conntrack_max"] in
  match ReadInts countfile with
  | None => ([countfile], Err (ErrIO countfile))
  | Some count =>
    match ReadInts maxfile with
    | None => ([countfile; maxfile], Err (ErrIO maxfile))
    | Some max =>
      ([countfile; maxfile],
       c ← firstOf count;
       m ← firstOf max;
       Ok [{| ConnTrackCount := c; ConnTrackMax := m |}])
    end
  end.
End NetFilter.

(** ** Vocabulary for the interface counters *)

(** A decimal number that fits 64 bits, as [ParseUint(s, 10, 64)] takes it. *)
Definition isUint64 (s : string) : bool :=
  match strconv.ParseUint s 10 64 with
  | (_, None) => true
  | (_, Some _) => false
  end.

(** The interface a line of /proc/net/dev names: what stands before its
    first colon, trimmed, when there is a colon and the name is not blank. *)
Definition devName (line : string) : option string :=
  let parts := strings.SplitN line ":" 2 in
  if Z.of_nat (length parts) =? 2 then
    let name := strings.TrimSpace (nth 0 parts EmptyString) in
    if String.eqb name EmptyString then None else Some name
  else None.

(** The fields of a line of /proc/net/dev after its first colon. *)
Definition devFields (line : string) : list string :=
  strings.Fields (strings.TrimSpace (nth 1 (strings.SplitN line ":" 2) EmptyString)).

(** The positions NetIOCountersByFile reads, in the order it reads them. *)
Definition devPositions : list Z := [0; 1; 2; 3; 8; 9; 10; 13].

(** /proc/net/dev with two interfaces, and with a line cut short. *)
Definition devHeader1 : string :=
  "Inter-|   Receive                                                |  Transmit".
Definition devHeader2 : string :=
  " face |bytes    packets errs drop fifo frame compressed multicast|bytes    packets errs drop fifo colls carrier compressed".
Definition devLo : string := "    lo: 1000 10 0 0 0 0 0 0 2000 20 0 0 0 0 0 0".
Definition devEth0 : string := "  eth0: 123456 789 1 2 0 0 0 0 654321 987 3 4 0 5 0 0".
Definition devBad : string := "  eth1: 5 6 x 8 0 0 0 0 9 10 11 12 0 13 0 0".
Definition devShort : string := "  eth2: 1 2 3 4".

Definition devHost (rows : list string) : Host :=
  hostOfFiles [("/proc/net/dev", devHeader1 :: devHeader2 :: rows)].

(** A stand-in for getNetIOCountersAll in the sample runs: the number of
    records as one record. *)
Definition countAll (ret : list NetIOCountersStat) : list NetIOCountersStat * option error :=
  ([{| Name := "all"; BytesSent := 0; BytesRecv := 0; PacketsSent := 0;
       PacketsRecv := Z.of_nat (length ret); Errin := 0; Errout := 0; Dropin := 0;
       Dropout := 0 |}], None).

(** ** Vocabulary for the inode-ownership index *)

(** What an owner of the index of one process is: the entry of the fd
    directory it was made of. *)
Definition ownerOf (h : Host) (root : string) (pid : Z) (files : list string)
    (inode : string) (p : inodeMap.t) : Prop :=
  exists name link v,
    name ∈ files
    /\ Readlink h (root +:+ "/" +:+ itoa pid +:+ "/fd/" +:+ name) = Some link
    /\ strings.HasPrefix link "socket:[" = true
    /\ slice link 8 (len link - 1) = Some inode
    /\ strconv.Atoi name = (v, None)
    /\ p = inodeMap.mk pid (uint32 v).

(** The accesses of getProcInodes: the fd directory of the process, then
    links in it. *)
Definition fdAccess (h : Host) (root : string) (pid : Z) (a : access) : Prop :=
  a = AccReadDir (root +:+ "/" +:+ itoa pid +:+ "/fd")
  \/ exists files name,
       ReadDir h (root +:+ "/" +:+ itoa pid +:+ "/fd") = Some files
       /\ name ∈ files
       /\ a = AccReadlink (root +:+ "/" +:+ itoa pid +:+ "/fd/" +:+ name).


(** ** Vocabulary for the connection tables *)

(** What processInet makes of a row: the family and type of the kind, the
    ports in 32 bits, the status of the table, the owner the index names
    first for the inode (none: pid 0 and fd 0), and, under a pid filter,
    that pid. *)
Definition inetRecord (kind : netConnectionKindType.t)
    (inodes : gmap string (list inodeMap.t)) (filterPid : Z) (c : connTmp.t) : Prop :=
  connTmp.family c = netConnectionKindType.family kind
  /\ connTmp.sockType c = netConnectionKindType.sockType kind
  /\ connTmp.boundPid c = 0
  /\ connTmp.path c = EmptyString
  /\ 0 <= Port (connTmp.laddr c) < 2 ^ 32
  /\ 0 <= Port (connTmp.raddr c) < 2 ^ 32
  /\ (0 < filterPid -> connTmp.pid c = filterPid)
  /\ (if netConnectionKindType.sockType kind =? syscall.SOCK_STREAM
      then connTmp.status c = EmptyString
           \/ exists code, TCPStatuses !! code = Some (connTmp.status c)
      else connTmp.status c = "NONE")
  /\ ((connTmp.pid c = 0 /\ connTmp.fd c = 0)
      \/ exists inode i0 rest,
           inodes !! inode = Some (i0 :: rest)
           /\ connTmp.pid c = inodeMap.pid i0 /\ connTmp.fd c = inodeMap.fd i0).

(** What processUnix makes of a row: the family of the kind, a type in 32
    bits, the path as local address, no remote address, the status NONE,
    an owner the index names for the inode (none: pid 0 and fd 0), and,
    under a pid filter, that pid. *)
Definition unixRecord (kind : netConnectionKindType.t)
    (inodes : gmap string (list inodeMap.t)) (filterPid : Z) (c : connTmp.t) : Prop :=
  connTmp.family c = netConnectionKindType.family kind
  /\ 0 <= connTmp.sockType c < 2 ^ 32
  /\ connTmp.boundPid c = 0
  /\ connTmp.laddr c = {| IP := connTmp.path c; Port := 0 |}
  /\ connTmp.raddr c = Addr0
  /\ connTmp.status c = "NONE"
  /\ (0 < filterPid -> connTmp.pid c = filterPid)
  /\ ((connTmp.pid c = 0 /\ connTmp.fd c = 0)
      \/ exists inode pairs,
           inodes !! inode = Some pairs
           /\ inodeMap.mk (connTmp.pid c) (connTmp.fd c) ∈ pairs).

(** What a record NetConnectionsPid returns for the kinds [tmap] is: of the
    family of one of them, of its type unless it is a Unix socket, with
    ports in 32 bits, and, for a pid above 0, of that pid. *)
Definition kindRecord (tmap : list netConnectionKindType.t) (pid : Z)
    (n : NetConnectionStat) : Prop :=
  (exists t, t ∈ tmap
     /\ Family n = netConnectionKindType.family t
     /\ (netConnectionKindType.family t <> syscall.AF_UNIX ->
         Type_ n = netConnectionKindType.sockType t))
  /\ 0 <= Port (Laddr n) < 2 ^ 32
  /\ 0 <= Port (Raddr n) < 2 ^ 32
  /\ (0 < pid -> Pid n = pid).

(** The file accesses of NetConnectionsPid for the kinds [tmap]: the tables
    of the kinds, the listing of the proc root when all processes are
    asked for, and fd directories with their links, of the pid of the call
    when it is not 0. *)
Definition connAccess (h : Host) (tmap : list netConnectionKindType.t) (pid : Z)
    (a : access) : Prop :=
  match a with
  | AccReadLines path =>
    exists t, t ∈ tmap
      /\ path = HostProc h [] +:+ "/net/" +:+ netConnectionKindType.filename t
  | AccPathExists path =>
    exists t, t ∈ tmap
      /\ path = HostProc h [] +:+ "/net/" +:+ netConnectionKindType.filename t
      /\ strings.HasSuffix path "6" = true
  | AccReaddirnames path => pid = 0 /\ path = HostProc h []
  | AccReadDir path =>
    exists p, (pid <> 0 -> p = pid)
      /\ path = HostProc h [] +:+ "/" +:+ itoa p +:+ "/fd"
  | AccReadlink path =>
    exists p name, (pid <> 0 -> p = pid)
      /\ path = HostProc h [] +:+ "/" +:+ itoa p +:+ "/fd/" +:+ name
  end.

(** A process whose fd directory has an entry that is no number and links
    to the socket of the first row of the TCP table. *)
Definition strayFdHost : Host := {|
  HostProc := joinProc;
  ReadLines := lookupStr [("/proc/net/tcp", [tcpHeader; tcpListen])];
  PathExists := fun _ => false;
  ReadDir := lookupStr [("/proc/7/fd", ["x"])];
  Readlink := lookupStr [("/proc/7/fd/x", "socket:[100]")];
  Readdirnames := lookupStr [("/proc", ["7"])]
|}.

(** A host whose proc root cannot be listed. *)
Definition noProcHost : Host := {|
  HostProc := joinProc;
  ReadLines := fun _ => None;
  PathExists := fun _ => false;
  ReadDir := fun _ => None;
  Readlink := fun _ => None;
  Readdirnames := fun _ => None
|}.

(** /proc/net/snmp with a header line that has no colon, with a value that
    is no number, and with a header line that has no value line. *)
Definition noColonHost : Host :=
  hostOfFiles
    [("/proc/net/snmp",
      ["Ip: Forwarding DefaultTTL"; "Ip: 1 64"; "Tcp RtoAlgorithm RtoMin"; "Tcp: 1 200"])].

Definition badValueHost : Host :=
  hostOfFiles
    [("/proc/net/snmp",
      ["Ip: Forwarding DefaultTTL"; "Ip: 1 64"; "Tcp: RtoAlgorithm RtoMin"; "Tcp: 1 x"])].

Definition trailingHeaderHost : Host :=
  hostOfFiles
    [("/proc/net/snmp",
      ["Ip: Forwarding DefaultTTL"; "Ip: 1 64"; "Tcp: RtoAlgorithm RtoMin"])].

(** ** Vocabulary for the columns of /proc/net/dev *)

(** The field at position [i] is there and reads as the decimal number [v]
    of 64 bits. *)
Definition fieldValue (fields : list string) (i : Z) (v : Z) : Prop :=
  exists s, fields !! Z.to_nat i = Some s /\ strconv.ParseUint s 10 64 = (v, None).


(** The conntrack files of a host that tracks 12 connections of at most
    65536. *)
Definition sampleReadInts (path : string) : option (list Z) :=
  if String.eqb path "/proc/sys/net/netfilter/nf_conntrack_count" then Some [12]
  else if String.eqb path "/proc/sys/net/netfilter/nf_conntrack_max" then Some [65536]
  else None.

(** ** Vocabulary for the rows behind the records *)



(** The row of an INET table a record is made of: the line has ten fields
    or more, the addresses of the record are its fields 1 and 2 decoded,
    the status is the one of its field 3, and the owner is the first one
    the index has for its field 9, or pid 0 and fd 0 when the index does
    not have that inode. *)
Definition inetRowOf (kind : netConnectionKindType.t)
    (inodes : gmap string (list inodeMap.t)) (line : string) (c : connTmp.t) : Prop :=
  let l := strings.Fields line in
  10 <= Z.of_nat (length l)
  /\ decodeAddress (netConnectionKindType.family kind) (nth 1 l EmptyString)
     = Ok (connTmp.laddr c)
  /\ decodeAddress (netConnectionKindType.family kind) (nth 2 l EmptyString)
     = Ok (connTmp.raddr c)
  /\ connTmp.status c
     = (if netConnectionKindType.sockType kind =? syscall.SOCK_STREAM
        then default EmptyString (TCPStatuses !! nth 3 l EmptyString)
        else "NONE")
  /\ match inodes !! nth 9 l EmptyString with
     | Some owners =>
       exists i0, head owners = Some i0
         /\ connTmp.pid c = inodeMap.pid i0 /\ connTmp.fd c = inodeMap.fd i0
     | None => connTmp.pid c = 0 /\ connTmp.fd c = 0
     end.

(** The row of /proc/net/unix a record is made of: the line has seven
    fields or more, the type of the record is its field 4 read by Atoi and
    cut to 32 bits, the path is its last field when it has eight, and the
    owner is one the index has for its field 6, or pid 0 and fd 0 when the
    index does not have that inode. *)
Definition unixRowOf (inodes : gmap string (list inodeMap.t)) (line : string)
    (c : connTmp.t) : Prop :=
  let tokens := strings.Fields line in
  7 <= Z.of_nat (length tokens)
  /\ (exists st, strconv.Atoi (nth 4 tokens EmptyString) = (st, None)
        /\ connTmp.sockType c = uint32 st)
  /\ connTmp.path c
     = (if Z.of_nat (length tokens) =? 8 then nth 7 tokens EmptyString else EmptyString)
  /\ match inodes !! nth 6 tokens EmptyString with
     | Some pairs => inodeMap.mk (connTmp.pid c) (connTmp.fd c) ∈ pairs
     | None => connTmp.pid c = 0 /\ connTmp.fd c = 0
     end.
(** * Properties *)

(** * Outcomes and traces of composed calls *)

Lemma outcome_bind {A B : Type} (m : IO A) (f : A -> IO B) :
  outcome (m ≫= f) =
  match outcome m with
  | Ok a => outcome (f a)
  | Err e => Err e
  | Panic p => Panic p
  end.
Proof.
  unfold mbind, IO_bind, io_bind. destruct (outcome m); reflexivity.
Qed.

Lemma trace_bind {A B : Type} (m : IO A) (f : A -> IO B) :
  trace (m ≫= f) =
  match outcome m with
  | Ok a => trace m ++ trace (f a)
  | _ => trace m
  end.
Proof.
  unfold mbind, IO_bind, io_bind. destruct (outcome m); reflexivity.
Qed.

Lemma outcome_ret {A : Type} (a : A) : outcome (mret a : IO A) = Ok a.
Proof. reflexivity. Qed.

(** An error of a loop is an error of one of its rounds. *)
Lemma foldIO_err {A S : Type} (P : error -> Prop) (f : S -> A -> IO S) :
  (forall s a e, outcome (f s a) = Err e -> P e) ->
  forall l s e, outcome (foldIO f l s) = Err e -> P e.
Proof.
  intros Hf l. induction l as [|a l IH]; intros s e; simpl.
  - discriminate.
  - rewrite outcome_bind. destruct (outcome (f s a)) eqn:E; try discriminate.
    + apply IH.
    + intros [= <-]. eauto.
Qed.

Lemma foldRes_err {A S : Type} (P : error -> Prop) (f : S -> A -> result S) :
  (forall s a e, f s a = Err e -> P e) ->
  forall l s e, foldRes f l s = Err e -> P e.
Proof.
  intros Hf l. induction l as [|a l IH]; intros s e; simpl.
  - discriminate.
  - unfold mbind, result_bind, res_bind. destruct (f s a) eqn:E; try discriminate.
    + apply IH.
    + intros [= <-]. eauto.
Qed.

Lemma foldRes_app {A S : Type} (f : S -> A -> result S) (l1 l2 : list A) (s : S) :
  foldRes f (l1 ++ l2) s = foldRes f l1 s ≫= foldRes f l2.
Proof.
  revert s. induction l1 as [|a l1 IH]; intros s; simpl.
  - reflexivity.
  - unfold mbind, result_bind, res_bind. destruct (f s a); try reflexivity. apply IH.
Qed.

(** * Reverse *)

Lemma swap_ends (l1 m l2 : list Z) (x y : Z) :
  swap (l1 ++ x :: m ++ y :: l2)
       (Z.of_nat (length l1)) (Z.of_nat (length l1) + Z.of_nat (length m) + 1)
  = l1 ++ y :: m ++ x :: l2.
Proof.
  unfold swap, netip.at_.
  replace (Z.to_nat (Z.of_nat (length l1) + Z.of_nat (length m) + 1))
    with (length l1 + S (length m))%nat by lia.
  rewrite Nat2Z.id, !nth_lookup.
  assert (Hx : (l1 ++ x :: m ++ y :: l2) !! length l1 = Some x)
    by (apply list_lookup_middle; reflexivity).
  assert (Hy : (l1 ++ x :: m ++ y :: l2) !! (length l1 + S (length m))%nat = Some y).
  { rewrite lookup_app_r by lia.
    replace (length l1 + S (length m) - length l1)%nat with (S (length m)) by lia.
    simpl. apply list_lookup_middle. reflexivity. }
  rewrite Hx, Hy. simpl.
  rewrite insert_app_r. simpl.
  rewrite (insert_app_r_alt m) by lia.
  replace (length m - length m)%nat with O by lia. simpl.
  replace (length l1) with (length l1 + 0)%nat at 1 by lia.
  rewrite insert_app_r. reflexivity.
Qed.

Lemma reverseLoop_middle (fuel : nat) :
  forall (l1 m l2 : list Z),
    (length m <= fuel)%nat ->
    reverseLoop fuel (l1 ++ m ++ l2)
      (Z.of_nat (length l1)) (Z.of_nat (length l1) + Z.of_nat (length m) - 1)
    = l1 ++ rev m ++ l2.
Proof.
  induction fuel as [|fuel IH]; intros l1 m l2 Hm.
  - destruct m; [reflexivity | simpl in Hm; lia].
  - simpl. destruct (Z.ltb_spec (Z.of_nat (length l1))
                       (Z.of_nat (length l1) + Z.of_nat (length m) - 1)) as [Hlt|Hge].
    + destruct m as [|x m]; [simpl in Hlt; lia|].
      induction m as [|y m' _] using rev_ind.
      { simpl in Hlt. lia. }
      replace (l1 ++ (x :: m' ++ [y]) ++ l2) with (l1 ++ x :: m' ++ y :: l2)
        by (simpl; rewrite <- app_assoc; reflexivity).
      replace (Z.of_nat (length l1) + Z.of_nat (length (x :: m' ++ [y])) - 1)
        with (Z.of_nat (length l1) + Z.of_nat (length m') + 1)
        by (simpl; rewrite length_app; simpl; lia).
      rewrite swap_ends.
      replace (l1 ++ y :: m' ++ x :: l2) with ((l1 ++ [y]) ++ m' ++ (x :: l2))
        by (rewrite <- app_assoc; reflexivity).
      replace (Z.of_nat (length l1) + 1) with (Z.of_nat (length (l1 ++ [y])))
        by (rewrite length_app; simpl; lia).
      replace (Z.of_nat (length l1) + Z.of_nat (length m') + 1 - 1)
        with (Z.of_nat (length (l1 ++ [y])) + Z.of_nat (length m') - 1)
        by (rewrite length_app; simpl; lia).
      rewrite IH by (simpl in Hm; rewrite length_app in Hm; simpl in Hm; lia).
      simpl. rewrite rev_app_distr. simpl.
      rewrite <- !app_assoc. reflexivity.
    + destruct m as [|x [|y m]]; try reflexivity.
      simpl in Hge. lia.
Qed.

(** Reverse returns its argument reversed. *)
Lemma Reverse_rev (s : list Z) : Reverse s = rev s.
Proof.
  unfold Reverse.
  pose proof (reverseLoop_middle (length s) [] s [] (le_n _)) as H.
  rewrite !app_nil_r in H. change (Z.of_nat (length (@nil Z))) with 0 in H.
  rewrite Z.add_0_l in H. exact H.
Qed.

(** * Bytes, by cases *)

Ltac by_byte c := destruct c as [[] [] [] [] [] [] [] []].

Lemma isHexDigit_digitOf (c : ascii) :
  isHexDigit c = true ->
  strconv.digitOf (byte_of c) = Some (hex.reverseHexTable (byte_of c))
  /\ 0 <= hex.reverseHexTable (byte_of c) < 16
  /\ (byte_of c =? 95) = false
  /\ Ascii.eqb c ":" = false.
Proof.
  by_byte c; intros H; vm_compute in H; try discriminate H;
    vm_compute; repeat split; discriminate.
Qed.

Lemma not_isHexDigit_digitOf (c : ascii) :
  isHexDigit c = false ->
  match strconv.digitOf (byte_of c) with
  | Some d => (16 <=? d) = true
  | None => True
  end.
Proof.
  by_byte c; intros H; vm_compute in H; try discriminate H; vm_compute; trivial.
Qed.

Lemma reverseHexTable_isHexDigit (c : ascii) :
  (15 <? hex.reverseHexTable (byte_of c)) = negb (isHexDigit c).
Proof. by_byte c; vm_compute; reflexivity. Qed.

(** * Strings *)

Lemma allHex_noByte_colon (s : string) : allHex s = true -> noByte ":" s = true.
Proof.
  unfold allHex, noByte. induction s as [|c s IH]; simpl; [reflexivity|].
  intros [Hc Hs]%andb_prop. rewrite (IH Hs), andb_true_r.
  destruct (isHexDigit_digitOf c Hc) as (_ & _ & _ & ->). reflexivity.
Qed.

Lemma Split_noByte (c : ascii) (s : string) :
  noByte c s = true -> strings.Split s c = [s].
Proof.
  unfold noByte. induction s as [|x s IH]; simpl; [reflexivity|].
  intros [Hx Hs]%andb_prop. apply negb_true_iff in Hx. rewrite Hx, (IH Hs). reflexivity.
Qed.

Lemma Split_app (c : ascii) (a b : string) :
  noByte c a = true ->
  strings.Split (a +:+ String c b) c = a :: strings.Split b c.
Proof.
  unfold noByte. induction a as [|x a IH]; simpl.
  - intros _. rewrite Ascii.eqb_refl. reflexivity.
  - intros [Hx Ha]%andb_prop. apply negb_true_iff in Hx. rewrite Hx, (IH Ha). reflexivity.
Qed.

(** A token [addr:port] without further colons splits into its two parts. *)
Lemma Split_token (addr port : string) :
  noByte ":" addr = true -> noByte ":" port = true ->
  strings.Split (addr +:+ ":" +:+ port) ":" = [addr; port].
Proof.
  intros Ha Hp. change (addr +:+ ":" +:+ port) with (addr +:+ String ":" port).
  rewrite Split_app, Split_noByte by assumption. reflexivity.
Qed.

(** * hex.DecodeString *)

Lemma DecodeString_allHex (s : string) :
  forall bs, hex.DecodeString s = (bs, None) -> allHex s = true.
Proof.
  unfold allHex. remember (String.length s) as n eqn:Hn. revert s Hn.
  induction n as [n IH] using lt_wf_ind. intros [|p [|q s]] Hn bs; simpl.
  - reflexivity.
  - destruct (15 <? _); discriminate.
  - rewrite !reverseHexTable_isHexDigit.
    destruct (isHexDigit p); simpl; [|discriminate].
    destruct (isHexDigit q); simpl; [|discriminate].
    destruct (hex.DecodeString s) as [bs' e] eqn:E. intros [= <- ->].
    eapply (IH (String.length s)); [|reflexivity|exact E]. simpl in Hn. lia.
Qed.

(** * strconv on hexadecimal digits *)

Lemma hexFrom_cons (n : Z) (c : ascii) (s : string) :
  hexFrom n (String c s) = hexFrom (16 * n + hex.reverseHexTable (byte_of c)) s.
Proof. reflexivity. Qed.

Lemma hexFrom_ge (s : string) :
  forall n, allHex s = true -> 0 <= n -> n <= hexFrom n s.
Proof.
  unfold allHex. induction s as [|c s IH]; intros n Hs Hn.
  - unfold hexFrom. simpl. lia.
  - simpl in Hs. apply andb_prop in Hs as [Hc Hs].
    destruct (isHexDigit_digitOf c Hc) as (_ & Hd & _).
    rewrite hexFrom_cons. specialize (IH (16 * n + hex.reverseHexTable (byte_of c)) Hs). lia.
Qed.

Lemma digits_hex_ok (base0 : bool) (s : string) :
  forall n u, allHex s = true -> 0 <= n -> hexFrom n s < 18446744073709551616 ->
    strconv.digits base0 16 1152921504606846976 18446744073709551615 s n u
    = (hexFrom n s, u, None).
Proof.
  induction s as [|c s IH]; intros n u Hs Hn Hv.
  - reflexivity.
  - unfold allHex in Hs. simpl in Hs. apply andb_prop in Hs as [Hc Hs].
    destruct (isHexDigit_digitOf c Hc) as (Hd & Hr & H95 & _).
    rewrite hexFrom_cons in *.
    pose proof (hexFrom_ge s (16 * n + hex.reverseHexTable (byte_of c)) Hs ltac:(lia)) as Hge.
    cbn [strconv.digits]. rewrite H95, Hd. cbn [andb].
    destruct (Z.leb_spec 16 (hex.reverseHexTable (byte_of c))); [lia|].
    destruct (Z.leb_spec 1152921504606846976 n); [lia|].
    unfold uint64. change (2 ^ 64) with 18446744073709551616.
    rewrite (Z.mod_small (n * 16)) by lia.
    rewrite (Z.mod_small (n * 16 + _)) by lia.
    destruct (Z.ltb_spec (n * 16 + hex.reverseHexTable (byte_of c)) (n * 16)); [lia|].
    destruct (Z.ltb_spec 18446744073709551615 (n * 16 + hex.reverseHexTable (byte_of c))); [lia|].
    cbn [orb]. replace (n * 16) with (16 * n) by lia. apply IH; [assumption|lia|assumption].
Qed.

Lemma digits_hex_range (base0 : bool) (s : string) :
  forall n u, allHex s = true -> 0 <= n < 18446744073709551616 ->
    18446744073709551616 <= hexFrom n s ->
    strconv.digits base0 16 1152921504606846976 18446744073709551615 s n u
    = (18446744073709551615, u, Some ErrRange).
Proof.
  induction s as [|c s IH]; intros n u Hs Hn Hv.
  - unfold hexFrom in Hv. simpl in Hv. lia.
  - unfold allHex in Hs. simpl in Hs. apply andb_prop in Hs as [Hc Hs].
    destruct (isHexDigit_digitOf c Hc) as (Hd & Hr & H95 & _).
    rewrite hexFrom_cons in Hv.
    cbn [strconv.digits]. rewrite H95, Hd. cbn [andb].
    destruct (Z.leb_spec 16 (hex.reverseHexTable (byte_of c))); [lia|].
    destruct (Z.leb_spec 1152921504606846976 n); [reflexivity|].
    unfold uint64. change (2 ^ 64) with 18446744073709551616.
    rewrite (Z.mod_small (n * 16)) by lia.
    rewrite (Z.mod_small (n * 16 + _)) by lia.
    destruct (Z.ltb_spec (n * 16 + hex.reverseHexTable (byte_of c)) (n * 16)); [lia|].
    destruct (Z.ltb_spec 18446744073709551615 (n * 16 + hex.reverseHexTable (byte_of c))); [lia|].
    cbn [orb]. replace (n * 16) with (16 * n) by lia. apply IH; [assumption|lia|assumption].
Qed.

(** A byte that is no hexadecimal digit and no underscore stops the loop
    with an error, unless an overflow stopped it before. *)
Lemma digits_stray (base0 : bool) (cutoff maxVal : Z) (s : string) :
  forall n u, hasStrayByte s = true ->
    exists u', strconv.digits base0 16 cutoff maxVal s n u = (0, u', Some ErrSyntax)
            \/ strconv.digits base0 16 cutoff maxVal s n u = (maxVal, u', Some ErrRange).
Proof.
  unfold hasStrayByte. induction s as [|c s IH]; intros n u Hs; simpl in Hs.
  - discriminate.
  - cbn [strconv.digits].
    destruct (strayByte c) eqn:Hc.
    + unfold strayByte in Hc. apply andb_prop in Hc as [Hh H95].
      apply negb_true_iff in Hh, H95. rewrite H95. cbn [andb].
      pose proof (not_isHexDigit_digitOf c Hh) as Hd.
      destruct (strconv.digitOf (byte_of c)) as [d|]; [|eauto].
      rewrite Hd. eauto.
    + simpl in Hs.
      destruct ((byte_of c =? 95) && base0); [apply IH; assumption|].
      destruct (strconv.digitOf (byte_of c)) as [d|]; [|eauto].
      destruct (16 <=? d); [eauto|].
      destruct (cutoff <=? n); [eauto|].
      destruct (_ || _); [eauto|]. apply IH; assumption.
Qed.

Lemma len_cons (c : ascii) (s : string) : len (String c s) = len s + 1.
Proof. unfold len. simpl. lia. Qed.

Lemma len_nonneg (s : string) : 0 <= len s.
Proof. unfold len. lia. Qed.

(** [ParseUint] on [0x] followed by a string: base 16 and the digit loop on
    the string, when it is not empty. *)
Lemma ParseUint_0x (c : ascii) (p : string) :
  strconv.ParseUint ("0x" +:+ String c p) 0 64 =
  match strconv.digits true 16 1152921504606846976 18446744073709551615 (String c p) 0 false with
  | (v, _, Some e) => (v, Some e)
  | (n, underscores, None) =>
    if underscores && negb (strconv.underscoreOK ("0x" +:+ String c p))
    then (0, Some ErrSyntax) else (n, None)
  end.
Proof.
  change ("0x" +:+ String c p) with (String "0" (String "x" (String c p))).
  unfold strconv.ParseUint.
  change (0 =? 0) with true. cbv iota.
  change (byte_of "0" =? 48) with true. cbv iota.
  change (strconv.lower (byte_of "x")) with 120.
  assert (Hlen : (3 <=? len (String "0" (String "x" (String c p)))) = true).
  { apply Z.leb_le. rewrite !len_cons. pose proof (len_nonneg p). lia. }
  rewrite Hlen. reflexivity.
Qed.

Lemma ParseInt_0x_hex (p : string) :
  allHex p = true -> p <> EmptyString ->
  strconv.ParseInt ("0x" +:+ p) 0 64 =
  if hexValue p <? 9223372036854775808 then (hexValue p, None)
  else (9223372036854775807, Some ErrRange).
Proof.
  intros Hp Hne. destruct p as [|c p]; [congruence|].
  change (strconv.ParseInt ("0x" +:+ String c p) 0 64) with
    (match strconv.ParseUint ("0x" +:+ String c p) 0 64 with
     | (_, Some ErrSyntax) => (0, Some ErrSyntax)
     | (un, _) =>
       if negb false && (2 ^ (64 - 1) <=? un) then (2 ^ (64 - 1) - 1, Some ErrRange)
       else if false && (2 ^ (64 - 1) <? un) then (- 2 ^ (64 - 1), Some ErrRange)
       else (un, None)
     end).
  rewrite ParseUint_0x. unfold hexValue.
  pose proof (hexFrom_ge (String c p) 0 Hp ltac:(lia)) as Hge.
  destruct (Z.lt_ge_cases (hexFrom 0 (String c p)) 18446744073709551616) as [Hlt|Hbig].
  - rewrite digits_hex_ok by (assumption || lia). cbn [andb negb].
    change (2 ^ (64 - 1)) with 9223372036854775808.
    destruct (Z.ltb_spec (hexFrom 0 (String c p)) 9223372036854775808);
      destruct (Z.leb_spec 9223372036854775808 (hexFrom 0 (String c p))); try lia; reflexivity.
  - rewrite digits_hex_range by (assumption || lia).
    destruct (Z.ltb_spec (hexFrom 0 (String c p)) 9223372036854775808); [lia|].
    reflexivity.
Qed.

Lemma ParseInt_0x_stray (p : string) :
  p = EmptyString \/ hasStrayByte p = true ->
  exists v e, strconv.ParseInt ("0x" +:+ p) 0 64 = (v, Some e).
Proof.
  intros [-> | Hs].
  - vm_compute. eauto.
  - destruct p as [|c p]; [discriminate|].
    change (strconv.ParseInt ("0x" +:+ String c p) 0 64) with
      (match strconv.ParseUint ("0x" +:+ String c p) 0 64 with
       | (_, Some ErrSyntax) => (0, Some ErrSyntax)
       | (un, _) =>
         if negb false && (2 ^ (64 - 1) <=? un) then (2 ^ (64 - 1) - 1, Some ErrRange)
         else if false && (2 ^ (64 - 1) <? un) then (- 2 ^ (64 - 1), Some ErrRange)
         else (un, None)
       end).
    rewrite ParseUint_0x.
    destruct (digits_stray true 1152921504606846976 18446744073709551615 (String c p) 0 false Hs)
      as (u' & [-> | ->]); eauto.
Qed.

(** * The address decoder *)

Lemma hexValue_nonneg (s : string) : allHex s = true -> 0 <= hexValue s.
Proof. intros H. apply (hexFrom_ge s 0 H). lia. Qed.

(** decodeAddress after the split, for a port of hexadecimal digits. *)
Lemma decodeAddress_split_hex (family : Z) (src addr port : string) :
  strings.Split src ":" = [addr; port] ->
  allHex port = true -> port <> EmptyString -> hexValue port < 9223372036854775808 ->
  decodeAddress family src =
  match hex.DecodeString addr with
  | (_, Some e) => Err (ErrDecodeError e)
  | (decoded, None) =>
    if family =? syscall.AF_INET
    then Ok {| IP := netip.String (Reverse decoded); Port := uint32 (hexValue port) |}
    else ip ← parseIPv6HexString decoded;
         Ok {| IP := netip.String ip; Port := uint32 (hexValue port) |}
  end.
Proof.
  intros Hsplit Hhex Hne Hv. unfold decodeAddress. rewrite Hsplit. cbn [length nth].
  change (negb (Z.of_nat 2 =? 2)) with false. cbv iota.
  rewrite ParseInt_0x_hex by assumption.
  destruct (Z.ltb_spec (hexValue port) 9223372036854775808); [reflexivity | lia].
Qed.

Lemma decodeAddress_split_bad (family : Z) (src addr port : string) (v : Z) (e : NumErr) :
  strings.Split src ":" = [addr; port] ->
  strconv.ParseInt ("0x" +:+ port) 0 64 = (v, Some e) ->
  decodeAddress family src = Err (ErrInvalidPort src).
Proof.
  intros Hsplit Hp. unfold decodeAddress. rewrite Hsplit. cbn [length nth].
  change (negb (Z.of_nat 2 =? 2)) with false. cbv iota. rewrite Hp. reflexivity.
Qed.

Lemma decodeAddress_split_ok (family : Z) (src addr port : string) (r : Addr) :
  strings.Split src ":" = [addr; port] ->
  decodeAddress family src = Ok r ->
  exists v, strconv.ParseInt ("0x" +:+ port) 0 64 = (v, None) /\ Port r = uint32 v.
Proof.
  intros Hsplit. unfold decodeAddress. rewrite Hsplit. cbn [length nth].
  change (negb (Z.of_nat 2 =? 2)) with false. cbv iota.
  destruct (strconv.ParseInt ("0x" +:+ port) 0 64) as [v [e|]]; [discriminate|].
  destruct (hex.DecodeString addr) as [decoded [e|]]; [discriminate|].
  destruct (family =? syscall.AF_INET).
  - intros [= <-]. eauto.
  - unfold mbind, result_bind, res_bind.
    destruct (parseIPv6HexString decoded); try discriminate. intros [= <-]. eauto.
Qed.

(** Every error of decodeAddress is a MalformedInput of the specification. *)
Lemma decodeAddress_err_class (family : Z) (src : string) (e : error) :
  decodeAddress family src = Err e -> classOf e = Some MalformedInput.
Proof.
  unfold decodeAddress.
  destruct (negb _); [intros [= <-]; reflexivity|].
  destruct (strconv.ParseInt _ 0 64) as [v [e'|]]; [intros [= <-]; reflexivity|].
  destruct (hex.DecodeString _) as [decoded [e'|]]; [intros [= <-]; reflexivity|].
  destruct (family =? syscall.AF_INET); [discriminate|].
  unfold parseIPv6HexString. destruct (negb _); simpl; [intros [= <-]; reflexivity | discriminate].
Qed.

Lemma decodeAddress_no_panic (family : Z) (src : string) (p : panic) :
  decodeAddress family src <> Panic p.
Proof.
  unfold decodeAddress.
  destruct (negb _); [discriminate|].
  destruct (strconv.ParseInt _ 0 64) as [v [e'|]]; [discriminate|].
  destruct (hex.DecodeString _) as [decoded [e'|]]; [discriminate|].
  destruct (family =? syscall.AF_INET); [discriminate|].
  unfold parseIPv6HexString. destruct (negb _); simpl; discriminate.
Qed.

Lemma token_split (addr port : string) (bs : list Z) :
  hex.DecodeString addr = (bs, None) -> allHex port = true ->
  strings.Split (addr +:+ ":" +:+ port) ":" = [addr; port].
Proof.
  intros Ha Hp. apply Split_token; apply allHex_noByte_colon; [|assumption].
  eapply DecodeString_allHex; eassumption.
Qed.

Lemma uint32_small (v : Z) : 0 <= v < 4294967296 -> uint32 v = v.
Proof. intros H. unfold uint32. change (2 ^ 32) with 4294967296. apply Z.mod_small, H. Qed.

(** C2: a token [HEXADDR:HEXPORT] whose address part decodes to the four
    bytes [a b c d] and whose port part is a hexadecimal number that fits
    the 32-bit port field decodes, in the INET family, to the dotted
    decimal IP [d.c.b.a] (the bytes reversed) and the value of the port
    part; "0500000A:0016" decodes to "10.0.0.5", port 22. *)
Theorem decodeAddress_ipv4 :
  (forall (addr port : string) (a b c d : Z),
     hex.DecodeString addr = ([a; b; c; d], None) ->
     allHex port = true -> port <> EmptyString -> hexValue port < 2 ^ 32 ->
     decodeAddress syscall.AF_INET (addr +:+ ":" +:+ port) =
     Ok {| IP := netip.uitoa d +:+ "." +:+ netip.uitoa c +:+ "." +:+ netip.uitoa b
                 +:+ "." +:+ netip.uitoa a;
           Port := hexValue port |})
  /\ decodeAddress syscall.AF_INET "0500000A:0016" = Ok {| IP := "10.0.0.5"; Port := 22 |}.
Proof.
  split; [|vm_compute; reflexivity].
  intros addr port a b c d Ha Hp Hne Hv. change (2 ^ 32) with 4294967296 in Hv.
  pose proof (hexValue_nonneg port Hp) as H0.
  rewrite (decodeAddress_split_hex _ _ addr port) by (eauto using token_split || lia).
  rewrite Ha. change (syscall.AF_INET =? syscall.AF_INET) with true. cbv iota.
  rewrite Reverse_rev, uint32_small by lia. reflexivity.
Qed.

Lemma decodeAddress_ipv4_witness :
  decodeAddress syscall.AF_INET ("0100007F" +:+ ":" +:+ "1F90") =
  Ok {| IP := netip.uitoa 127 +:+ "." +:+ netip.uitoa 0 +:+ "." +:+ netip.uitoa 0
              +:+ "." +:+ netip.uitoa 1;
        Port := hexValue "1F90" |}.
Proof.
  apply (proj1 decodeAddress_ipv4 "0100007F" "1F90" 1 0 0 127).
  - vm_compute. reflexivity.
  - vm_compute. reflexivity.
  - discriminate.
  - vm_compute. reflexivity.
Defined.

(** C3: in the INET6 family a 16-byte address part is decoded by reversing
    each group of four bytes on its own, and the IP is the text form of
    those bytes; an address part that decodes to another number of bytes
    makes the call fail with a MalformedInput error, which is
    [ErrInvalidIPv6String] when the port part is a hexadecimal number;
    "0085002452100113070057A13F025401:0035" decodes to
    "2400:8500:1301:1052:a157:7:154:23f", port 53. *)
Theorem decodeAddress_ipv6 :
  (forall (addr port : string) (b0 b1 b2 b3 b4 b5 b6 b7 b8 b9 b10 b11 b12 b13 b14 b15 : Z),
     hex.DecodeString addr =
       ([b0; b1; b2; b3; b4; b5; b6; b7; b8; b9; b10; b11; b12; b13; b14; b15], None) ->
     allHex port = true -> port <> EmptyString -> hexValue port < 2 ^ 32 ->
     decodeAddress syscall.AF_INET6 (addr +:+ ":" +:+ port) =
     Ok {| IP := netip.String
                   [b3; b2; b1; b0; b7; b6; b5; b4; b11; b10; b9; b8; b15; b14; b13; b12];
           Port := hexValue port |})
  /\ (forall (addr port : string) (decoded : list Z),
        hex.DecodeString addr = (decoded, None) -> length decoded <> 16%nat ->
        (exists e, decodeAddress syscall.AF_INET6 (addr +:+ ":" +:+ port) = Err e
                   /\ classOf e = Some MalformedInput)
        /\ (allHex port = true -> port <> EmptyString -> hexValue port < 2 ^ 63 ->
            decodeAddress syscall.AF_INET6 (addr +:+ ":" +:+ port) = Err ErrInvalidIPv6String))
  /\ decodeAddress syscall.AF_INET6 "0085002452100113070057A13F025401:0035" =
     Ok {| IP := "2400:8500:1301:1052:a157:7:154:23f"; Port := 53 |}.
Proof.
  split; [|split; [|vm_compute; reflexivity]].
  - intros addr port b0 b1 b2 b3 b4 b5 b6 b7 b8 b9 b10 b11 b12 b13 b14 b15 Ha Hp Hne Hv.
    change (2 ^ 32) with 4294967296 in Hv.
    pose proof (hexValue_nonneg port Hp) as H0.
    rewrite (decodeAddress_split_hex _ _ addr port) by (eauto using token_split || lia).
    rewrite Ha. change (syscall.AF_INET6 =? syscall.AF_INET) with false. cbv iota.
    rewrite uint32_small by lia. reflexivity.
  - intros addr port decoded Ha Hlen.
    assert (Hipv6 : parseIPv6HexString decoded = Err ErrInvalidIPv6String).
    { unfold parseIPv6HexString.
      destruct (Z.eqb_spec (Z.of_nat (length decoded)) 16); [lia | reflexivity]. }
    assert (Hhex : allHex port = true -> port <> EmptyString -> hexValue port < 2 ^ 63 ->
                   decodeAddress syscall.AF_INET6 (addr +:+ ":" +:+ port)
                   = Err ErrInvalidIPv6String).
    { intros Hp Hne Hv. change (2 ^ 63) with 9223372036854775808 in Hv.
      rewrite (decodeAddress_split_hex _ _ addr port) by (eauto using token_split || lia).
      rewrite Ha, Hipv6. reflexivity. }
    split; [|exact Hhex].
    destruct (decodeAddress syscall.AF_INET6 (addr +:+ ":" +:+ port)) as [r|e|p] eqn:E.
    + exfalso. revert E. unfold decodeAddress.
      destruct (negb _); [discriminate|].
      assert (Hn0 : nth 0 (strings.Split (addr +:+ ":" +:+ port) ":") EmptyString = addr).
      { change (addr +:+ ":" +:+ port) with (addr +:+ String ":" port).
        rewrite Split_app; [reflexivity|].
        apply allHex_noByte_colon. eapply DecodeString_allHex; eassumption. }
      rewrite Hn0, Ha.
      destruct (strconv.ParseInt _ 0 64) as [v [e'|]]; [discriminate|].
      change (syscall.AF_INET6 =? syscall.AF_INET) with false. cbv iota.
      rewrite Hipv6. discriminate.
    + exists e. split; [reflexivity|]. eapply decodeAddress_err_class; eassumption.
    + exfalso. eapply decodeAddress_no_panic; eassumption.
Qed.

Lemma decodeAddress_ipv6_witness :
  decodeAddress syscall.AF_INET6 ("00000000000000000000000001000000" +:+ ":" +:+ "1F90") =
    Ok {| IP := netip.String [0; 0; 0; 0; 0; 0; 0; 0; 0; 0; 0; 0; 0; 0; 0; 1];
          Port := hexValue "1F90" |}
  /\ decodeAddress syscall.AF_INET6 ("0100007F" +:+ ":" +:+ "1F90") = Err ErrInvalidIPv6String.
Proof.
  split.
  - apply (proj1 decodeAddress_ipv6 "00000000000000000000000001000000" "1F90"
             0 0 0 0 0 0 0 0 0 0 0 0 1 0 0 0).
    + vm_compute. reflexivity.
    + vm_compute. reflexivity.
    + discriminate.
    + vm_compute. reflexivity.
  - apply (proj1 (proj2 decodeAddress_ipv6) "0100007F" "1F90" [1; 0; 0; 127]).
    + vm_compute. reflexivity.
    + simpl. lia.
    + vm_compute. reflexivity.
    + discriminate.
    + vm_compute. reflexivity.
Defined.

(** * Errors of the parsers and of the index *)

Lemma res_bind_eq {A B : Type} (m : result A) (f : A -> result B) :
  m ≫= f = match m with Ok a => f a | Err e => Err e | Panic p => Panic p end.
Proof. reflexivity. Qed.

Lemma inetRow_no_err kind inodes filterPid line e :
  inetRow kind inodes filterPid line <> Err e.
Proof.
  unfold inetRow. destruct (_ <? 10); [discriminate|].
  rewrite res_bind_eq.
  destruct (inodes !! _) as [[|i0 i]|]; try discriminate;
    (destruct (_ && _); [discriminate|]);
    (destruct (decodeAddress _ (nth 1 _ _)); try discriminate);
    (destruct (decodeAddress _ (nth 2 _ _)); discriminate).
Qed.

(** The loop of processInet returns no error. *)
Lemma inetRows_no_err kind inodes filterPid lines ret e :
  inetRows kind inodes filterPid lines ret <> Err e.
Proof.
  unfold inetRows. intros H.
  eapply (foldRes_err (fun _ => False)); [|exact H].
  intros s a e'. cbv beta. rewrite res_bind_eq.
  destruct (inetRow kind inodes filterPid a) eqn:E; try discriminate.
  exfalso. eapply inetRow_no_err; eassumption.
Qed.

Lemma processInet_err h file kind inodes filterPid e :
  outcome (processInet h file kind inodes filterPid) = Err e -> e = ErrIO file.
Proof.
  unfold processInet. rewrite outcome_bind.
  destruct (strings.HasSuffix file "6").
  - rewrite outcome_bind. simpl outcome at 1. cbv iota. rewrite outcome_ret.
    destruct (negb (PathExists h file)); [discriminate|].
    rewrite outcome_bind. unfold readLines. simpl outcome at 1.
    destruct (ReadLines h file) as [lines|]; [|intros [= <-]; reflexivity].
    destruct lines as [|first rows]; [discriminate|].
    simpl. intros H. exfalso. eapply inetRows_no_err; eassumption.
  - rewrite outcome_ret. rewrite outcome_bind. unfold readLines. simpl outcome at 1.
    destruct (ReadLines h file) as [lines|]; [|intros [= <-]; reflexivity].
    destruct lines as [|first rows]; [discriminate|].
    simpl. intros H. exfalso. eapply inetRows_no_err; eassumption.
Qed.

Lemma unixRow_err kind inodes filterPid ret line e :
  unixRow kind inodes filterPid ret line = Err e -> exists n, e = ErrNum n.
Proof.
  unfold unixRow, index. destruct (_ <? 6); [discriminate|].
  rewrite res_bind_eq. destruct ((0 <=? 4) && _); [|discriminate].
  destruct (strconv.Atoi _) as [st [n|]]; [intros [= <-]; eauto|].
  rewrite res_bind_eq. destruct ((0 <=? 6) && _); discriminate.
Qed.

Lemma processUnix_err h file kind inodes filterPid e :
  outcome (processUnix h file kind inodes filterPid) = Err e ->
  e = ErrIO file \/ exists n, e = ErrNum n.
Proof.
  unfold processUnix. rewrite outcome_bind. unfold readLines. simpl outcome at 1.
  destruct (ReadLines h file) as [lines|]; [|intros [= <-]; left; reflexivity].
  destruct lines as [|first rows]; [discriminate|].
  simpl. intros H. right. unfold unixRows in H.
  eapply (foldRes_err (fun e => exists n, e = ErrNum n)); [|exact H].
  intros s a0 e'. apply unixRow_err.
Qed.

Lemma procInode_no_err h root pid ret name e :
  outcome (procInode h root pid ret name) <> Err e.
Proof.
  unfold procInode. simpl.
  destruct (Readlink h _) as [inode|]; [|discriminate].
  destruct (negb _); [discriminate|].
  destruct (slice inode 8 _); [|discriminate].
  destruct (strconv.Atoi name) as [fd [n|]]; discriminate.
Qed.

(** getProcInodes returns no error. *)
Lemma getProcInodes_no_err h root pid e :
  outcome (getProcInodes h root pid) <> Err e.
Proof.
  unfold getProcInodes. destruct (ReadDir h _) as [files|]; [|discriminate].
  unfold io_bind. simpl. intros H.
  eapply (foldIO_err (fun _ => False)); [|exact H].
  intros s a e' H'. eapply procInode_no_err; eassumption.
Qed.

Section ConnectionErrors.
Variable String : NetConnectionStat -> string.

Lemma connRound_err h root inodes pid st t e :
  outcome (connRound String h root inodes pid st t) = Err e ->
  classOf e <> Some InvalidArgument.
Proof.
  unfold connRound. rewrite outcome_bind.
  destruct (_ || _).
  - destruct (outcome (processInet _ _ _ _ _)) eqn:E; try discriminate.
    intros [= <-]. apply processInet_err in E as ->. discriminate.
  - destruct (_ =? syscall.AF_UNIX).
    + destruct (outcome (processUnix _ _ _ _ _)) eqn:E; try discriminate.
      intros [= <-]. apply processUnix_err in E as [-> | [n ->]]; discriminate.
    + rewrite outcome_ret. discriminate.
Qed.

Lemma connLoop_err h root inodes pid tmap st e :
  outcome (foldIO (connRound String h root inodes pid) tmap st) = Err e ->
  classOf e <> Some InvalidArgument.
Proof.
  apply (foldIO_err (fun e => classOf e <> Some InvalidArgument)).
  intros s a e'. apply connRound_err.
Qed.

(** After the lookup of the kind, no error of NetConnectionsPid is an
    InvalidArgument. *)
Lemma NetConnectionsPid_err h kind pid tmap e :
  netConnectionKindMap !! kind = Some tmap ->
  outcome (NetConnectionsPid String h kind pid) = Err e ->
  classOf e <> Some InvalidArgument.
Proof.
  intros Hk. unfold NetConnectionsPid. rewrite Hk.
  destruct (pid =? 0).
  - destruct (outcome (getProcInodesAll h (HostProc h []))) eqn:E.
    + rewrite outcome_bind, E, outcome_bind.
      destruct (outcome (foldIO _ tmap _)) eqn:E'; try discriminate.
      intros [= <-]. eapply connLoop_err; eassumption.
    + simpl. intros [= <-]. discriminate.
    + rewrite outcome_bind, E. discriminate.
  - rewrite outcome_bind.
    destruct (outcome (getProcInodes h (HostProc h []) pid)) eqn:E; try discriminate.
    + destruct (_ =? 0); [rewrite outcome_ret; discriminate|].
      rewrite outcome_bind.
      destruct (outcome (foldIO _ tmap _)) eqn:E'; try discriminate.
      intros [= <-]. eapply connLoop_err; eassumption.
    + intros _. exfalso. eapply getProcInodes_no_err; eassumption.
Qed.
End ConnectionErrors.

Lemma validKinds_keys : netConnectionKindTable.*1 = validKinds.
Proof. reflexivity. Qed.

Lemma kind_lookup_None (kind : string) :
  kind ∉ validKinds -> netConnectionKindMap !! kind = None.
Proof.
  intros H. unfold netConnectionKindMap.
  apply not_elem_of_list_to_map. rewrite validKinds_keys. exact H.
Qed.

Lemma kind_lookup_Some (kind : string) :
  kind ∈ validKinds -> is_Some (netConnectionKindMap !! kind).
Proof.
  unfold validKinds. intros H.
  repeat (apply elem_of_cons in H as [-> | H]; [vm_compute; eauto|]).
  apply elem_of_nil in H. contradiction.
Qed.

(** C4: for a kind outside the enumerated set, NetConnectionsPid (for any
    pid) and NetConnections return the invalid-kind error, an
    InvalidArgument, with no access to the file system; for a kind in the
    set the lookup succeeds and no later error is an InvalidArgument. *)
Theorem kind_validation (String : NetConnectionStat -> string) (h : Host) (kind : string) :
  (kind ∉ validKinds ->
   (forall pid, NetConnectionsPid String h kind pid = mkIO [] (Err (ErrInvalidKind kind)))
   /\ NetConnections String h kind = mkIO [] (Err (ErrInvalidKind kind))
   /\ classOf (ErrInvalidKind kind) = Some InvalidArgument)
  /\ (kind ∈ validKinds ->
      is_Some (netConnectionKindMap !! kind)
      /\ forall pid e, outcome (NetConnectionsPid String h kind pid) = Err e ->
           classOf e <> Some InvalidArgument).
Proof.
  split.
  - intros Hk. apply kind_lookup_None in Hk.
    assert (H : forall pid, NetConnectionsPid String h kind pid
                            = mkIO [] (Err (ErrInvalidKind kind)))
      by (intros pid; unfold NetConnectionsPid; rewrite Hk; reflexivity).
    split; [exact H|]. split; [apply H | reflexivity].
  - intros Hk. pose proof (kind_lookup_Some kind Hk) as [tmap Ht].
    split; [eauto|]. intros pid e. eapply NetConnectionsPid_err; eassumption.
Qed.

Lemma kind_validation_witness :
  ((forall pid, NetConnectionsPid jsonString sampleHost "invalidkind" pid
                = mkIO [] (Err (ErrInvalidKind "invalidkind")))
   /\ NetConnections jsonString sampleHost "invalidkind"
      = mkIO [] (Err (ErrInvalidKind "invalidkind"))
   /\ classOf (ErrInvalidKind "invalidkind") = Some InvalidArgument)
  /\ is_Some (netConnectionKindMap !! "inet6").
Proof.
  split.
  - apply (proj1 (kind_validation jsonString sampleHost "invalidkind")).
    apply (bool_decide_unpack _). vm_compute. exact I.
  - apply (proj2 (kind_validation jsonString sampleHost "inet6")).
    apply (bool_decide_unpack _). vm_compute. exact I.
Defined.

(** * A process without sockets *)

Lemma foldIO_unchanged {A S : Type} (f : S -> A -> IO S) (l : list A) (s : S) :
  (forall a, a ∈ l -> outcome (f s a) = Ok s) ->
  outcome (foldIO f l s) = Ok s.
Proof.
  induction l as [|a l IH]; intros H; simpl.
  - reflexivity.
  - rewrite outcome_bind, (H a) by (left). apply IH.
    intros a' Ha'. apply H. right. exact Ha'.
Qed.

(** C5: for a valid kind and a pid above 0 whose inode index is empty,
    NetConnectionsPid returns the empty list and no error, and reads
    nothing beyond what getProcInodes read, whatever the rest of the host
    holds; getProcInodes returns the empty map and no error when the fd
    directory cannot be read, and also when no entry of the directory is a
    link to a socket. *)
Theorem NetConnectionsPid_no_sockets
    (String : NetConnectionStat -> string) (h : Host) (kind : string) (pid : Z) :
  (kind ∈ validKinds -> 0 < pid ->
   outcome (getProcInodes h (HostProc h []) pid) = Ok ∅ ->
   outcome (NetConnectionsPid String h kind pid) = Ok []
   /\ trace (NetConnectionsPid String h kind pid)
      = trace (getProcInodes h (HostProc h []) pid))
  /\ (forall root,
        ReadDir h (root +:+ "/" +:+ itoa pid +:+ "/fd") = None ->
        getProcInodes h root pid
        = mkIO [AccReadDir (root +:+ "/" +:+ itoa pid +:+ "/fd")] (Ok ∅))
  /\ (forall root files,
        ReadDir h (root +:+ "/" +:+ itoa pid +:+ "/fd") = Some files ->
        (forall name, name ∈ files ->
           match Readlink h (root +:+ "/" +:+ itoa pid +:+ "/fd/" +:+ name) with
           | Some target => strings.HasPrefix target "socket:[" = false
           | None => True
           end) ->
        outcome (getProcInodes h root pid) = Ok ∅).
Proof.
  split; [|split].
  - intros Hk Hpid Hidx. destruct (kind_lookup_Some kind Hk) as [tmap Ht].
    unfold NetConnectionsPid. rewrite Ht.
    destruct (Z.eqb_spec pid 0); [lia|].
    rewrite outcome_bind, trace_bind, Hidx.
    rewrite map_size_empty. change (Z.of_nat 0 =? 0) with true. cbv iota.
    split; [reflexivity|]. simpl. apply app_nil_r.
  - intros root Hdir. unfold getProcInodes. rewrite Hdir. reflexivity.
  - intros root files Hdir Hfiles. unfold getProcInodes. rewrite Hdir.
    unfold io_bind. simpl.
    apply foldIO_unchanged. intros name Hname. specialize (Hfiles name Hname).
    unfold procInode. simpl.
    destruct (Readlink h _) as [target|]; [|reflexivity].
    rewrite Hfiles. reflexivity.
Qed.

Lemma NetConnectionsPid_no_sockets_witness :
  (outcome (NetConnectionsPid jsonString sampleHost "all" 4) = Ok []
   /\ trace (NetConnectionsPid jsonString sampleHost "all" 4)
      = trace (getProcInodes sampleHost (HostProc sampleHost []) 4))
  /\ getProcInodes sampleHost "/proc" 3
     = mkIO [AccReadDir ("/proc" +:+ "/" +:+ itoa 3 +:+ "/fd")] (Ok ∅)
  /\ outcome (getProcInodes sampleHost "/proc" 4) = Ok ∅.
Proof.
  split; [|split].
  - apply (proj1 (NetConnectionsPid_no_sockets jsonString sampleHost "all" 4)).
    + apply (bool_decide_unpack _). vm_compute. exact I.
    + lia.
    + vm_compute. reflexivity.
  - apply (proj1 (proj2 (NetConnectionsPid_no_sockets jsonString sampleHost "all" 3)) "/proc").
    vm_compute. reflexivity.
  - apply (proj2 (proj2 (NetConnectionsPid_no_sockets jsonString sampleHost "all" 4))
             "/proc" ["0"; "1"]).
    + vm_compute. reflexivity.
    + intros name H.
      repeat (apply elem_of_cons in H as [-> | H]; [vm_compute; reflexivity|]).
      apply elem_of_nil in H. contradiction.
Defined.

(** * Rows of the UNIX table *)

Lemma index_in_range (s : list string) (i : Z) :
  0 <= i < Z.of_nat (length s) -> index s i = Ok (nth (Z.to_nat i) s EmptyString).
Proof.
  intros H. unfold index.
  destruct (Z.leb_spec 0 i); [|lia]. destruct (Z.ltb_spec i (Z.of_nat (length s))); [|lia].
  reflexivity.
Qed.

Lemma index_out_of_range (s : list string) (i : Z) :
  Z.of_nat (length s) <= i -> index s i = Panic IndexOutOfRange.
Proof.
  intros H. unfold index.
  destruct (Z.ltb_spec i (Z.of_nat (length s))); [lia|]. rewrite andb_false_r. reflexivity.
Qed.

(** A row of fewer than six fields is passed over. *)
Lemma unixRow_short kind inodes filterPid ret line :
  Z.of_nat (length (strings.Fields line)) < 6 ->
  unixRow kind inodes filterPid ret line = Ok ret.
Proof.
  intros H. unfold unixRow.
  destruct (Z.ltb_spec (Z.of_nat (length (strings.Fields line))) 6); [reflexivity | lia].
Qed.

(** A row of six fields or more whose field [4] is no number is an error. *)
Lemma unixRow_bad_type kind inodes filterPid ret line v e :
  6 <= Z.of_nat (length (strings.Fields line)) ->
  strconv.Atoi (nth 4 (strings.Fields line) EmptyString) = (v, Some e) ->
  unixRow kind inodes filterPid ret line = Err (ErrNum e).
Proof.
  intros H Ha. unfold unixRow.
  destruct (Z.ltb_spec (Z.of_nat (length (strings.Fields line))) 6); [lia|].
  rewrite (index_in_range _ 4) by lia. rewrite res_bind_eq.
  change (Z.to_nat 4) with 4%nat. rewrite Ha. reflexivity.
Qed.

(** A row of exactly six fields whose field [4] is a number reads
    [tokens[6]] out of range. *)
Lemma unixRow_six kind inodes filterPid ret line st :
  Z.of_nat (length (strings.Fields line)) = 6 ->
  strconv.Atoi (nth 4 (strings.Fields line) EmptyString) = (st, None) ->
  unixRow kind inodes filterPid ret line = Panic IndexOutOfRange.
Proof.
  intros H Ha. unfold unixRow.
  destruct (Z.ltb_spec (Z.of_nat (length (strings.Fields line))) 6); [lia|].
  rewrite (index_in_range _ 4) by lia. rewrite res_bind_eq.
  change (Z.to_nat 4) with 4%nat. rewrite Ha.
  rewrite index_out_of_range by lia. reflexivity.
Qed.

(** A row of seven fields or more whose field [4] is a number is read in
    range: field [6] is the inode key, and the last of eight fields the
    path. *)
Lemma unixRow_seven kind inodes filterPid ret line st :
  7 <= Z.of_nat (length (strings.Fields line)) ->
  strconv.Atoi (nth 4 (strings.Fields line) EmptyString) = (st, None) ->
  unixRow kind inodes filterPid ret line =
  Ok (unixPairs kind filterPid (strings.Fields line) st
        (default [inodeMap.mk 0 0] (inodes !! nth 6 (strings.Fields line) EmptyString)) ret).
Proof.
  intros H Ha. unfold unixRow.
  destruct (Z.ltb_spec (Z.of_nat (length (strings.Fields line))) 6); [lia|].
  rewrite (index_in_range _ 4) by lia. rewrite res_bind_eq.
  change (Z.to_nat 4) with 4%nat. rewrite Ha.
  rewrite (index_in_range _ 6) by lia. rewrite res_bind_eq.
  change (Z.to_nat 6) with 6%nat.
  destruct (inodes !! nth 6 (strings.Fields line) EmptyString); reflexivity.
Qed.

(** C6, at the failing input: a row of /proc/net/unix with exactly six
    fields passes the guard [len(tokens) < 6] and stops processUnix, and
    with it the enumerator, in the out-of-range read of [tokens[6]]. *)
Theorem processUnix_six_fields_panics :
  strings.Fields unixSixFields
  = ["0000000000000000:"; "00000002"; "00000000"; "00010000"; "0001"; "01"]
  /\ processUnix sixFieldsHost "/proc/net/unix" kindUNIX ∅ 0
     = mkIO [AccReadLines "/proc/net/unix"] (Panic IndexOutOfRange)
  /\ outcome (NetConnectionsPid jsonString sixFieldsHost "unix" 0) = Panic IndexOutOfRange.
Proof.
  split; [vm_compute; reflexivity|].
  split; vm_compute; reflexivity.
Qed.

(** * Rows of the INET tables *)

(** A row whose local or remote address does not decode is passed over. *)
Lemma inetRow_undecodable kind inodes filterPid line :
  10 <= Z.of_nat (length (strings.Fields line)) ->
  inodes !! nth 9 (strings.Fields line) EmptyString <> Some [] ->
  (exists e, decodeAddress (netConnectionKindType.family kind)
               (nth 1 (strings.Fields line) EmptyString) = Err e)
  \/ (exists e, decodeAddress (netConnectionKindType.family kind)
                  (nth 2 (strings.Fields line) EmptyString) = Err e) ->
  inetRow kind inodes filterPid line = Ok None.
Proof.
  intros Hlen Hino Hdec. unfold inetRow.
  destruct (Z.ltb_spec (Z.of_nat (length (strings.Fields line))) 10); [lia|].
  rewrite res_bind_eq.
  destruct (inodes !! nth 9 (strings.Fields line) EmptyString) as [[|i0 i]|];
    [congruence| |].
  - cbv beta iota. destruct (_ && _); [reflexivity|].
    destruct Hdec as [[e He] | [e He]]; rewrite He; [reflexivity|].
    destruct (decodeAddress _ (nth 1 _ _)) eqn:E; try reflexivity.
    exfalso. eapply decodeAddress_no_panic; eassumption.
  - cbv beta iota. destruct (_ && _); [reflexivity|].
    destruct Hdec as [[e He] | [e He]]; rewrite He; [reflexivity|].
    destruct (decodeAddress _ (nth 1 _ _)) eqn:E; try reflexivity.
    exfalso. eapply decodeAddress_no_panic; eassumption.
Qed.

Lemma inetRows_skip kind inodes filterPid pre line post ret :
  inetRow kind inodes filterPid line = Ok None ->
  inetRows kind inodes filterPid (pre ++ line :: post) ret
  = inetRows kind inodes filterPid (pre ++ post) ret.
Proof.
  intros Hrow. unfold inetRows. rewrite !foldRes_app.
  destruct (foldRes _ pre ret) as [r|e|p]; try reflexivity.
  rewrite !res_bind_eq. simpl. rewrite Hrow. reflexivity.
Qed.

(** C7: in processUnix a row of six fields or more whose socket-type field
    is no number ends the whole parse with the error of that field, when
    the rows before it were read; in processInet a row whose local or
    remote address does not decode is only left out: the outcome is that of
    the other rows, and it is never an error. *)
Theorem parse_failure_asymmetry (h : Host) (file : string)
    (kind : netConnectionKindType.t) (inodes : gmap string (list inodeMap.t))
    (filterPid : Z) (first : string) (pre post : list string) (line : string) :
  ReadLines h file = Some (first :: pre ++ line :: post) ->
  (forall ret v e,
     unixRows kind inodes filterPid pre [] = Ok ret ->
     6 <= Z.of_nat (length (strings.Fields line)) ->
     strconv.Atoi (nth 4 (strings.Fields line) EmptyString) = (v, Some e) ->
     outcome (processUnix h file kind inodes filterPid) = Err (ErrNum e))
  /\ (10 <= Z.of_nat (length (strings.Fields line)) ->
      inodes !! nth 9 (strings.Fields line) EmptyString <> Some [] ->
      (exists e, decodeAddress (netConnectionKindType.family kind)
                   (nth 1 (strings.Fields line) EmptyString) = Err e)
      \/ (exists e, decodeAddress (netConnectionKindType.family kind)
                      (nth 2 (strings.Fields line) EmptyString) = Err e) ->
      (strings.HasSuffix file "6" = true -> PathExists h file = true) ->
      outcome (processInet h file kind inodes filterPid)
      = inetRows kind inodes filterPid (pre ++ post) []
      /\ forall e, outcome (processInet h file kind inodes filterPid) <> Err e).
Proof.
  intros Hfile. split.
  - intros ret v e Hpre Hlen Ha.
    unfold processUnix. rewrite outcome_bind. unfold readLines. simpl outcome at 1.
    rewrite Hfile. simpl. unfold unixRows in *. rewrite foldRes_app, Hpre.
    rewrite res_bind_eq. simpl.
    rewrite (unixRow_bad_type _ _ _ _ _ v e) by assumption. reflexivity.
  - intros Hlen Hino Hdec Hexists.
    assert (Hout : outcome (processInet h file kind inodes filterPid)
                   = inetRows kind inodes filterPid (pre ++ post) []).
    { unfold processInet. rewrite outcome_bind.
      destruct (strings.HasSuffix file "6").
      - rewrite outcome_bind. simpl outcome at 1. cbv iota. rewrite outcome_ret.
        rewrite Hexists by reflexivity. simpl negb. cbv iota.
        rewrite outcome_bind. unfold readLines. simpl outcome at 1. rewrite Hfile.
        simpl. apply inetRows_skip, inetRow_undecodable; assumption.
      - rewrite outcome_ret. rewrite outcome_bind. unfold readLines. simpl outcome at 1.
        rewrite Hfile. simpl. apply inetRows_skip, inetRow_undecodable; assumption. }
    split; [exact Hout|]. intros e. rewrite Hout. apply inetRows_no_err.
Qed.

Lemma parse_failure_asymmetry_witness :
  outcome (processUnix badTypeHost "/proc/net/unix" kindUNIX ∅ 0) = Err (ErrNum ErrSyntax)
  /\ (outcome (processInet sampleHost "/proc/net/tcp" kindTCP4 ∅ 0)
      = inetRows kindTCP4 ∅ 0 ([tcpListen; tcpEstablished] ++ []) []
      /\ forall e, outcome (processInet sampleHost "/proc/net/tcp" kindTCP4 ∅ 0) <> Err e).
Proof.
  split.
  - apply (proj1 (parse_failure_asymmetry badTypeHost "/proc/net/unix" kindUNIX ∅ 0
                    unixHeader [unixNamed] [unixLater] unixBadType
                    ltac:(vm_compute; reflexivity))
             [connTmp.mk 0 1 1 {| IP := "/run/x.sock"; Port := 0 |} Addr0 "NONE" 0 0
                "/run/x.sock"] 0 ErrSyntax).
    + vm_compute. reflexivity.
    + vm_compute. discriminate.
    + vm_compute. reflexivity.
  - apply (proj2 (parse_failure_asymmetry sampleHost "/proc/net/tcp" kindTCP4 ∅ 0
                    tcpHeader [tcpListen; tcpEstablished] [] tcpBadPort
                    ltac:(vm_compute; reflexivity))).
    + vm_compute. discriminate.
    + vm_compute. discriminate.
    + left. exists (ErrInvalidPort "0500000A:XX16"). vm_compute. reflexivity.
    + vm_compute. discriminate.
Defined.

(** * Protocol counters *)

Lemma IndexByte_range (s : string) (c : ascii) :
  strings.IndexByte s c = -1 \/ 0 <= strings.IndexByte s c < len s.
Proof.
  induction s as [|c' s IH]; simpl.
  - left. reflexivity.
  - rewrite len_cons. destruct (Ascii.eqb c' c).
    + right. pose proof (len_nonneg s). lia.
    + destruct IH as [-> | IH]; [left; reflexivity|].
      destruct (Z.ltb_spec (strings.IndexByte s c) 0); [lia|]. right. lia.
Qed.

Lemma slice_prefix (s : string) (c : ascii) :
  strings.IndexByte s c <> -1 ->
  exists prefix, slice s 0 (strings.IndexByte s c) = Some prefix.
Proof.
  intros H. destruct (IndexByte_range s c) as [|Hr]; [contradiction|].
  unfold slice.
  destruct (Z.leb_spec 0 (strings.IndexByte s c)); [|lia].
  destruct (Z.leb_spec (strings.IndexByte s c) (len s)); [|lia].
  simpl. eauto.
Qed.

(** The map built from the request list holds exactly its members. *)
Lemma lookup_protosOf_from (l : list string) :
  forall (m : gmap string bool) (q : string),
    foldl (fun protos p => <[p := true]> protos) m l !! q
    = if decide (q ∈ l) then Some true else m !! q.
Proof.
  induction l as [|p l IH]; intros m q; simpl.
  - destruct (decide (q ∈ [])) as [H|_]; [|reflexivity]. apply elem_of_nil in H. contradiction.
  - rewrite IH. destruct (decide (q ∈ l)) as [Hl|Hl].
    + destruct (decide (q ∈ p :: l)) as [_|H]; [reflexivity|].
      exfalso. apply H. right. exact Hl.
    + destruct (decide (p = q)) as [->|Hne].
      * rewrite lookup_insert_eq.
        destruct (decide (q ∈ q :: l)) as [_|H]; [reflexivity|]. exfalso. apply H. left.
      * rewrite lookup_insert_ne by exact Hne.
        destruct (decide (q ∈ p :: l)) as [H|_]; [|reflexivity].
        apply elem_of_cons in H as [->|H]; contradiction.
Qed.

Lemma requested_protosOf (l : list string) (q : string) :
  requested (protosOf l) q = true <-> q ∈ l.
Proof.
  unfold requested, protosOf. rewrite lookup_protosOf_from.
  destruct (decide (q ∈ l)) as [H|H]; simpl.
  - split; auto.
  - rewrite lookup_empty. simpl. split; [discriminate | contradiction].
Qed.

Lemma list_pair_ind {A : Type} (P : list A -> Prop) :
  P [] -> (forall x, P [x]) -> (forall x y l, P l -> P (x :: y :: l)) ->
  forall l, P l.
Proof.
  intros H0 H1 H2 l.
  assert (H : P l /\ forall x, P (x :: l)).
  { induction l as [|y l [IHl IHc]]; [split; [exact H0 | exact H1]|].
    split; [apply IHc|]. intros x. apply H2. exact IHl. }
  apply H.
Qed.

Section ProtoLoop.
Variable mapUnicodeToLower : string -> string.
Variable filename : string.
Variable protos : gmap string bool.

Local Abbreviation loop := (protoLoop mapUnicodeToLower filename protos).
Local Abbreviation protoName := (protoOf mapUnicodeToLower).

Lemma protoLoop_cons (line : string) (rest : list string)
    (stats : list NetProtoCountersStat) :
  loop (line :: rest) stats =
  let r := strings.IndexByte line ":" in
  if r =? -1 then Err (ErrExpectedColon filename) else
  match slice line 0 r with
  | None => Panic SliceBoundsOutOfRange
  | Some prefix =>
    let proto := strings.ToLower mapUnicodeToLower prefix in
    if negb (requested protos proto) then
      match rest with
      | [] => Ok stats
      | _ :: rest' => loop rest' stats
      end
    else
      match slice_from line (r + 2) with
      | None => Panic SliceBoundsOutOfRange
      | Some names =>
        let statNames := strings.Split names " " in
        match rest with
        | [] => Panic IndexOutOfRange
        | dataLine :: rest' =>
          match slice_from dataLine (r + 2) with
          | None => Panic SliceBoundsOutOfRange
          | Some values =>
            let statValues := strings.Split values " " in
            if negb (Z.of_nat (length statNames) =? Z.of_nat (length statValues))
            then Err (ErrExpectedSameColumns filename)
            else
              match readStats statNames 0 statValues ∅ with
              | Ok m => loop rest' (stats ++ [{| Protocol := proto; Stats := m |}])
              | Err e => Err e
              | Panic p => Panic p
              end
          end
        end
      end
  end.
Proof. reflexivity. Qed.

(** The head of a header line that has its colon. *)
Lemma protoLoop_header (line : string) (rest : list string)
    (stats : list NetProtoCountersStat) :
  strings.IndexByte line ":" <> -1 ->
  loop (line :: rest) stats =
  if negb (requested protos (protoName line)) then
    match rest with
    | [] => Ok stats
    | _ :: rest' => loop rest' stats
    end
  else
    match slice_from line (strings.IndexByte line ":" + 2) with
    | None => Panic SliceBoundsOutOfRange
    | Some names =>
      match rest with
      | [] => Panic IndexOutOfRange
      | dataLine :: rest' =>
        match slice_from dataLine (strings.IndexByte line ":" + 2) with
        | None => Panic SliceBoundsOutOfRange
        | Some values =>
          if negb (Z.of_nat (length (strings.Split names " "))
                   =? Z.of_nat (length (strings.Split values " ")))
          then Err (ErrExpectedSameColumns filename)
          else
            match readStats (strings.Split names " ") 0 (strings.Split values " ") ∅ with
            | Ok m =>
              loop rest' (stats ++ [{| Protocol := protoName line; Stats := m |}])
            | Err e => Err e
            | Panic p => Panic p
            end
        end
      end
    end.
Proof.
  intros Hr. rewrite protoLoop_cons. cbv zeta.
  destruct (Z.eqb_spec (strings.IndexByte line ":") (-1)); [contradiction|].
  unfold protoOf.
  destruct (slice_prefix line ":" Hr) as [prefix ->]. reflexivity.
Qed.

(** Both lines of a protocol that was not requested are passed over. *)
Lemma protoLoop_skip (header values : string) (rest : list string)
    (stats : list NetProtoCountersStat) :
  strings.IndexByte header ":" <> -1 ->
  requested protos (protoName header) = false ->
  loop (header :: values :: rest) stats = loop rest stats.
Proof.
  intros Hr Hreq. rewrite protoLoop_header by exact Hr. rewrite Hreq. reflexivity.
Qed.

(** A requested pair whose lines split into different numbers of tokens. *)
Lemma protoLoop_mismatch (header values names vals : string) (rest : list string)
    (stats : list NetProtoCountersStat) :
  strings.IndexByte header ":" <> -1 ->
  requested protos (protoName header) = true ->
  slice_from header (strings.IndexByte header ":" + 2) = Some names ->
  slice_from values (strings.IndexByte header ":" + 2) = Some vals ->
  length (strings.Split names " ") <> length (strings.Split vals " ") ->
  loop (header :: values :: rest) stats = Err (ErrExpectedSameColumns filename).
Proof.
  intros Hr Hreq Hn Hv Hlen. rewrite protoLoop_header by exact Hr.
  rewrite Hreq, Hn, Hv. simpl negb at 1. cbv iota.
  destruct (Z.eqb_spec (Z.of_nat (length (strings.Split names " ")))
              (Z.of_nat (length (strings.Split vals " ")))); [lia | reflexivity].
Qed.

(** A requested pair that parses adds one counter set. *)
Lemma protoLoop_parse (header values : string) (rest : list string)
    (stats : list NetProtoCountersStat) :
  requested protos (protoName header) = true ->
  pairParses header values = true ->
  exists m, forall rest stats,
    loop (header :: values :: rest) stats
    = loop rest (stats ++ [{| Protocol := protoName header; Stats := m |}]).
Proof.
  intros Hreq Hp. unfold pairParses in Hp.
  apply andb_prop in Hp as [Hr Hp]. apply negb_true_iff, Z.eqb_neq in Hr.
  destruct (slice_from header _) as [names|] eqn:Hn; [|discriminate].
  destruct (slice_from values _) as [vals|] eqn:Hv; [|discriminate].
  apply andb_prop in Hp as [Hlen Hs].
  destruct (readStats _ 0 _ ∅) as [m| |] eqn:Hm; try discriminate.
  exists m. intros rest' stats'. rewrite protoLoop_header by exact Hr.
  rewrite Hreq, Hn, Hv, Hlen, Hm. reflexivity.
Qed.

(** A file of pairs that parse is read to its end; it gives one counter
    set for each pair of a requested protocol, in file order. *)
Lemma protoLoop_pairsOk (pre : list string) :
  pairsOk mapUnicodeToLower protos pre = true ->
  exists st,
    (forall rest stats, loop (pre ++ rest) stats = loop rest (stats ++ st))
    /\ Protocol <$> st
       = List.filter (requested protos) (pairProtos mapUnicodeToLower pre).
Proof.
  induction pre as [|x|header values pre IH] using list_pair_ind; intros Hok.
  - exists []. split; [|reflexivity]. intros rest stats. rewrite app_nil_r. reflexivity.
  - discriminate.
  - simpl in Hok. apply andb_prop in Hok as [Hpair Hok].
    destruct (IH Hok) as (st & Hloop & Hst).
    destruct (requested protos (protoName header)) eqn:Hreq.
    + destruct (protoLoop_parse header values [] [] Hreq Hpair) as [m Hm].
      exists ({| Protocol := protoName header; Stats := m |} :: st). split.
      * intros rest stats.
        change ((header :: values :: pre) ++ rest) with (header :: values :: (pre ++ rest)).
        rewrite Hm, Hloop, <- app_assoc. reflexivity.
      * rewrite fmap_cons, Hst.
        change (pairProtos mapUnicodeToLower (header :: values :: pre))
          with (protoName header :: pairProtos mapUnicodeToLower pre).
        cbn [List.filter Protocol]. rewrite Hreq. reflexivity.
    + apply negb_true_iff, Z.eqb_neq in Hpair.
      exists st. split.
      * intros rest stats.
        change ((header :: values :: pre) ++ rest) with (header :: values :: (pre ++ rest)).
        rewrite protoLoop_skip by assumption. apply Hloop.
      * change (pairProtos mapUnicodeToLower (header :: values :: pre))
          with (protoName header :: pairProtos mapUnicodeToLower pre).
        cbn [List.filter]. rewrite Hreq. exact Hst.
Qed.

(** Every counter set the loop adds is for a requested protocol. *)
Lemma protoLoop_requested (n : nat) :
  forall lines stats stats',
    (length lines <= n)%nat ->
    loop lines stats = Ok stats' ->
    forall s, s ∈ stats' -> s ∈ stats \/ requested protos (Protocol s) = true.
Proof.
  induction n as [|n IH]; intros lines stats stats' Hn Hloop s Hs.
  - destruct lines; [|simpl in Hn; lia]. injection Hloop as <-. left. exact Hs.
  - destruct lines as [|line rest]; [injection Hloop as <-; left; exact Hs|].
    destruct (Z.eq_dec (strings.IndexByte line ":") (-1)) as [Hr|Hr].
    { rewrite protoLoop_cons in Hloop. cbv zeta in Hloop. rewrite Hr in Hloop.
      discriminate. }
    rewrite protoLoop_header in Hloop by exact Hr.
    destruct (requested protos (protoName line)) eqn:Hreq; simpl negb in Hloop;
      cbv iota in Hloop.
    + destruct (slice_from line _) as [names|]; [|discriminate].
      destruct rest as [|dataLine rest]; [discriminate|].
      destruct (slice_from dataLine _) as [vals|]; [|discriminate].
      destruct (negb _); [discriminate|].
      destruct (readStats _ 0 _ ∅) as [m| |]; try discriminate.
      destruct (IH rest _ _ ltac:(simpl in Hn; lia) Hloop s Hs) as [H|H]; [|right; exact H].
      apply elem_of_app in H as [H|H]; [left; exact H|].
      apply list_elem_of_singleton in H as ->. right. exact Hreq.
    + destruct rest as [|dataLine rest]; [injection Hloop as <-; left; exact Hs|].
      exact (IH rest _ _ ltac:(simpl in Hn; lia) Hloop s Hs).
Qed.
End ProtoLoop.

Lemma NetProtoCounters_eq (mapUnicodeToLower : string -> string) (h : Host)
    (protocols lines : list string) :
  ReadLines h (HostProc h ["net/snmp"]) = Some lines ->
  NetProtoCounters mapUnicodeToLower h protocols
  = mkIO [AccReadLines (HostProc h ["net/snmp"])]
         (protoLoop mapUnicodeToLower (HostProc h ["net/snmp"])
            (protosOf (protocolsOrAll protocols)) lines []).
Proof.
  intros Hfile. unfold NetProtoCounters, readLines.
  unfold mbind, IO_bind, io_bind. simpl. rewrite Hfile. reflexivity.
Qed.

(** C8, amended: a protocol is asked for when its name in lower case, the
    prefix of its header line put in lower case, is an entry of the request
    list as the caller gave it (of the six known names for an empty list);
    the entries of the request are not put in lower case.  When the lines
    of a protocol asked for split into different numbers of tokens, and the
    pairs before them were read, NetProtoCounters returns the
    same-number-of-columns error, a FormatError, and no result; a protocol
    whose name in lower case is no entry of a non-empty request list has
    both its lines passed over, whatever they hold after the prefix, and is
    in no counter set of a result. *)
Theorem NetProtoCounters_columns (mapUnicodeToLower : string -> string) (h : Host)
    (protocols : list string) :
  (forall pre header values post names vals,
     ReadLines h (HostProc h ["net/snmp"]) = Some (pre ++ header :: values :: post) ->
     pairsOk mapUnicodeToLower (protosOf (protocolsOrAll protocols)) pre = true ->
     strings.IndexByte header ":" <> -1 ->
     protoOf mapUnicodeToLower header ∈ protocolsOrAll protocols ->
     slice_from header (strings.IndexByte header ":" + 2) = Some names ->
     slice_from values (strings.IndexByte header ":" + 2) = Some vals ->
     length (strings.Split names " ") <> length (strings.Split vals " ") ->
     NetProtoCounters mapUnicodeToLower h protocols
     = mkIO [AccReadLines (HostProc h ["net/snmp"])]
            (Err (ErrExpectedSameColumns (HostProc h ["net/snmp"])))
     /\ classOf (ErrExpectedSameColumns (HostProc h ["net/snmp"])) = Some FormatError)
  /\ (forall p, protocols <> [] -> p ∉ protocols ->
        (forall stats,
           outcome (NetProtoCounters mapUnicodeToLower h protocols) = Ok stats ->
           p ∉ Protocol <$> stats)
        /\ (forall header values rest stats,
              strings.IndexByte header ":" <> -1 ->
              protoOf mapUnicodeToLower header = p ->
              protoLoop mapUnicodeToLower (HostProc h ["net/snmp"]) (protosOf protocols)
                (header :: values :: rest) stats
              = protoLoop mapUnicodeToLower (HostProc h ["net/snmp"]) (protosOf protocols)
                  rest stats)).
Proof.
  split.
  - intros pre header values post names vals Hfile Hpre Hr Hreq Hn Hv Hlen.
    split; [|reflexivity].
    rewrite (NetProtoCounters_eq _ _ _ _ Hfile). f_equal.
    destruct (protoLoop_pairsOk _ (HostProc h ["net/snmp"]) _ pre Hpre) as (st & Hloop & _).
    rewrite Hloop. apply requested_protosOf in Hreq.
    eapply protoLoop_mismatch; eassumption.
  - intros p Hne Hp.
    assert (Hreq : requested (protosOf protocols) p = false).
    { destruct (requested (protosOf protocols) p) eqn:E; [|reflexivity].
      apply requested_protosOf in E. contradiction. }
    split.
    + intros stats Hout Hin.
      assert (Hall : protocolsOrAll protocols = protocols).
      { destruct protocols; [contradiction | reflexivity]. }
      unfold NetProtoCounters in Hout. rewrite outcome_bind in Hout.
      unfold readLines in Hout. simpl outcome at 1 in Hout.
      destruct (ReadLines h _) as [lines|]; [|discriminate].
      simpl in Hout. rewrite Hall in Hout.
      apply list_elem_of_fmap in Hin as (s & -> & Hs).
      destruct (protoLoop_requested _ _ _ (length lines) lines [] stats (le_n _) Hout s Hs)
        as [H|H].
      * apply elem_of_nil in H. contradiction.
      * congruence.
    + intros header values rest stats Hr <-. apply protoLoop_skip; assumption.
Qed.

Lemma NetProtoCounters_columns_witness :
  (NetProtoCounters (fun s => s) mismatchHost ["tcp"]
   = mkIO [AccReadLines (HostProc mismatchHost ["net/snmp"])]
          (Err (ErrExpectedSameColumns (HostProc mismatchHost ["net/snmp"])))
   /\ classOf (ErrExpectedSameColumns (HostProc mismatchHost ["net/snmp"])) = Some FormatError)
  /\ (forall stats,
        outcome (NetProtoCounters (fun s => s) sampleHost ["tcp"]) = Ok stats ->
        "udp" ∉ Protocol <$> stats).
Proof.
  split.
  - apply (proj1 (NetProtoCounters_columns (fun s => s) mismatchHost ["tcp"])
             ["Ip: Forwarding DefaultTTL"; "Ip: 1 64"]
             "Tcp: RtoAlgorithm RtoMin RtoMax" "Tcp: 1 200"
             ["Udp: InDatagrams NoPorts"; "Udp: 7 0"]
             "RtoAlgorithm RtoMin RtoMax" "1 200").
    + vm_compute. reflexivity.
    + vm_compute. reflexivity.
    + vm_compute. discriminate.
    + apply (bool_decide_unpack _). vm_compute. exact I.
    + vm_compute. reflexivity.
    + vm_compute. reflexivity.
    + vm_compute. discriminate.
  - apply (proj2 (NetProtoCounters_columns (fun s => s) sampleHost ["tcp"]) "udp").
    + discriminate.
    + apply (bool_decide_unpack _). vm_compute. exact I.
Defined.

(** C10: an empty request list is the list of the six known protocols; on
    a file of pairs that parse, among which the known protocols are the six,
    each once, the result has no error and one counter set per known
    protocol, in file order. *)
Theorem NetProtoCounters_all (mapUnicodeToLower : string -> string) (h : Host)
    (lines : list string) :
  ReadLines h (HostProc h ["net/snmp"]) = Some lines ->
  pairsOk mapUnicodeToLower (protosOf netProtocols) lines = true ->
  List.filter (requested (protosOf netProtocols)) (pairProtos mapUnicodeToLower lines)
    ≡ₚ netProtocols ->
  NetProtoCounters mapUnicodeToLower h [] = NetProtoCounters mapUnicodeToLower h netProtocols
  /\ exists stats,
       outcome (NetProtoCounters mapUnicodeToLower h []) = Ok stats
       /\ Protocol <$> stats
          = List.filter (requested (protosOf netProtocols))
              (pairProtos mapUnicodeToLower lines)
       /\ Protocol <$> stats ≡ₚ netProtocols
       /\ length stats = 6%nat.
Proof.
  intros Hfile Hok Hperm. split; [reflexivity|].
  destruct (protoLoop_pairsOk _ (HostProc h ["net/snmp"]) _ lines Hok) as (st & Hloop & Hst).
  exists st. rewrite (NetProtoCounters_eq _ _ _ _ Hfile).
  change (protocolsOrAll []) with netProtocols. simpl outcome.
  specialize (Hloop [] []). rewrite app_nil_r in Hloop. rewrite Hloop.
  split; [reflexivity|]. split; [exact Hst|].
  rewrite <- Hst in Hperm. split; [exact Hperm|].
  apply Permutation_length in Hperm. rewrite length_fmap in Hperm. exact Hperm.
Qed.

Lemma NetProtoCounters_all_witness :
  NetProtoCounters (fun s => s) sampleHost [] = NetProtoCounters (fun s => s) sampleHost netProtocols
  /\ exists stats,
       outcome (NetProtoCounters (fun s => s) sampleHost []) = Ok stats
       /\ Protocol <$> stats
          = List.filter (requested (protosOf netProtocols))
              (pairProtos (fun s => s)
                 ["Ip: Forwarding DefaultTTL"; "Ip: 1 64";
                  "Icmp: InMsgs InErrors"; "Icmp: 12 0";
                  "IcmpMsg: InType3 OutType3"; "IcmpMsg: 5 5";
                  "Tcp: RtoAlgorithm RtoMin RtoMax"; "Tcp: 1 200 120000";
                  "Udp: InDatagrams NoPorts"; "Udp: 7 0";
                  "UdpLite: InDatagrams NoPorts"; "UdpLite: 0 0"])
       /\ Protocol <$> stats ≡ₚ netProtocols
       /\ length stats = 6%nat.
Proof.
  apply (NetProtoCounters_all (fun s => s) sampleHost).
  - vm_compute. reflexivity.
  - vm_compute. reflexivity.
  - vm_compute. reflexivity.
Defined.

(** * The duplicate check *)

(** What holds of the state of a loop before a round holds after it. *)
Lemma foldIO_inv {A S : Type} (P : S -> Prop) (f : S -> A -> IO S) :
  (forall s a s', P s -> outcome (f s a) = Ok s' -> P s') ->
  forall l s s', P s -> outcome (foldIO f l s) = Ok s' -> P s'.
Proof.
  intros Hf l. induction l as [|a l IH]; intros s s' Hs; simpl.
  - intros [= <-]. exact Hs.
  - rewrite outcome_bind. destruct (outcome (f s a)) eqn:E; try discriminate.
    apply IH. eapply Hf; eassumption.
Qed.

Section Dedup.
Variable String : NetConnectionStat -> string.

Lemma dedup_cons c ls st :
  dedup String (c :: ls) st = dedup String ls (dedup String [c] st).
Proof. reflexivity. Qed.

Lemma dedup_one c (st : gmap string bool * list NetConnectionStat) :
  dedup String [c] st =
  match st.1 !! String (connOf c) with
  | Some _ => st
  | None => (<[String (connOf c) := true]> st.1, st.2 ++ [connOf c])
  end.
Proof. destruct st as [dup ret]. reflexivity. Qed.

(** One record through the check: the invariant stays, no key is lost,
    and the key of the record is among the keys kept. *)
Lemma dedup_one_spec c st :
  dupCheckInv String st ->
  dupCheckInv String (dedup String [c] st)
  /\ (forall json, json ∈ String <$> st.2 -> json ∈ String <$> (dedup String [c] st).2)
  /\ String (connOf c) ∈ String <$> (dedup String [c] st).2.
Proof.
  intros [Hnd Hkeys]. rewrite dedup_one.
  destruct (st.1 !! String (connOf c)) as [b|] eqn:E.
  - split; [split; assumption|]. split; [auto|]. apply Hkeys. eauto.
  - assert (Hnew : String (connOf c) ∉ String <$> st.2).
    { intros Hin. apply Hkeys in Hin as [b Hb]. congruence. }
    unfold dupCheckInv. cbn [fst snd]. rewrite fmap_app. cbn [fmap list_fmap].
    split; [split|split].
    + apply NoDup_app. split; [exact Hnd|]. split.
      * intros x Hx Hx'. apply list_elem_of_singleton in Hx' as ->. contradiction.
      * apply NoDup_singleton.
    + intros json. rewrite elem_of_app, list_elem_of_singleton.
      destruct (decide (String (connOf c) = json)) as [<-|Hne].
      * rewrite lookup_insert_eq. split; [auto | eauto].
      * rewrite lookup_insert_ne by exact Hne. rewrite Hkeys.
        split; [auto | intros [H|H]; [exact H | congruence]].
    + intros json Hin. apply elem_of_app. left. exact Hin.
    + apply elem_of_app. right. apply list_elem_of_singleton. reflexivity.
Qed.

Lemma dedup_spec ls :
  forall st, dupCheckInv String st ->
    dupCheckInv String (dedup String ls st)
    /\ (forall json, json ∈ String <$> st.2 -> json ∈ String <$> (dedup String ls st).2)
    /\ (forall c, c ∈ ls -> String (connOf c) ∈ String <$> (dedup String ls st).2).
Proof.
  induction ls as [|c ls IH]; intros st Hinv.
  - split; [exact Hinv|]. split; [auto|]. intros c Hc. apply elem_of_nil in Hc. contradiction.
  - rewrite dedup_cons.
    destruct (dedup_one_spec c st Hinv) as (Hinv1 & Hmono1 & Hc1).
    destruct (IH _ Hinv1) as (Hinv2 & Hmono2 & Hls).
    split; [exact Hinv2|]. split; [auto|].
    intros c' Hc'. apply elem_of_cons in Hc' as [->|Hc']; auto.
Qed.

Lemma dupCheckInv_empty : dupCheckInv String (∅, []).
Proof.
  split; [apply NoDup_nil_2|]. intros json. cbn [fst snd fmap list_fmap].
  rewrite lookup_empty. split.
  - intros [b Hb]. discriminate.
  - intros H. apply elem_of_nil in H. contradiction.
Qed.

Lemma connRound_inv h root inodes pid st t st' :
  dupCheckInv String st ->
  outcome (connRound String h root inodes pid st t) = Ok st' ->
  dupCheckInv String st'.
Proof.
  intros Hinv. unfold connRound. rewrite outcome_bind.
  destruct (outcome _) as [ls| |]; try discriminate.
  rewrite outcome_ret. intros [= <-]. apply dedup_spec, Hinv.
Qed.

Lemma connLoop_NoDup h root inodes pid tmap ret :
  outcome (st ← foldIO (connRound String h root inodes pid) tmap (∅, []);
           mret (snd st)) = Ok ret ->
  NoDup (String <$> ret).
Proof.
  rewrite outcome_bind.
  destruct (outcome (foldIO _ tmap _)) as [st| |] eqn:E; try discriminate.
  rewrite outcome_ret. intros [= <-].
  assert (Hinv : dupCheckInv String st).
  { eapply (foldIO_inv (dupCheckInv String)); [|apply dupCheckInv_empty|exact E].
    intros s a s'. apply connRound_inv. }
  apply Hinv.
Qed.
End Dedup.

(** * Ranges of parsed numbers *)

Lemma digits_range (base0 : bool) (base cutoff maxVal : Z) (s : string) :
  forall n u v u',
    0 <= n <= maxVal ->
    strconv.digits base0 base cutoff maxVal s n u = (v, u', None) ->
    0 <= v <= maxVal.
Proof.
  induction s as [|c s IH]; intros n u v u' Hn; cbn [strconv.digits].
  - intros [= <- _]. exact Hn.
  - destruct ((byte_of c =? 95) && base0); [apply IH; exact Hn|].
    destruct (strconv.digitOf (byte_of c)) as [d|]; [|discriminate].
    destruct (base <=? d); [discriminate|].
    destruct (cutoff <=? n); [discriminate|].
    destruct (Z.ltb_spec (uint64 (uint64 (n * base) + d)) (uint64 (n * base)));
      [discriminate|].
    destruct (Z.ltb_spec maxVal (uint64 (uint64 (n * base) + d))); [discriminate|].
    cbn [orb]. apply IH. split; [|assumption].
    unfold uint64. apply Z.mod_pos_bound. reflexivity.
Qed.


Lemma digits_ErrRange (base0 : bool) (base cutoff maxVal : Z) (s : string) :
  forall n u v u',
    strconv.digits base0 base cutoff maxVal s n u = (v, u', Some ErrRange) -> v = maxVal.
Proof.
  induction s as [|c s IH]; intros n u v u'; cbn [strconv.digits].
  - discriminate.
  - destruct ((byte_of c =? 95) && base0); [apply IH|].
    destruct (strconv.digitOf (byte_of c)) as [d|]; [|discriminate].
    destruct (base <=? d); [discriminate|].
    destruct (cutoff <=? n); [intros [= <- _]; reflexivity|].
    destruct (_ || _); [intros [= <- _]; reflexivity|]. apply IH.
Qed.

(** A pid [ParseInt] takes in base 10 with 32 bits is an int32. *)
Lemma ParseInt10_32_range (s : string) (v : Z) :
  strconv.ParseInt s 10 32 = (v, None) -> - 2 ^ 31 <= v < 2 ^ 31.
Proof.
  destruct s as [|c s]; [discriminate|].
  unfold strconv.ParseInt.
  assert (Hu : forall t un e, strconv.ParseUint t 10 32 = (un, e) ->
                 (e = None -> 0 <= un) /\ (e = Some ErrRange -> un = 4294967295)).
  { intros t un e Ht. destruct t as [|c' t]; [injection Ht as <- <-; split; discriminate|].
    unfold strconv.ParseUint in Ht. change (10 =? 0) with false in Ht.
    change (32 =? 0) with false in Ht. cbv beta iota zeta in Ht.
    destruct (strconv.digits false 10 _ _ _ 0 false) as [[n us] [e'|]] eqn:E.
    - injection Ht as <- <-. split; [discriminate|]. intros [= ->].
      apply digits_ErrRange in E. exact E.
    - apply digits_range in E; [|split; [lia | vm_compute; discriminate]].
      destruct (us && _); injection Ht as <- <-; split; try discriminate. intros _. lia. }
  change (32 =? 0) with false. cbv iota. change (2 ^ (32 - 1)) with 2147483648.
  change (2 ^ 31) with 2147483648.
  assert (Hcase : forall t neg,
    match strconv.ParseUint t 10 32 with
    | (_, Some ErrSyntax) => (0, Some ErrSyntax)
    | (un, _) =>
      if negb neg && (2147483648 <=? un) then (2147483648 - 1, Some ErrRange)
      else if neg && (2147483648 <? un) then (- 2147483648, Some ErrRange)
      else (if neg then - un else un, None)
    end = (v, None) -> -2147483648 <= v < 2147483648).
  { intros t neg. destruct (strconv.ParseUint t 10 32) as [un e] eqn:E.
    destruct (Hu t un e E) as [Hok Hrange].
    destruct e as [[]|]; [discriminate| |].
    - rewrite (Hrange eq_refl). destruct neg; cbn; discriminate.
    - specialize (Hok eq_refl).
      destruct neg; cbn [negb andb].
      + destruct (Z.ltb_spec 2147483648 un); [discriminate|]. intros [= <-]. lia.
      + destruct (Z.leb_spec 2147483648 un); [discriminate|]. intros [= <-]. lia. }
  destruct (byte_of c =? 43); [apply (Hcase s false)|].
  destruct (byte_of c =? 45); [apply (Hcase s true) | apply (Hcase (String c s) false)].
Qed.

(** * The byte order of addresses *)

(** X1: Reverse undoes itself and keeps the length of the slice, and the
    byte it leaves at position i is the one that stood at position
    len(s)-1-i. *)
Theorem Reverse_involutive (s : list Z) :
  Reverse (Reverse s) = s
  /\ length (Reverse s) = length s
  /\ (forall i : nat, (i < length s)%nat ->
        Reverse s !! i = s !! (length s - S i)%nat).
Proof.
  rewrite !Reverse_rev. split; [apply rev_involutive|].
  split; [apply length_rev|].
  intros i Hi. rewrite rev_alt. apply (reverse_lookup s i). exact Hi.
Qed.

Lemma Reverse_involutive_witness :
  Reverse (Reverse [10; 0; 0; 5]) = [10; 0; 0; 5]
  /\ length (Reverse [10; 0; 0; 5]) = 4%nat
  /\ Reverse [10; 0; 0; 5] !! 0%nat = Some 5.
Proof.
  destruct (Reverse_involutive [10; 0; 0; 5]) as (H1 & H2 & H3).
  split; [exact H1|]. split; [exact H2|].
  rewrite (H3 0%nat); [reflexivity|cbn; lia].
Defined.

(** X2: parseIPv6HexString turns every group of four bytes around, so it
    gives 16 bytes and undoes itself: applied to its own result it returns
    the bytes it was given. *)
Theorem parseIPv6HexString_involutive (src ip : list Z) :
  parseIPv6HexString src = Ok ip ->
  length ip = 16%nat /\ parseIPv6HexString ip = Ok src.
Proof.
  unfold parseIPv6HexString at 1.
  destruct (Z.eqb_spec (Z.of_nat (length src)) 16) as [Hlen|]; [|discriminate].
  assert (Hlen' : length src = 16%nat) by lia. clear Hlen.
  do 16 (destruct src as [|? src]; [discriminate|]).
  destruct src; [|discriminate].
  intros [= <-]. split; reflexivity.
Qed.

Lemma parseIPv6HexString_involutive_witness :
  length [1; 19; 0; 133; 82; 16; 1; 19; 161; 87; 0; 7; 1; 84; 2; 63] = 16%nat
  /\ parseIPv6HexString [1; 19; 0; 133; 82; 16; 1; 19; 161; 87; 0; 7; 1; 84; 2; 63]
     = Ok [133; 0; 19; 1; 19; 1; 16; 82; 7; 0; 87; 161; 63; 2; 84; 1].
Proof.
  apply (parseIPv6HexString_involutive
           [133; 0; 19; 1; 19; 1; 16; 82; 7; 0; 87; 161; 63; 2; 84; 1]).
  reflexivity.
Defined.

(** * The inode-ownership index *)

(** What updateMap leaves under a key: the list of [src] followed by the
    list of [add] when both have the key, else the list of the one that
    has it. *)
Lemma updateMap_lookup (src add : gmap string (list inodeMap.t)) (k : string) :
  updateMap src add !! k =
  match src !! k, add !! k with
  | Some a, Some v => Some (a ++ v)
  | Some a, None => Some a
  | None, o => o
  end.
Proof.
  unfold updateMap. revert k.
  apply (map_fold_weak_ind
           (fun r (m : gmap string (list inodeMap.t)) => forall k,
              r !! k = match src !! k, m !! k with
                       | Some a, Some v => Some (a ++ v)
                       | Some a, None => Some a
                       | None, o => o
                       end)).
  - intros k. rewrite lookup_empty. destruct (src !! k); reflexivity.
  - intros i x m r Hi IH k.
    pose proof (IH i) as IHi. rewrite Hi in IHi.
    destruct (decide (i = k)) as [->|Hne].
    + rewrite lookup_insert_eq.
      destruct (src !! k) as [a|] eqn:Es; rewrite IHi, lookup_insert_eq; reflexivity.
    + rewrite (lookup_insert_ne m) by exact Hne.
      destruct (r !! i) as [a|]; rewrite lookup_insert_ne by exact Hne; apply IH.
Qed.

(** X3: updateMap is the union of the two maps that appends the list of
    [add] to the list of [src] under every key they share; no key of
    either map is lost and none is made up. *)
Theorem updateMap_union (src add : gmap string (list inodeMap.t)) :
  updateMap src add = union_with (fun a v => Some (a ++ v)) src add
  /\ dom (updateMap src add) = dom src ∪ dom add.
Proof.
  assert (H : updateMap src add = union_with (fun a v => Some (a ++ v)) src add).
  { apply map_eq. intros k. rewrite updateMap_lookup, lookup_union_with.
    destruct (src !! k), (add !! k); reflexivity. }
  split; [exact H|]. apply set_eq. intros k.
  rewrite elem_of_union, !elem_of_dom, updateMap_lookup. unfold is_Some.
  destruct (src !! k), (add !! k);
    (split; [intros [x Hx]|intros [[x Hx]|[x Hx]]]; try discriminate; eauto).
Qed.

(** The three ways a round of the loop of getProcInodes ends. *)
Lemma procInode_cases h root pid ret name :
  let path := root +:+ "/" +:+ itoa pid +:+ "/fd/" +:+ name in
  trace (procInode h root pid ret name) = [AccReadlink path]
  /\ forall ret', outcome (procInode h root pid ret name) = Ok ret' ->
       ret' = ret
       \/ (exists link inode v e, Readlink h path = Some link
             /\ strings.HasPrefix link "socket:[" = true
             /\ slice link 8 (len link - 1) = Some inode
             /\ strconv.Atoi name = (v, Some e)
             /\ ret' = match ret !! inode with
                       | Some _ => ret
                       | None => <[inode := []]> ret
                       end)
       \/ (exists link inode v, Readlink h path = Some link
             /\ strings.HasPrefix link "socket:[" = true
             /\ slice link 8 (len link - 1) = Some inode
             /\ strconv.Atoi name = (v, None)
             /\ ret' = <[inode := default [] (ret !! inode)
                                  ++ [inodeMap.mk pid (uint32 v)]]> ret).
Proof.
  intros path. split; [reflexivity|]. intros ret'.
  unfold procInode. fold path. cbn [outcome].
  destruct (Readlink h path) as [link|] eqn:El; [|intros [= <-]; left; reflexivity].
  destruct (strings.HasPrefix link "socket:[") eqn:Ep; cbn [negb];
    [|intros [= <-]; left; reflexivity].
  destruct (slice link 8 (len link - 1)) as [inode|] eqn:Es; [|discriminate].
  destruct (strconv.Atoi name) as [v [e|]] eqn:Ea; intros [= <-]; right.
  - left. exists link, inode, v, e. repeat split; try assumption.
  - right. exists link, inode, v. repeat split; try assumption.
    destruct (ret !! inode) as [l|] eqn:Er; cbn [default].
    + rewrite Er. reflexivity.
    + rewrite lookup_insert_eq. cbn [default]. rewrite insert_insert_eq. reflexivity.
Qed.

(** A loop keeps what every round keeps, the round being told that its
    element is one of the list. *)
Lemma foldIO_inv_elem {A S : Type} (P : S -> Prop) (f : S -> A -> IO S) (l : list A) :
  (forall s a s', a ∈ l -> P s -> outcome (f s a) = Ok s' -> P s') ->
  forall s s', P s -> outcome (foldIO f l s) = Ok s' -> P s'.
Proof.
  induction l as [|a l IH]; intros Hf s s' Hs; simpl.
  - intros [= <-]. exact Hs.
  - rewrite outcome_bind. destruct (outcome (f s a)) eqn:E; try discriminate.
    apply IH.
    + intros s1 a1 s1' Ha1. apply Hf. right. exact Ha1.
    + eapply Hf; [left|exact Hs|exact E].
Qed.

(** Every access of a loop is an access of one of its rounds. *)
Lemma foldIO_trace_Forall {A S : Type} (Q : access -> Prop) (f : S -> A -> IO S)
    (l : list A) :
  (forall s a, a ∈ l -> Forall Q (trace (f s a))) ->
  forall s, Forall Q (trace (foldIO f l s)).
Proof.
  induction l as [|a l IH]; intros Hf s; simpl.
  - apply Forall_nil_2.
  - rewrite trace_bind.
    assert (Ha : Forall Q (trace (f s a))) by (apply Hf; left).
    destruct (outcome (f s a)); try exact Ha.
    apply Forall_app. split; [exact Ha|].
    apply IH. intros s1 a1 Ha1. apply Hf. right. exact Ha1.
Qed.

(** The trace of a loop that ran to its end is the traces of its rounds,
    when a round touches the same files whatever its state. *)
Lemma foldIO_trace_Ok {A S : Type} (f : S -> A -> IO S) (t : A -> list access) :
  (forall s a, trace (f s a) = t a) ->
  forall l s s', outcome (foldIO f l s) = Ok s' ->
    trace (foldIO f l s) = concat (t <$> l).
Proof.
  intros Ht l. induction l as [|a l IH]; intros s s'; simpl.
  - reflexivity.
  - rewrite outcome_bind, trace_bind.
    destruct (outcome (f s a)) eqn:E; try discriminate.
    intros H. rewrite Ht, (IH _ _ H). reflexivity.
Qed.

Lemma getProcInodes_owners h root pid m :
  outcome (getProcInodes h root pid) = Ok m ->
  forall inode l p, m !! inode = Some l -> p ∈ l ->
    exists files, ReadDir h (root +:+ "/" +:+ itoa pid +:+ "/fd") = Some files
      /\ ownerOf h root pid files inode p.
Proof.
  unfold getProcInodes.
  destruct (ReadDir h _) as [files|] eqn:Ed.
  - unfold io_bind. cbn [outcome]. intros H inode l p Hl Hp.
    exists files. split; [reflexivity|].
    revert inode l p Hl Hp.
    eapply (foldIO_inv_elem
              (fun m => forall inode l p, m !! inode = Some l -> p ∈ l ->
                          ownerOf h root pid files inode p)); [| |exact H].
    + intros s name s' Hname Hs Hstep inode l p Hl Hp.
      destruct (procInode_cases h root pid s name) as [_ Hcases].
      destruct (Hcases s' Hstep) as [->|[(link & ino & v & e & Hr & Hp' & Hs' & Ha & ->)
                                        |(link & ino & v & Hr & Hp' & Hs' & Ha & ->)]].
      * eapply Hs; eassumption.
      * destruct (s !! ino) as [l0|] eqn:E0; [eapply Hs; eassumption|].
        destruct (decide (ino = inode)) as [->|Hne].
        -- rewrite lookup_insert_eq in Hl. injection Hl as <-.
           apply elem_of_nil in Hp. contradiction.
        -- rewrite lookup_insert_ne in Hl by exact Hne. eapply Hs; eassumption.
      * destruct (decide (ino = inode)) as [->|Hne].
        -- rewrite lookup_insert_eq in Hl. injection Hl as <-.
           apply elem_of_app in Hp as [Hp|Hp].
           ++ destruct (s !! inode) as [l0|] eqn:E0; cbn [default] in Hp.
              ** eapply Hs; eassumption.
              ** apply elem_of_nil in Hp. contradiction.
           ++ apply list_elem_of_singleton in Hp as ->.
              exists name, link, v. repeat split; assumption.
        -- rewrite lookup_insert_ne in Hl by exact Hne. eapply Hs; eassumption.
    + intros inode l p Hl. rewrite lookup_empty in Hl. discriminate.
  - cbn [outcome]. intros [= <-] inode l p Hl. rewrite lookup_empty in Hl. discriminate.
Qed.

Lemma uint32_range (v : Z) : 0 <= uint32 v < 2 ^ 32.
Proof. unfold uint32. apply Z.mod_pos_bound. reflexivity. Qed.

(** X4: every owner in the index getProcInodes builds for a process comes
    from an entry of the fd directory of that process: the entry is a link
    to socket:[inode], its name is a number, the owner has the pid of the
    call and the name, cut to 32 bits, as its descriptor. *)
Theorem getProcInodes_sound (h : Host) (root : string) (pid : Z)
    (m : gmap string (list inodeMap.t)) (inode : string) (l : list inodeMap.t)
    (p : inodeMap.t) :
  outcome (getProcInodes h root pid) = Ok m ->
  m !! inode = Some l ->
  p ∈ l ->
  inodeMap.pid p = pid
  /\ 0 <= inodeMap.fd p < 2 ^ 32
  /\ exists files, ReadDir h (root +:+ "/" +:+ itoa pid +:+ "/fd") = Some files
       /\ ownerOf h root pid files inode p.
Proof.
  intros H Hl Hp.
  destruct (getProcInodes_owners h root pid m H inode l p Hl Hp) as (files & Hd & Ho).
  pose proof Ho as (name & link & v & _ & _ & _ & _ & _ & ->).
  cbn [inodeMap.pid inodeMap.fd]. split; [reflexivity|].
  split; [apply uint32_range|]. exists files. split; assumption.
Qed.

Lemma getProcInodes_sound_witness :
  inodeMap.pid (inodeMap.mk 1 4) = 1
  /\ 0 <= inodeMap.fd (inodeMap.mk 1 4) < 2 ^ 32
  /\ exists files, ReadDir sampleHost ("/proc" +:+ "/" +:+ itoa 1 +:+ "/fd") = Some files
       /\ ownerOf sampleHost "/proc" 1 files "100" (inodeMap.mk 1 4).
Proof.
  apply (getProcInodes_sound sampleHost "/proc" 1
           (<["100" := [inodeMap.mk 1 4]]>
              (<["300" := [inodeMap.mk 1 3; inodeMap.mk 1 3]]> ∅))
           "100" [inodeMap.mk 1 4]).
  - vm_compute. reflexivity.
  - vm_compute. reflexivity.
  - apply list_elem_of_singleton. reflexivity.
Defined.

Lemma getProcInodes_trace_Forall h root pid :
  Forall (fdAccess h root pid) (trace (getProcInodes h root pid)).
Proof.
  unfold getProcInodes.
  destruct (ReadDir h _) as [files|] eqn:Ed.
  - unfold io_bind. cbn [outcome trace].
    apply Forall_cons. split; [left; reflexivity|].
    apply foldIO_trace_Forall. intros s name Hname.
    apply Forall_cons. split; [|apply Forall_nil_2].
    right. exists files, name. repeat split; assumption.
  - cbn [trace]. apply Forall_cons. split; [left; reflexivity|apply Forall_nil_2].
Qed.

(** X5: getProcInodes lists the fd directory of the process once and then
    reads the links of its entries and nothing else; when it returns, it
    has read every entry once, in the order of the listing. *)
Theorem getProcInodes_trace (h : Host) (root : string) (pid : Z) :
  Forall (fdAccess h root pid) (trace (getProcInodes h root pid))
  /\ forall files m,
       ReadDir h (root +:+ "/" +:+ itoa pid +:+ "/fd") = Some files ->
       outcome (getProcInodes h root pid) = Ok m ->
       trace (getProcInodes h root pid) =
       AccReadDir (root +:+ "/" +:+ itoa pid +:+ "/fd")
       :: ((fun name => AccReadlink (root +:+ "/" +:+ itoa pid +:+ "/fd/" +:+ name))
             <$> files).
Proof.
  split; [apply getProcInodes_trace_Forall|].
  intros files m Hd. unfold getProcInodes. rewrite Hd.
  unfold io_bind. cbn [outcome trace]. intros H.
  rewrite (foldIO_trace_Ok (procInode h root pid)
             (fun name => [AccReadlink (root +:+ "/" +:+ itoa pid +:+ "/fd/" +:+ name)])
             (fun s a => eq_refl) files ∅ m H).
  cbn [app]. f_equal. clear. induction files as [|a l IH]; [reflexivity|].
  cbn [fmap list_fmap concat app]. f_equal. exact IH.
Qed.

Lemma getProcInodes_trace_witness :
  trace (getProcInodes sampleHost "/proc" 2)
  = [AccReadDir "/proc/2/fd"; AccReadlink "/proc/2/fd/5"].
Proof.
  apply (proj2 (getProcInodes_trace sampleHost "/proc" 2) ["5"]
           (<["200" := [inodeMap.mk 2 5]]> ∅)).
  - vm_compute. reflexivity.
  - vm_compute. reflexivity.
Defined.

(** X6: an entry of the fd directory whose name is no number but which
    links to a socket not seen before leaves that socket in the index with
    an empty list of owners. *)
Theorem procInode_empty_owner (h : Host) (root : string) (pid : Z)
    (ret : gmap string (list inodeMap.t)) (name link inode : string)
    (v : Z) (e : NumErr) :
  Readlink h (root +:+ "/" +:+ itoa pid +:+ "/fd/" +:+ name) = Some link ->
  strings.HasPrefix link "socket:[" = true ->
  slice link 8 (len link - 1) = Some inode ->
  strconv.Atoi name = (v, Some e) ->
  ret !! inode = None ->
  outcome (procInode h root pid ret name) = Ok (<[inode := []]> ret).
Proof.
  intros Hr Hp Hs Ha Hi. unfold procInode. cbn [outcome].
  rewrite Hr, Hp. cbn [negb]. rewrite Hs, Hi, Ha. reflexivity.
Qed.

(** * The processes of the host *)

Lemma Pids_loop (fnames : list string) :
  forall acc p,
    p ∈ foldl (fun ret fname =>
                 match strconv.ParseInt fname 10 32 with
                 | (_, Some _) => ret
                 | (pid, None) => ret ++ [pid]
                 end) acc fnames ->
    p ∈ acc \/ exists fname, fname ∈ fnames /\ strconv.ParseInt fname 10 32 = (p, None).
Proof.
  induction fnames as [|f fnames IH]; intros acc p; cbn [foldl].
  - left. assumption.
  - intros H. apply IH in H as [H|(fname & Hin & Hparse)].
    + destruct (strconv.ParseInt f 10 32) as [v [e|]] eqn:E; [left; exact H|].
      apply elem_of_app in H as [H|H]; [left; exact H|].
      apply list_elem_of_singleton in H as ->. right. exists f. split; [left|exact E].
    + right. exists fname. split; [right; exact Hin|exact Hparse].
Qed.

Lemma Pids_elem h pids p :
  outcome (Pids h) = Ok pids -> p ∈ pids ->
  exists fnames fname,
    Readdirnames h (HostProc h []) = Some fnames
    /\ fname ∈ fnames
    /\ strconv.ParseInt fname 10 32 = (p, None).
Proof.
  unfold Pids. cbn [outcome].
  destruct (Readdirnames h (HostProc h [])) as [fnames|]; [|discriminate].
  intros [= <-] Hp. apply Pids_loop in Hp as [Hp|(fname & Hin & Hparse)].
  - apply elem_of_nil in Hp. contradiction.
  - exists fnames, fname. repeat split; assumption.
Qed.

(** X7: every pid Pids returns is the value of a name of the listing of
    the proc root that reads as a decimal number of 32 bits; it lies
    between -2^31 and 2^31-1, so the conversion to int32 changes nothing. *)
Theorem Pids_int32 (h : Host) (pids : list Z) (p : Z) :
  outcome (Pids h) = Ok pids ->
  p ∈ pids ->
  - 2 ^ 31 <= p < 2 ^ 31
  /\ exists fnames fname,
       Readdirnames h (HostProc h []) = Some fnames
       /\ fname ∈ fnames
       /\ strconv.ParseInt fname 10 32 = (p, None).
Proof.
  intros H Hp. destruct (Pids_elem h pids p H Hp) as (fnames & fname & Hd & Hin & Hparse).
  split; [eapply ParseInt10_32_range; exact Hparse|].
  exists fnames, fname. repeat split; assumption.
Qed.

Lemma Pids_int32_witness :
  - 2 ^ 31 <= 2 < 2 ^ 31
  /\ exists fnames fname,
       Readdirnames sampleHost (HostProc sampleHost []) = Some fnames
       /\ fname ∈ fnames
       /\ strconv.ParseInt fname 10 32 = (2, None).
Proof.
  apply (Pids_int32 sampleHost [1; 2; 4] 2).
  - vm_compute. reflexivity.
  - right. left.
Defined.

(** X8: every owner in the index getProcInodesAll builds belongs to a pid
    that Pids returned, and was made of an entry of the fd directory of
    that pid. *)
Theorem getProcInodesAll_sound (h : Host) (root : string)
    (m : gmap string (list inodeMap.t)) (inode : string) (l : list inodeMap.t)
    (p : inodeMap.t) :
  outcome (getProcInodesAll h root) = Ok m ->
  m !! inode = Some l ->
  p ∈ l ->
  exists pids files,
    outcome (Pids h) = Ok pids
    /\ inodeMap.pid p ∈ pids
    /\ ReadDir h (root +:+ "/" +:+ itoa (inodeMap.pid p) +:+ "/fd") = Some files
    /\ ownerOf h root (inodeMap.pid p) files inode p.
Proof.
  unfold getProcInodesAll. rewrite outcome_bind.
  destruct (outcome (Pids h)) as [pids| |] eqn:Ep; try discriminate.
  intros H Hl Hp. exists pids.
  cut (exists files, inodeMap.pid p ∈ pids
         /\ ReadDir h (root +:+ "/" +:+ itoa (inodeMap.pid p) +:+ "/fd") = Some files
         /\ ownerOf h root (inodeMap.pid p) files inode p).
  { intros (files & H1 & H2 & H3). exists files. repeat split; assumption. }
  revert inode l p Hl Hp.
  eapply (foldIO_inv_elem
            (fun m => forall inode l p, m !! inode = Some l -> p ∈ l ->
               exists files, inodeMap.pid p ∈ pids
                 /\ ReadDir h (root +:+ "/" +:+ itoa (inodeMap.pid p) +:+ "/fd") = Some files
                 /\ ownerOf h root (inodeMap.pid p) files inode p)); [| |exact H].
  - intros s pid s' Hpid Hs. cbv beta. rewrite outcome_bind.
    destruct (outcome (getProcInodes h root pid)) as [t| |] eqn:Et; try discriminate.
    destruct (_ =? 0); rewrite outcome_ret; intros [= <-]; [exact Hs|].
    intros inode l p Hl Hp.
    assert (Hnew : forall v, t !! inode = Some v -> p ∈ v ->
              exists files, inodeMap.pid p ∈ pids
                /\ ReadDir h (root +:+ "/" +:+ itoa (inodeMap.pid p) +:+ "/fd") = Some files
                /\ ownerOf h root (inodeMap.pid p) files inode p).
    { intros v Hv Hpv.
      destruct (getProcInodes_owners h root pid t Et inode v p Hv Hpv) as (files & Hd & Ho).
      pose proof Ho as (name & link & w & _ & _ & _ & _ & _ & ->).
      cbn [inodeMap.pid]. exists files. repeat split; assumption. }
    rewrite updateMap_lookup in Hl.
    destruct (s !! inode) as [a|] eqn:Es.
    + destruct (t !! inode) as [v|] eqn:Ev; injection Hl as <-.
      * apply elem_of_app in Hp as [Hp|Hp]; [eapply Hs; eassumption|].
        eapply Hnew; [reflexivity|exact Hp].
      * eapply Hs; eassumption.
    + eapply Hnew; eassumption.
  - intros inode l p Hl. rewrite lookup_empty in Hl. discriminate.
Qed.

Lemma getProcInodesAll_sound_witness :
  exists pids files,
    outcome (Pids sampleHost) = Ok pids
    /\ inodeMap.pid (inodeMap.mk 2 5) ∈ pids
    /\ ReadDir sampleHost ("/proc" +:+ "/" +:+ itoa (inodeMap.pid (inodeMap.mk 2 5)) +:+ "/fd")
       = Some files
    /\ ownerOf sampleHost "/proc" (inodeMap.pid (inodeMap.mk 2 5)) files "200"
         (inodeMap.mk 2 5).
Proof.
  apply (getProcInodesAll_sound sampleHost "/proc"
           (<["200" := [inodeMap.mk 2 5]]>
              (<["100" := [inodeMap.mk 1 4]]>
                 (<["300" := [inodeMap.mk 1 3; inodeMap.mk 1 3]]> ∅)))
           "200" [inodeMap.mk 2 5]).
  - vm_compute. reflexivity.
  - vm_compute. reflexivity.
  - apply list_elem_of_singleton. reflexivity.
Defined.

Lemma procInode_empty_owner_witness :
  outcome (procInode strayFdHost "/proc" 7 ∅ "x") = Ok (<["100" := []]> ∅).
Proof.
  apply (procInode_empty_owner strayFdHost "/proc" 7 ∅ "x" "socket:[100]" "100" 0 ErrSyntax).
  - vm_compute. reflexivity.
  - vm_compute. reflexivity.
  - vm_compute. reflexivity.
  - vm_compute. reflexivity.
  - vm_compute. reflexivity.
Defined.

(** * The rows of the connection tables *)

Lemma decoded_port_range (family : Z) (src : string) (a : Addr) :
  decodeAddress family src = Ok a -> 0 <= Port a < 2 ^ 32.
Proof.
  unfold decodeAddress. destruct (negb _); [discriminate|].
  destruct (strconv.ParseInt _ 0 64) as [port [e|]]; [discriminate|].
  destruct (hex.DecodeString _) as [decoded [e|]]; [discriminate|].
  destruct (family =? syscall.AF_INET).
  - intros [= <-]. apply uint32_range.
  - rewrite res_bind_eq. destruct (parseIPv6HexString decoded); try discriminate.
    intros [= <-]. apply uint32_range.
Qed.

Lemma pid_filter (filterPid pid : Z) :
  (0 <? filterPid) && negb (filterPid =? pid) = false -> 0 < filterPid -> pid = filterPid.
Proof.
  destruct (Z.ltb_spec 0 filterPid); [|lia].
  destruct (Z.eqb_spec filterPid pid); [intros _ _; congruence|discriminate].
Qed.

Lemma inetRow_record kind inodes filterPid line c :
  inetRow kind inodes filterPid line = Ok (Some c) -> inetRecord kind inodes filterPid c.
Proof.
  unfold inetRow. destruct (_ <? 10); [discriminate|].
  rewrite res_bind_eq.
  assert (Hstatus : forall code,
             if netConnectionKindType.sockType kind =? syscall.SOCK_STREAM
             then (if netConnectionKindType.sockType kind =? syscall.SOCK_STREAM
                   then default EmptyString (TCPStatuses !! code) else "NONE") = EmptyString
                  \/ exists code', TCPStatuses !! code'
                       = Some (if netConnectionKindType.sockType kind =? syscall.SOCK_STREAM
                               then default EmptyString (TCPStatuses !! code) else "NONE")
             else (if netConnectionKindType.sockType kind =? syscall.SOCK_STREAM
                   then default EmptyString (TCPStatuses !! code) else "NONE") = "NONE").
  { intros code. destruct (_ =? syscall.SOCK_STREAM); [|reflexivity].
    destruct (TCPStatuses !! code) as [s|] eqn:E; [right; exists code; exact E|left; reflexivity]. }
  destruct (inodes !! nth 9 (strings.Fields line) EmptyString) as [[|i0 rest]|] eqn:Ei;
    try discriminate; cbv beta iota zeta;
    (destruct ((0 <? filterPid) && _) eqn:Ef; [discriminate|]);
    (destruct (decodeAddress _ (nth 1 _ _)) as [la| |] eqn:Ela; try discriminate);
    (destruct (decodeAddress _ (nth 2 _ _)) as [ra| |] eqn:Era; try discriminate);
    intros [= <-]; unfold inetRecord; cbn [connTmp.family connTmp.sockType
      connTmp.boundPid connTmp.path connTmp.laddr connTmp.raddr connTmp.pid
      connTmp.status connTmp.fd];
    (split; [reflexivity|]); (split; [reflexivity|]); (split; [reflexivity|]);
    (split; [reflexivity|]);
    (split; [eapply decoded_port_range; exact Ela|]);
    (split; [eapply decoded_port_range; exact Era|]);
    (split; [apply pid_filter; exact Ef|]);
    (split; [apply Hstatus|]).
  - right. exists (nth 9 (strings.Fields line) EmptyString), i0, rest.
    repeat split. exact Ei.
  - left. split; reflexivity.
Qed.

(** A loop over a list keeps what every round keeps. *)
Lemma foldRes_inv {A S : Type} (P : S -> Prop) (f : S -> A -> result S) :
  (forall s a s', P s -> f s a = Ok s' -> P s') ->
  forall l s s', P s -> foldRes f l s = Ok s' -> P s'.
Proof.
  intros Hf l. induction l as [|a l IH]; intros s s' Hs; simpl.
  - intros [= <-]. exact Hs.
  - rewrite res_bind_eq. destruct (f s a) eqn:E; try discriminate.
    apply IH. eapply Hf; eassumption.
Qed.

Lemma inetRows_records kind inodes filterPid lines ret ls :
  (forall c, c ∈ ret -> inetRecord kind inodes filterPid c) ->
  inetRows kind inodes filterPid lines ret = Ok ls ->
  forall c, c ∈ ls -> inetRecord kind inodes filterPid c.
Proof.
  unfold inetRows. intros Hret H.
  eapply (foldRes_inv (fun ret => forall c, c ∈ ret -> inetRecord kind inodes filterPid c));
    [|exact Hret|exact H].
  intros s line s' Hs. cbv beta. rewrite res_bind_eq.
  destruct (inetRow kind inodes filterPid line) as [[c0|]| |] eqn:E; try discriminate;
    intros [= <-]; [|exact Hs].
  intros c Hc. apply elem_of_app in Hc as [Hc|Hc]; [apply Hs; exact Hc|].
  apply list_elem_of_singleton in Hc as ->. eapply inetRow_record; exact E.
Qed.

(** The ways processInet returns a list: the table of IPv6 is absent, or
    the table was read and its rows after the first gave the list. *)
Lemma processInet_Ok h file kind inodes filterPid ls :
  outcome (processInet h file kind inodes filterPid) = Ok ls ->
  (ls = [] /\ strings.HasSuffix file "6" = true /\ PathExists h file = false)
  \/ exists first rows,
       ReadLines h file = Some (first :: rows)
       /\ inetRows kind inodes filterPid rows [] = Ok ls.
Proof.
  unfold processInet. rewrite outcome_bind.
  assert (Hread : outcome (lines ← readLines h file;
                   pure (rows ← skipFirst lines; inetRows kind inodes filterPid rows []))
                  = Ok ls ->
                  exists first rows, ReadLines h file = Some (first :: rows)
                    /\ inetRows kind inodes filterPid rows [] = Ok ls).
  { rewrite outcome_bind. unfold readLines. simpl outcome at 1.
    destruct (ReadLines h file) as [[|first rows]|]; try discriminate.
    simpl. intros H. exists first, rows. split; [reflexivity|exact H]. }
  destruct (strings.HasSuffix file "6").
  - rewrite outcome_bind. simpl outcome at 1. cbv iota. rewrite outcome_ret.
    destruct (PathExists h file); cbn [negb].
    + intros H. right. apply Hread. exact H.
    + rewrite outcome_ret. intros [= <-]. left. repeat split.
  - rewrite outcome_ret. intros H. right. apply Hread. exact H.
Qed.

Lemma processInet_Forall h file kind inodes filterPid ls :
  outcome (processInet h file kind inodes filterPid) = Ok ls ->
  Forall (inetRecord kind inodes filterPid) ls.
Proof.
  intros H. apply Forall_forall. intros c Hc.
  apply processInet_Ok in H as [(-> & _ & _)|(first & rows & _ & H)].
  - apply elem_of_nil in Hc. contradiction.
  - eapply inetRows_records; [|exact H|exact Hc].
    intros c' Hc'. apply elem_of_nil in Hc'. contradiction.
Qed.

Lemma inetRow_rowOf kind inodes filterPid line c :
  inetRow kind inodes filterPid line = Ok (Some c) -> inetRowOf kind inodes line c.
Proof.
  unfold inetRow, inetRowOf. cbv zeta.
  destruct (Z.ltb_spec (Z.of_nat (length (strings.Fields line))) 10); [discriminate|].
  rewrite res_bind_eq.
  destruct (inodes !! nth 9 (strings.Fields line) EmptyString) as [[|i0 rest]|] eqn:Ei;
    try discriminate; cbv beta iota zeta;
    (destruct ((0 <? filterPid) && _); [discriminate|]);
    (destruct (decodeAddress _ (nth 1 _ _)) as [la| |] eqn:Ela; try discriminate);
    (destruct (decodeAddress _ (nth 2 _ _)) as [ra| |] eqn:Era; try discriminate);
    intros [= <-]; cbn [connTmp.laddr connTmp.raddr connTmp.pid connTmp.status connTmp.fd];
    (split; [lia|]); (split; [reflexivity|]); (split; [reflexivity|]);
    (split; [reflexivity|]).
  - exists i0. repeat split.
  - split; reflexivity.
Qed.

Lemma inetRows_rowOf kind inodes filterPid (lines : list string) :
  forall ret ls,
    inetRows kind inodes filterPid lines ret = Ok ls ->
    forall c, c ∈ ls ->
      c ∈ ret \/ exists line, line ∈ lines /\ inetRowOf kind inodes line c.
Proof.
  unfold inetRows.
  induction lines as [|line lines IH]; intros ret ls; cbn [foldRes].
  - intros [= <-] c Hc. left. exact Hc.
  - rewrite !res_bind_eq.
    destruct (inetRow kind inodes filterPid line) as [[c0|]| |] eqn:E; try discriminate;
      intros H c Hc; destruct (IH _ _ H c Hc) as [Hin|(l & Hl & Hrow)].
    + apply elem_of_app in Hin as [Hin|Hin]; [left; exact Hin|].
      apply list_elem_of_singleton in Hin as ->. right. exists line.
      split; [left|eapply inetRow_rowOf; exact E].
    + right. exists l. split; [right; exact Hl|exact Hrow].
    + left. exact Hin.
    + right. exists l. split; [right; exact Hl|exact Hrow].
Qed.

(** X9: every row processInet returns is made of a line of the table
    after its first: the line has ten fields or more, the addresses of the
    row are its fields 1 and 2 decoded, the status comes from its field 3,
    and the owner is the first one the index has for the inode in its
    field 9, or pid 0 and fd 0 when the index does not have that inode.
    The row has the family and the type of the kind the call was made
    with, both ports within 32 bits, a status that is NONE for a datagram
    table and, for a stream table, a name of TCPStatuses or empty; under a
    filter pid above 0 its pid is that pid; and the bound pid and the path
    are never set. *)
Theorem processInet_records (h : Host) (file : string) (kind : netConnectionKindType.t)
    (inodes : gmap string (list inodeMap.t)) (filterPid : Z)
    (ls : list connTmp.t) (c : connTmp.t) :
  outcome (processInet h file kind inodes filterPid) = Ok ls ->
  c ∈ ls ->
  inetRecord kind inodes filterPid c
  /\ exists first rows line,
       ReadLines h file = Some (first :: rows)
       /\ line ∈ rows
       /\ inetRowOf kind inodes line c.
Proof.
  intros H Hc. split.
  - apply processInet_Forall in H. rewrite Forall_forall in H. apply H, Hc.
  - apply processInet_Ok in H as [(-> & _ & _)|(first & rows & Hr & H)].
    + apply elem_of_nil in Hc. contradiction.
    + destruct (inetRows_rowOf _ _ _ _ _ _ H c Hc) as [Hin|(line & Hl & Hrow)].
      * apply elem_of_nil in Hin. contradiction.
      * exists first, rows, line. split; [exact Hr|]. split; [exact Hl|exact Hrow].
Qed.

Lemma processInet_records_witness :
  inetRecord kindTCP4 (<["100" := [inodeMap.mk 1 4]]> ∅) 1
    (connTmp.mk 4 2 1 {| IP := "10.0.0.5"; Port := 22 |}
       {| IP := "0.0.0.0"; Port := 0 |} "LISTEN" 1 0 EmptyString)
  /\ exists first rows line,
       ReadLines sampleHost "/proc/net/tcp" = Some (first :: rows)
       /\ line ∈ rows
       /\ inetRowOf kindTCP4 (<["100" := [inodeMap.mk 1 4]]> ∅) line
            (connTmp.mk 4 2 1 {| IP := "10.0.0.5"; Port := 22 |}
               {| IP := "0.0.0.0"; Port := 0 |} "LISTEN" 1 0 EmptyString).
Proof.
  apply (processInet_records sampleHost "/proc/net/tcp" kindTCP4
           (<["100" := [inodeMap.mk 1 4]]> ∅) 1
           [connTmp.mk 4 2 1 {| IP := "10.0.0.5"; Port := 22 |}
              {| IP := "0.0.0.0"; Port := 0 |} "LISTEN" 1 0 EmptyString]).
  - vm_compute. reflexivity.
  - apply list_elem_of_singleton. reflexivity.
Defined.

Lemma unixPairs_records kind inodes filterPid tokens st pairs :
  (pairs = [inodeMap.mk 0 0] \/ exists inode, inodes !! inode = Some pairs) ->
  forall ret,
    (forall c, c ∈ ret -> unixRecord kind inodes filterPid c) ->
    forall c, c ∈ unixPairs kind filterPid tokens st pairs ret ->
      unixRecord kind inodes filterPid c.
Proof.
  intros Hpairs. unfold unixPairs.
  assert (Hall : forall pair, pair ∈ pairs ->
            (inodeMap.pid pair = 0 /\ inodeMap.fd pair = 0)
            \/ exists inode pairs', inodes !! inode = Some pairs'
                 /\ inodeMap.mk (inodeMap.pid pair) (inodeMap.fd pair) ∈ pairs').
  { intros pair Hin. destruct Hpairs as [->|[inode Hi]].
    - apply list_elem_of_singleton in Hin as ->. left. split; reflexivity.
    - right. exists inode, pairs. split; [exact Hi|]. destruct pair. exact Hin. }
  clear Hpairs. induction pairs as [|pair pairs IH]; intros ret Hret; cbn [foldl].
  - exact Hret.
  - apply IH; [intros p Hp; apply Hall; right; exact Hp|].
    destruct ((0 <? filterPid) && _) eqn:Ef; [exact Hret|].
    intros c Hc. apply elem_of_app in Hc as [Hc|Hc]; [apply Hret; exact Hc|].
    apply list_elem_of_singleton in Hc as ->.
    unfold unixRecord. cbn [connTmp.family connTmp.sockType
      connTmp.boundPid connTmp.path connTmp.laddr connTmp.raddr connTmp.pid
      connTmp.status connTmp.fd].
    split; [reflexivity|]. split; [apply uint32_range|].
    split; [reflexivity|]. split; [reflexivity|]. split; [reflexivity|].
    split; [reflexivity|]. split; [apply pid_filter; exact Ef|].
    apply Hall. left.
Qed.

Lemma unixRow_records kind inodes filterPid ret line ls :
  (forall c, c ∈ ret -> unixRecord kind inodes filterPid c) ->
  unixRow kind inodes filterPid ret line = Ok ls ->
  forall c, c ∈ ls -> unixRecord kind inodes filterPid c.
Proof.
  intros Hret. unfold unixRow. destruct (_ <? 6); [intros [= <-]; exact Hret|].
  rewrite res_bind_eq. destruct (index _ 4) as [t4| |]; try discriminate.
  destruct (strconv.Atoi t4) as [st [e|]]; [discriminate|].
  rewrite res_bind_eq. destruct (index _ 6) as [inode| |]; try discriminate.
  intros [= <-]. apply unixPairs_records; [|exact Hret].
  destruct (inodes !! inode) as [pairs|] eqn:E; [right; exists inode; exact E|left; reflexivity].
Qed.

Lemma processUnix_Ok h file kind inodes filterPid ls :
  outcome (processUnix h file kind inodes filterPid) = Ok ls ->
  exists first rows,
    ReadLines h file = Some (first :: rows)
    /\ unixRows kind inodes filterPid rows [] = Ok ls.
Proof.
  unfold processUnix. rewrite outcome_bind. unfold readLines. simpl outcome at 1.
  destruct (ReadLines h file) as [[|first rows]|]; try discriminate.
  simpl. intros H. exists first, rows. split; [reflexivity|exact H].
Qed.

Lemma processUnix_Forall h file kind inodes filterPid ls :
  outcome (processUnix h file kind inodes filterPid) = Ok ls ->
  Forall (unixRecord kind inodes filterPid) ls.
Proof.
  intros H. apply Forall_forall.
  apply processUnix_Ok in H as (first & rows & _ & H).
  unfold unixRows in H.
  eapply (foldRes_inv (fun ret => forall c, c ∈ ret -> unixRecord kind inodes filterPid c));
    [| |exact H].
  - intros s line s' Hs Hrow. eapply unixRow_records; eassumption.
  - intros c Hc. apply elem_of_nil in Hc. contradiction.
Qed.

Lemma unixPairs_rowOf kind inodes filterPid line st pairs :
  7 <= Z.of_nat (length (strings.Fields line)) ->
  strconv.Atoi (nth 4 (strings.Fields line) EmptyString) = (st, None) ->
  pairs = match inodes !! nth 6 (strings.Fields line) EmptyString with
          | Some pairs => pairs
          | None => [inodeMap.mk 0 0]
          end ->
  forall ret c,
    c ∈ unixPairs kind filterPid (strings.Fields line) st pairs ret ->
    c ∈ ret \/ unixRowOf inodes line c.
Proof.
  intros Hlen Hst Hpairs. unfold unixPairs.
  assert (Hall : forall pair, pair ∈ pairs ->
            match inodes !! nth 6 (strings.Fields line) EmptyString with
            | Some pairs' => inodeMap.mk (inodeMap.pid pair) (inodeMap.fd pair) ∈ pairs'
            | None => inodeMap.pid pair = 0 /\ inodeMap.fd pair = 0
            end).
  { intros pair Hin. rewrite Hpairs in Hin.
    destruct (inodes !! nth 6 (strings.Fields line) EmptyString) as [pairs'|].
    - destruct pair. exact Hin.
    - apply list_elem_of_singleton in Hin as ->. split; reflexivity. }
  clear Hpairs. induction pairs as [|pair pairs IH]; intros ret c; cbn [foldl].
  - intros Hc. left. exact Hc.
  - intros Hc.
    assert (Hrest : forall p, p ∈ pairs ->
              match inodes !! nth 6 (strings.Fields line) EmptyString with
              | Some pairs' => inodeMap.mk (inodeMap.pid p) (inodeMap.fd p) ∈ pairs'
              | None => inodeMap.pid p = 0 /\ inodeMap.fd p = 0
              end) by (intros p Hp; apply Hall; right; exact Hp).
    apply (IH Hrest) in Hc as [Hc|Hc]; [|right; exact Hc].
    destruct ((0 <? filterPid) && _); [left; exact Hc|].
    apply elem_of_app in Hc as [Hc|Hc]; [left; exact Hc|].
    apply list_elem_of_singleton in Hc as ->. right.
    unfold unixRowOf. cbv zeta.
    cbn [connTmp.sockType connTmp.path connTmp.pid connTmp.fd].
    split; [exact Hlen|]. split; [exists st; split; [exact Hst|reflexivity]|].
    split.
    + destruct (Z.eqb_spec (Z.of_nat (length (strings.Fields line))) 8) as [H8|]; [|reflexivity].
      replace (length (strings.Fields line) - 1)%nat with 7%nat by lia. reflexivity.
    + apply Hall. left.
Qed.

Lemma unixRow_rowOf kind inodes filterPid ret line ls :
  unixRow kind inodes filterPid ret line = Ok ls ->
  forall c, c ∈ ls -> c ∈ ret \/ unixRowOf inodes line c.
Proof.
  unfold unixRow. destruct (_ <? 6); [intros [= <-] c Hc; left; exact Hc|].
  rewrite res_bind_eq. destruct (index _ 4) as [t4| |] eqn:E4; try discriminate.
  destruct (strconv.Atoi t4) as [st [e|]] eqn:Ea; [discriminate|].
  rewrite res_bind_eq. destruct (index _ 6) as [inode| |] eqn:E6; try discriminate.
  intros [= <-].
  assert (Hlen : 7 <= Z.of_nat (length (strings.Fields line))).
  { unfold index in E6. destruct (Z.ltb_spec 6 (Z.of_nat (length (strings.Fields line))));
      [lia|]. rewrite andb_false_r in E6. discriminate. }
  assert (H4 : t4 = nth 4 (strings.Fields line) EmptyString).
  { unfold index in E4. destruct (_ && _); [|discriminate]. injection E4 as <-. reflexivity. }
  assert (H6 : inode = nth 6 (strings.Fields line) EmptyString).
  { unfold index in E6. destruct (_ && _); [|discriminate]. injection E6 as <-. reflexivity. }
  subst t4 inode. apply (unixPairs_rowOf kind inodes filterPid line st); [exact Hlen|exact Ea|].
  reflexivity.
Qed.

Lemma unixRows_rowOf kind inodes filterPid (lines : list string) :
  forall ret ls,
    unixRows kind inodes filterPid lines ret = Ok ls ->
    forall c, c ∈ ls ->
      c ∈ ret \/ exists line, line ∈ lines /\ unixRowOf inodes line c.
Proof.
  unfold unixRows.
  induction lines as [|line lines IH]; intros ret ls; cbn [foldRes].
  - intros [= <-] c Hc. left. exact Hc.
  - rewrite res_bind_eq.
    destruct (unixRow kind inodes filterPid ret line) as [ret'| |] eqn:E; try discriminate.
    intros H c Hc. destruct (IH _ _ H c Hc) as [Hin|(l & Hl & Hrow)].
    + destruct (unixRow_rowOf _ _ _ _ _ _ E c Hin) as [Hret|Hrow]; [left; exact Hret|].
      right. exists line. split; [left|exact Hrow].
    + right. exists l. split; [right; exact Hl|exact Hrow].
Qed.

(** X10: every row processUnix returns is made of a line of the table
    after its first: the line has seven fields or more, the type of the
    row is its field 4 read by Atoi and cut to 32 bits, the path is its
    last field when it has eight, and the owner is one the index has for
    the inode in its field 6, or pid 0 and fd 0 when the index does not
    have that inode.  The row has the family of the kind the call was made
    with, the path as the IP of its local address with port 0, an empty
    remote address and the status NONE; under a filter pid above 0 its pid
    is that pid; and the bound pid is never set. *)
Theorem processUnix_records (h : Host) (file : string) (kind : netConnectionKindType.t)
    (inodes : gmap string (list inodeMap.t)) (filterPid : Z)
    (ls : list connTmp.t) (c : connTmp.t) :
  outcome (processUnix h file kind inodes filterPid) = Ok ls ->
  c ∈ ls ->
  unixRecord kind inodes filterPid c
  /\ exists first rows line,
       ReadLines h file = Some (first :: rows)
       /\ line ∈ rows
       /\ unixRowOf inodes line c.
Proof.
  intros H Hc. split.
  - apply processUnix_Forall in H. rewrite Forall_forall in H. apply H, Hc.
  - apply processUnix_Ok in H as (first & rows & Hr & H).
    destruct (unixRows_rowOf _ _ _ _ _ _ H c Hc) as [Hin|(line & Hl & Hrow)].
    + apply elem_of_nil in Hin. contradiction.
    + exists first, rows, line. split; [exact Hr|]. split; [exact Hl|exact Hrow].
Qed.

Lemma processUnix_records_witness :
  unixRecord kindUNIX (<["300" := [inodeMap.mk 1 3; inodeMap.mk 1 3]]> ∅) 1 sampleOwned
  /\ exists first rows line,
       ReadLines sampleHost "/proc/net/unix" = Some (first :: rows)
       /\ line ∈ rows
       /\ unixRowOf (<["300" := [inodeMap.mk 1 3; inodeMap.mk 1 3]]> ∅) line sampleOwned.
Proof.
  apply (processUnix_records sampleHost "/proc/net/unix" kindUNIX
           (<["300" := [inodeMap.mk 1 3; inodeMap.mk 1 3]]> ∅) 1
           [sampleOwned; sampleOwned]).
  - vm_compute. reflexivity.
  - left.
Defined.

(** X11: processInet called for a table whose name ends in 6 and which
    does not exist returns the empty list without error and without
    reading the table; for any other table it reads the table without
    asking whether it exists. *)
Theorem processInet_ipv6_absent (h : Host) (file : string) (kind : netConnectionKindType.t)
    (inodes : gmap string (list inodeMap.t)) (filterPid : Z) :
  (strings.HasSuffix file "6" = true -> PathExists h file = false ->
   processInet h file kind inodes filterPid = mkIO [AccPathExists file] (Ok []))
  /\ (strings.HasSuffix file "6" = true -> PathExists h file = true ->
      trace (processInet h file kind inodes filterPid)
      = [AccPathExists file; AccReadLines file])
  /\ (strings.HasSuffix file "6" = false ->
      trace (processInet h file kind inodes filterPid) = [AccReadLines file]).
Proof.
  unfold processInet. split; [|split].
  - intros -> Hp. unfold mbind, IO_bind, io_bind, pathExists, mret, IO_ret.
    cbn [outcome trace]. rewrite Hp. reflexivity.
  - intros -> Hp. unfold mbind, IO_bind, io_bind, pathExists, mret, IO_ret, readLines, pure.
    cbn [outcome trace]. rewrite Hp. cbn [negb outcome trace app].
    destruct (ReadLines h file); reflexivity.
  - intros ->. unfold mbind, IO_bind, io_bind, mret, IO_ret, readLines, pure.
    cbn [outcome trace]. destruct (ReadLines h file); reflexivity.
Qed.

Lemma processInet_ipv6_absent_witness :
  processInet sampleHost "/proc/net/tcp6" kindTCP6 ∅ 0
  = mkIO [AccPathExists "/proc/net/tcp6"] (Ok []).
Proof.
  apply (proj1 (processInet_ipv6_absent sampleHost "/proc/net/tcp6" kindTCP6 ∅ 0)).
  - vm_compute. reflexivity.
  - vm_compute. reflexivity.
Defined.

(** X12: a table that was read and has no line at all makes processInet
    and processUnix panic at [lines[1:]]. *)
Theorem empty_table_panics (h : Host) (file : string) (kind : netConnectionKindType.t)
    (inodes : gmap string (list inodeMap.t)) (filterPid : Z) :
  ReadLines h file = Some [] ->
  outcome (processUnix h file kind inodes filterPid) = Panic SliceBoundsOutOfRange
  /\ (strings.HasSuffix file "6" && negb (PathExists h file) = false ->
      outcome (processInet h file kind inodes filterPid) = Panic SliceBoundsOutOfRange).
Proof.
  intros Hr. split.
  - unfold processUnix. rewrite outcome_bind. unfold readLines. cbn [outcome].
    rewrite Hr. reflexivity.
  - unfold processInet. rewrite outcome_bind.
    destruct (strings.HasSuffix file "6"); cbn [andb].
    + intros Hp. rewrite outcome_bind. cbn [outcome pathExists]. rewrite outcome_ret, Hp.
      rewrite outcome_bind. unfold readLines. cbn [outcome]. rewrite Hr. reflexivity.
    + intros _. rewrite outcome_ret, outcome_bind. unfold readLines. cbn [outcome].
      rewrite Hr. reflexivity.
Qed.

Lemma empty_table_panics_witness :
  outcome (processUnix (hostOfFiles [("/proc/net/tcp", [])]) "/proc/net/tcp" kindTCP4 ∅ 0)
  = Panic SliceBoundsOutOfRange
  /\ outcome (processInet (hostOfFiles [("/proc/net/tcp", [])]) "/proc/net/tcp" kindTCP4 ∅ 0)
     = Panic SliceBoundsOutOfRange.
Proof.
  destruct (empty_table_panics (hostOfFiles [("/proc/net/tcp", [])]) "/proc/net/tcp"
              kindTCP4 ∅ 0 ltac:(vm_compute; reflexivity)) as [Hunix Hinet].
  split; [exact Hunix|]. apply Hinet. vm_compute. reflexivity.
Defined.

(** X13: a row of at least ten fields whose inode the index knows with an
    empty list of owners makes processInet panic at [i[0]], whatever the
    rest of the row holds. *)
Theorem inetRow_empty_owner_panics (kind : netConnectionKindType.t)
    (inodes : gmap string (list inodeMap.t)) (filterPid : Z) (line : string) :
  10 <= Z.of_nat (length (strings.Fields line)) ->
  inodes !! nth 9 (strings.Fields line) EmptyString = Some [] ->
  inetRow kind inodes filterPid line = Panic IndexOutOfRange.
Proof.
  intros Hlen Hi. unfold inetRow.
  destruct (Z.ltb_spec (Z.of_nat (length (strings.Fields line))) 10); [lia|].
  rewrite Hi. reflexivity.
Qed.

Lemma inetRow_empty_owner_panics_witness :
  inetRow kindTCP4 (<["100" := []]> ∅) 0 tcpListen = Panic IndexOutOfRange.
Proof.
  apply (inetRow_empty_owner_panics kindTCP4 (<["100" := []]> ∅) 0 tcpListen).
  - vm_compute. discriminate.
  - vm_compute. reflexivity.
Defined.

(** * The records of the connection enumerator *)

Section Records.
Variable String : NetConnectionStat -> string.

(** A record the duplicate check keeps was kept before or is made of one
    of the rows. *)
Lemma dedup_elem ls : forall st n,
  n ∈ (dedup String ls st).2 -> n ∈ st.2 \/ exists c, c ∈ ls /\ n = connOf c.
Proof.
  induction ls as [|c ls IH]; intros st n.
  - intros H. left. exact H.
  - rewrite dedup_cons. intros H. apply IH in H as [H|(c' & Hc' & ->)].
    + rewrite dedup_one in H. destruct (st.1 !! String (connOf c)); [left; exact H|].
      cbn [snd] in H. apply elem_of_app in H as [H|H]; [left; exact H|].
      apply list_elem_of_singleton in H as ->. right. exists c. split; [left|reflexivity].
    + right. exists c'. split; [right; exact Hc'|reflexivity].
Qed.

(** The ways a round of the loop over the kinds ends well. *)
Lemma connRound_Ok h root inodes pid st t st' :
  outcome (connRound String h root inodes pid st t) = Ok st' ->
  exists ls, st' = dedup String ls st
    /\ ((netConnectionKindType.family t = syscall.AF_INET
         \/ netConnectionKindType.family t = syscall.AF_INET6)
        /\ outcome (processInet h (root +:+ "/net/" +:+ netConnectionKindType.filename t)
                      t inodes pid) = Ok ls
        \/ netConnectionKindType.family t = syscall.AF_UNIX
           /\ outcome (processUnix h (root +:+ "/net/" +:+ netConnectionKindType.filename t)
                         t inodes pid) = Ok ls
        \/ ls = []).
Proof.
  unfold connRound. rewrite outcome_bind.
  destruct (Z.eqb_spec (netConnectionKindType.family t) syscall.AF_INET) as [H4|H4];
    [|destruct (Z.eqb_spec (netConnectionKindType.family t) syscall.AF_INET6) as [H6|H6]];
    cbn [orb].
  - destruct (outcome (processInet _ _ _ _ _)) as [ls| |] eqn:E; try discriminate.
    rewrite outcome_ret. intros [= <-]. exists ls. split; [reflexivity|]. left. tauto.
  - destruct (outcome (processInet _ _ _ _ _)) as [ls| |] eqn:E; try discriminate.
    rewrite outcome_ret. intros [= <-]. exists ls. split; [reflexivity|]. left. tauto.
  - destruct (Z.eqb_spec (netConnectionKindType.family t) syscall.AF_UNIX) as [H1|H1].
    + destruct (outcome (processUnix _ _ _ _ _)) as [ls| |] eqn:E; try discriminate.
      rewrite outcome_ret. intros [= <-]. exists ls. split; [reflexivity|]. right. left. tauto.
    + rewrite !outcome_ret. intros [= <-]. exists []. split; [reflexivity|]. right. right.
      reflexivity.
Qed.

Lemma inetRecord_kindRecord tmap t inodes pid c :
  t ∈ tmap -> inetRecord t inodes pid c -> kindRecord tmap pid (connOf c).
Proof.
  intros Ht (Hf & Hty & Hb & _ & Hl & Hr & Hp & _ & _).
  unfold kindRecord, connOf. cbn [Family Type_ Laddr Raddr Pid].
  split; [exists t; split; [exact Ht|]; split; [exact Hf|]; intros _; exact Hty|].
  split; [exact Hl|]. split; [exact Hr|].
  intros Hpos. rewrite (Hp Hpos).
  destruct (Z.eqb_spec pid 0); [lia|reflexivity].
Qed.

Lemma unixRecord_kindRecord tmap t inodes pid c :
  t ∈ tmap -> netConnectionKindType.family t = syscall.AF_UNIX ->
  unixRecord t inodes pid c -> kindRecord tmap pid (connOf c).
Proof.
  intros Ht Hu (Hf & _ & Hb & Hl & Hr & _ & Hp & _).
  unfold kindRecord, connOf. cbn [Family Type_ Laddr Raddr Pid].
  split; [exists t; split; [exact Ht|]; split; [exact Hf|]; intros Hn; contradiction|].
  rewrite Hl, Hr. cbn [Port Addr0].
  split; [lia|]. split; [lia|].
  intros Hpos. rewrite (Hp Hpos).
  destruct (Z.eqb_spec pid 0); [lia|reflexivity].
Qed.

Lemma connLoop_records h root inodes pid tmap st :
  outcome (foldIO (connRound String h root inodes pid) tmap (∅, [])) = Ok st ->
  forall n, n ∈ st.2 -> kindRecord tmap pid n.
Proof.
  intros H.
  eapply (foldIO_inv_elem (fun st => forall n, n ∈ st.2 -> kindRecord tmap pid n));
    [| |exact H].
  - intros s t s' Ht Hs Hround n Hn.
    apply connRound_Ok in Hround as (ls & -> & Hls).
    apply dedup_elem in Hn as [Hn|(c & Hc & ->)]; [apply Hs; exact Hn|].
    destruct Hls as [[_ Hls]|[[Hu Hls]| ->]].
    + eapply inetRecord_kindRecord; [exact Ht|].
      apply processInet_Forall in Hls. rewrite Forall_forall in Hls. apply Hls, Hc.
    + eapply unixRecord_kindRecord; [exact Ht|exact Hu|].
      apply processUnix_Forall in Hls. rewrite Forall_forall in Hls. apply Hls, Hc.
    + apply elem_of_nil in Hc. contradiction.
  - intros n Hn. apply elem_of_nil in Hn. contradiction.
Qed.

(** The ways NetConnectionsPid returns a list: the index of the pid is
    empty, or the loop over the kinds ran to its end. *)
Lemma NetConnectionsPid_Ok h kind pid tmap ret :
  netConnectionKindMap !! kind = Some tmap ->
  outcome (NetConnectionsPid String h kind pid) = Ok ret ->
  ret = []
  \/ exists inodes st,
       outcome (foldIO (connRound String h (HostProc h []) inodes pid) tmap (∅, [])) = Ok st
       /\ ret = st.2.
Proof.
  intros Hk. unfold NetConnectionsPid. rewrite Hk.
  destruct (pid =? 0).
  - destruct (outcome (getProcInodesAll h (HostProc h []))) as [inodes| |] eqn:E.
    + rewrite outcome_bind, E, outcome_bind.
      destruct (outcome (foldIO _ tmap _)) as [st| |] eqn:E'; try discriminate.
      rewrite outcome_ret. intros [= <-]. right. exists inodes, st. split; [exact E'|reflexivity].
    + discriminate.
    + rewrite outcome_bind, E. discriminate.
  - rewrite outcome_bind.
    destruct (outcome (getProcInodes h (HostProc h []) pid)) as [inodes| |] eqn:E;
      try discriminate.
    destruct (_ =? 0); [rewrite outcome_ret; intros [= <-]; left; reflexivity|].
    rewrite outcome_bind.
    destruct (outcome (foldIO _ tmap _)) as [st| |] eqn:E'; try discriminate.
    rewrite outcome_ret. intros [= <-]. right. exists inodes, st. split; [exact E'|reflexivity].
Qed.

(** The errors of the loop over the kinds: a table that cannot be read, or
    a socket type of /proc/net/unix that is no number. *)
Lemma connLoop_err_kind h root inodes pid tmap st e :
  outcome (foldIO (connRound String h root inodes pid) tmap st) = Err e ->
  (exists file, e = ErrIO file) \/ exists n, e = ErrNum n.
Proof.
  apply (foldIO_err (fun e => (exists file, e = ErrIO file) \/ exists n, e = ErrNum n)).
  intros s t e'. unfold connRound. rewrite outcome_bind.
  destruct (_ || _).
  - destruct (outcome (processInet _ _ _ _ _)) eqn:E; try discriminate.
    intros [= <-]. apply processInet_err in E as ->. left. eauto.
  - destruct (_ =? syscall.AF_UNIX).
    + destruct (outcome (processUnix _ _ _ _ _)) eqn:E; try discriminate.
      intros [= <-]. apply processUnix_err in E as [-> | [n ->]]; [left|right]; eauto.
    + rewrite outcome_ret. discriminate.
Qed.

Lemma processInet_trace h file kind inodes filterPid :
  Forall (fun a => a = AccReadLines file
                   \/ (a = AccPathExists file /\ strings.HasSuffix file "6" = true))
         (trace (processInet h file kind inodes filterPid)).
Proof.
  unfold processInet.
  destruct (strings.HasSuffix file "6") eqn:Es;
    unfold mbind, IO_bind, io_bind, pathExists, mret, IO_ret, readLines, pure;
    cbn [outcome trace].
  - destruct (PathExists h file); cbn [negb outcome trace app];
      [destruct (ReadLines h file)|]; cbn [app];
      repeat (apply Forall_cons; split; [tauto|]); apply Forall_nil_2.
  - destruct (ReadLines h file); cbn [app];
      repeat (apply Forall_cons; split; [tauto|]); apply Forall_nil_2.
Qed.

Lemma processUnix_trace h file kind inodes filterPid :
  trace (processUnix h file kind inodes filterPid) = [AccReadLines file].
Proof.
  unfold processUnix, mbind, IO_bind, io_bind, readLines, pure. cbn [outcome trace].
  destruct (ReadLines h file); reflexivity.
Qed.

Lemma connRound_trace h inodes pid tmap st t :
  t ∈ tmap ->
  Forall (connAccess h tmap pid) (trace (connRound String h (HostProc h []) inodes pid st t)).
Proof.
  intros Ht. unfold connRound. rewrite trace_bind.
  assert (H : Forall (connAccess h tmap pid)
                (trace (if (netConnectionKindType.family t =? syscall.AF_INET)
                           || (netConnectionKindType.family t =? syscall.AF_INET6)
                        then processInet h (HostProc h [] +:+ "/net/"
                                            +:+ netConnectionKindType.filename t) t inodes pid
                        else if netConnectionKindType.family t =? syscall.AF_UNIX
                        then processUnix h (HostProc h [] +:+ "/net/"
                                            +:+ netConnectionKindType.filename t) t inodes pid
                        else mret []))).
  { destruct (_ || _); [|destruct (_ =? syscall.AF_UNIX)].
    - eapply Forall_impl; [apply processInet_trace|].
      intros a [->|[-> Hs]]; cbn [connAccess]; exists t; repeat split; assumption.
    - rewrite processUnix_trace. apply Forall_cons. split; [|apply Forall_nil_2].
      cbn [connAccess]. exists t. split; [exact Ht|reflexivity].
    - apply Forall_nil_2. }
  destruct (outcome _); try exact H.
  apply Forall_app. split; [exact H|]. apply Forall_nil_2.
Qed.

Lemma connLoop_trace h inodes pid tmap :
  Forall (connAccess h tmap pid)
    (trace (st ← foldIO (connRound String h (HostProc h []) inodes pid) tmap (∅, []);
            mret (snd st))).
Proof.
  rewrite trace_bind.
  assert (H : Forall (connAccess h tmap pid)
                (trace (foldIO (connRound String h (HostProc h []) inodes pid) tmap (∅, [])))).
  { apply foldIO_trace_Forall. intros s t Ht. apply connRound_trace. exact Ht. }
  destruct (outcome _); try exact H.
  apply Forall_app. split; [exact H|]. apply Forall_nil_2.
Qed.

Lemma fdAccess_connAccess h tmap pid p a :
  (pid <> 0 -> p = pid) -> fdAccess h (HostProc h []) p a -> connAccess h tmap pid a.
Proof.
  intros Hp [->|(files & name & _ & _ & ->)]; cbn [connAccess].
  - exists p. split; [exact Hp|reflexivity].
  - exists p, name. split; [exact Hp|reflexivity].
Qed.

Lemma getProcInodesAll_trace h tmap :
  Forall (connAccess h tmap 0) (trace (getProcInodesAll h (HostProc h []))).
Proof.
  unfold getProcInodesAll. rewrite trace_bind.
  assert (H : Forall (connAccess h tmap 0) (trace (Pids h))).
  { unfold Pids. cbn [trace]. apply Forall_cons. split; [|apply Forall_nil_2].
    cbn [connAccess]. split; reflexivity. }
  destruct (outcome (Pids h)) as [pids| |]; try exact H.
  apply Forall_app. split; [exact H|].
  apply foldIO_trace_Forall. intros s p _. rewrite trace_bind.
  assert (H' : Forall (connAccess h tmap 0) (trace (getProcInodes h (HostProc h []) p))).
  { eapply Forall_impl; [apply getProcInodes_trace_Forall|].
    intros a. apply fdAccess_connAccess. intros Hne. contradiction. }
  destruct (outcome _); try exact H'.
  apply Forall_app. split; [exact H'|].
  destruct (_ =? 0); apply Forall_nil_2.
Qed.

Lemma getProcInodesAll_err h root e :
  outcome (getProcInodesAll h root) = Err e ->
  Readdirnames h (HostProc h []) = None.
Proof.
  unfold getProcInodesAll. rewrite outcome_bind.
  destruct (outcome (Pids h)) as [pids| |] eqn:Ep.
  - intros H. exfalso.
    eapply (foldIO_err (fun _ => False)); [|exact H].
    intros s p e'. cbv beta. rewrite outcome_bind.
    destruct (outcome (getProcInodes h root p)) eqn:E.
    + destruct (_ =? 0); rewrite outcome_ret; discriminate.
    + intros _. eapply getProcInodes_no_err; exact E.
    + discriminate.
  - intros _. unfold Pids in Ep. cbn [outcome] in Ep.
    destruct (Readdirnames h (HostProc h [])); [discriminate|reflexivity].
  - discriminate.
Qed.
End Records.

(** X14: every record NetConnectionsPid returns has the family of one of
    the kinds asked for and, unless that kind is the Unix one, its type;
    its ports lie within 32 bits; and for a pid above 0 every record has
    that pid.  The bound pid the code falls back on is never set, so the
    pid of a record is always the owner found in the index. *)
Theorem NetConnectionsPid_records (String : NetConnectionStat -> string) (h : Host)
    (kind : string) (pid : Z) (tmap : list netConnectionKindType.t)
    (ret : list NetConnectionStat) (n : NetConnectionStat) :
  netConnectionKindMap !! kind = Some tmap ->
  outcome (NetConnectionsPid String h kind pid) = Ok ret ->
  n ∈ ret ->
  kindRecord tmap pid n.
Proof.
  intros Hk H Hn.
  apply (NetConnectionsPid_Ok String h kind pid tmap ret Hk) in H
    as [->|(inodes & st & Hloop & ->)].
  - apply elem_of_nil in Hn. contradiction.
  - eapply connLoop_records; eassumption.
Qed.

Lemma NetConnectionsPid_records_witness :
  kindRecord [kindUNIX] 1 sampleRecord.
Proof.
  apply (NetConnectionsPid_records jsonString sampleHost "unix" 1 [kindUNIX] [sampleRecord]).
  - vm_compute. reflexivity.
  - vm_compute. reflexivity.
  - left.
Defined.

(** X15: the only tables NetConnectionsPid reads or probes are those of
    the kinds asked for, and it probes only tables whose name ends in 6;
    it lists the proc root only when called with pid 0; and for any other
    pid the only fd directory and links it reads are those of that pid.
    For a kind that is not a key of netConnectionKindMap it touches
    nothing. *)
Theorem NetConnectionsPid_accesses (String : NetConnectionStat -> string) (h : Host)
    (kind : string) (pid : Z) :
  Forall (connAccess h (default [] (netConnectionKindMap !! kind)) pid)
         (trace (NetConnectionsPid String h kind pid))
  /\ (netConnectionKindMap !! kind = None ->
      trace (NetConnectionsPid String h kind pid) = []).
Proof.
  unfold NetConnectionsPid. split; [|intros ->; reflexivity].
  destruct (netConnectionKindMap !! kind) as [tmap|]; [|apply Forall_nil_2].
  cbn [default].
  destruct (Z.eqb_spec pid 0) as [->|Hne].
  - pose proof (getProcInodesAll_trace h tmap) as Hall.
    destruct (outcome (getProcInodesAll h (HostProc h []))) eqn:E.
    + rewrite trace_bind, E. apply Forall_app. split; [exact Hall|].
      apply connLoop_trace.
    + exact Hall.
    + rewrite trace_bind, E. exact Hall.
  - rewrite trace_bind.
    assert (H : Forall (connAccess h tmap pid) (trace (getProcInodes h (HostProc h []) pid))).
    { eapply Forall_impl; [apply getProcInodes_trace_Forall|].
      intros a. apply fdAccess_connAccess. intros _. reflexivity. }
    destruct (outcome _); try exact H.
    apply Forall_app. split; [exact H|].
    destruct (_ =? 0); [apply Forall_nil_2|apply connLoop_trace].
Qed.

Lemma NetConnectionsPid_accesses_witness :
  Forall (connAccess sampleHost [kindUNIX] 1)
         (trace (NetConnectionsPid jsonString sampleHost "unix" 1))
  /\ trace (NetConnectionsPid jsonString sampleHost "raw" 1) = [].
Proof.
  split.
  - apply (proj1 (NetConnectionsPid_accesses jsonString sampleHost "unix" 1)).
  - apply (proj2 (NetConnectionsPid_accesses jsonString sampleHost "raw" 1)).
    vm_compute. reflexivity.
Defined.

(** X16: for a valid kind NetConnectionsPid returns the could-not-get-pids
    error exactly when it is called with pid 0 and the proc root cannot be
    listed; the error then names pid 0, and nothing else was read.  For a
    pid other than 0 the error is never returned, getProcInodes having no
    error of its own. *)
Theorem ErrCouldNotGetPids_iff (String : NetConnectionStat -> string) (h : Host)
    (kind : string) (pid p : Z) (tmap : list netConnectionKindType.t) :
  netConnectionKindMap !! kind = Some tmap ->
  (outcome (NetConnectionsPid String h kind pid) = Err (ErrCouldNotGetPids p)
   <-> pid = 0 /\ p = 0 /\ Readdirnames h (HostProc h []) = None)
  /\ (pid = 0 -> Readdirnames h (HostProc h []) = None ->
      trace (NetConnectionsPid String h kind pid) = [AccReaddirnames (HostProc h [])]).
Proof.
  intros Hk. unfold NetConnectionsPid. rewrite Hk.
  assert (Hnone : Readdirnames h (HostProc h []) = None ->
            getProcInodesAll h (HostProc h [])
            = mkIO [AccReaddirnames (HostProc h [])] (Err (ErrIO (HostProc h [])))).
  { intros Hd. unfold getProcInodesAll, mbind, IO_bind, io_bind, Pids.
    cbn [outcome trace]. rewrite Hd. reflexivity. }
  split.
  - split.
    + destruct (Z.eqb_spec pid 0) as [->|Hne].
      * destruct (outcome (getProcInodesAll h (HostProc h []))) eqn:E.
        -- rewrite outcome_bind, E, outcome_bind.
           destruct (outcome (foldIO _ tmap _)) eqn:E'; try discriminate.
           intros [= ->]. apply connLoop_err_kind in E' as [[f Hf]|[n Hn]]; discriminate.
        -- cbn [outcome]. intros [= <-].
           split; [reflexivity|]. split; [reflexivity|].
           eapply getProcInodesAll_err; exact E.
        -- rewrite outcome_bind, E. discriminate.
      * rewrite outcome_bind.
        destruct (outcome (getProcInodes h (HostProc h []) pid)) eqn:E; try discriminate.
        -- destruct (_ =? 0); [rewrite outcome_ret; discriminate|].
           rewrite outcome_bind.
           destruct (outcome (foldIO _ tmap _)) eqn:E'; try discriminate.
           intros [= ->]. apply connLoop_err_kind in E' as [[f Hf]|[n Hn]]; discriminate.
        -- intros _. exfalso. eapply getProcInodes_no_err; exact E.
    + intros (-> & -> & Hd). cbn [Z.eqb]. rewrite (Hnone Hd). reflexivity.
  - intros -> Hd. cbn [Z.eqb]. rewrite (Hnone Hd). reflexivity.
Qed.

Lemma ErrCouldNotGetPids_iff_witness :
  outcome (NetConnectionsPid jsonString noProcHost "tcp" 0) = Err (ErrCouldNotGetPids 0)
  /\ trace (NetConnectionsPid jsonString noProcHost "tcp" 0)
     = [AccReaddirnames (HostProc noProcHost [])].
Proof.
  destruct (ErrCouldNotGetPids_iff jsonString noProcHost "tcp" 0 0 [kindTCP4; kindTCP6]
              ltac:(vm_compute; reflexivity)) as [Hiff Htrace].
  split.
  - apply Hiff. split; [reflexivity|]. split; reflexivity.
  - apply Htrace; reflexivity.
Defined.

(** * The counters of a protocol *)

Lemma index_Ok (s : list string) (i : Z) (x : string) :
  index s i = Ok x -> 0 <= i /\ s !! Z.to_nat i = Some x.
Proof.
  unfold index.
  destruct (Z.leb_spec 0 i); [|discriminate].
  destruct (Z.ltb_spec i (Z.of_nat (length s))); [|discriminate].
  cbn [andb]. intros [= <-]. split; [assumption|].
  rewrite nth_lookup.
  destruct (lookup_lt_is_Some_2 s (Z.to_nat i) ltac:(lia)) as [x Hx].
  rewrite Hx. reflexivity.
Qed.

Lemma index_lookup (s : list string) (i : Z) (x : string) :
  0 <= i -> s !! Z.to_nat i = Some x -> index s i = Ok x.
Proof.
  intros Hi Hx. unfold index.
  pose proof (lookup_lt_Some _ _ _ Hx) as Hlt.
  destruct (Z.leb_spec 0 i); [|lia].
  destruct (Z.ltb_spec i (Z.of_nat (length s))); [|lia].
  cbn [andb]. rewrite nth_lookup, Hx. reflexivity.
Qed.

(** The map the inner loop of NetProtoCounters fills: every label gets the
    value of its column, the other keys stay. *)
Lemma readStats_lookup (names : list string) :
  forall j values stats m,
    0 <= j ->
    readStats names j values stats = Ok m ->
    NoDup names ->
    (forall (k : nat) name, names !! k = Some name ->
       exists sv v, values !! (Z.to_nat j + k)%nat = Some sv
         /\ strconv.ParseInt sv 10 64 = (v, None)
         /\ m !! name = Some v)
    /\ (forall name, name ∉ names -> m !! name = stats !! name).
Proof.
  induction names as [|name0 names IH]; intros j values stats m Hj; cbn [readStats].
  - intros [= <-] _. split; [|reflexivity]. intros k name Hk. discriminate.
  - rewrite res_bind_eq.
    destruct (index values j) as [sv| |] eqn:Ei; try discriminate.
    destruct (strconv.ParseInt sv 10 64) as [value [e|]] eqn:Ep; [discriminate|].
    intros Hm Hnd. apply NoDup_cons in Hnd as [Hnotin Hnd].
    destruct (IH (j + 1) values _ m ltac:(lia) Hm Hnd) as [Hin Hout].
    apply index_Ok in Ei as [_ Ei]. split.
    + intros [|k] name Hk.
      * injection Hk as <-. exists sv, value.
        rewrite Nat.add_0_r. split; [exact Ei|]. split; [exact Ep|].
        rewrite (Hout name0 Hnotin). apply lookup_insert_eq.
      * destruct (Hin k name Hk) as (sv' & v' & H1 & H2 & H3).
        exists sv', v'. split; [|split; assumption].
        replace (Z.to_nat j + S k)%nat with (Z.to_nat (j + 1) + k)%nat by lia. exact H1.
    + intros name Hname. apply not_elem_of_cons in Hname as [Hne Hname].
      rewrite (Hout name Hname). apply lookup_insert_ne. congruence.
Qed.

(** The first value that is no number ends the inner loop with the error
    of its parse. *)
Lemma readStats_bad (names : list string) :
  forall j values stats (k : nat) sv v e,
    0 <= j ->
    (k < length names)%nat ->
    values !! (Z.to_nat j + k)%nat = Some sv ->
    strconv.ParseInt sv 10 64 = (v, Some e) ->
    (forall k' : nat, (k' < k)%nat ->
       exists sv' v', values !! (Z.to_nat j + k')%nat = Some sv'
         /\ strconv.ParseInt sv' 10 64 = (v', None)) ->
    readStats names j values stats = Err (ErrNum e).
Proof.
  induction names as [|name0 names IH]; intros j values stats k sv v e Hj Hk Hsv Hp Hbefore;
    cbn [length] in Hk; [lia|].
  cbn [readStats]. rewrite res_bind_eq. destruct k as [|k].
  - rewrite Nat.add_0_r in Hsv. rewrite (index_lookup _ _ _ Hj Hsv), Hp. reflexivity.
  - destruct (Hbefore O ltac:(lia)) as (sv0 & v0 & H0 & Hp0).
    rewrite Nat.add_0_r in H0. rewrite (index_lookup _ _ _ Hj H0), Hp0.
    apply (IH (j + 1) values _ k sv v e); [lia|lia| |exact Hp|].
    + replace (Z.to_nat (j + 1) + k)%nat with (Z.to_nat j + S k)%nat by lia. exact Hsv.
    + intros k' Hk'. destruct (Hbefore (S k') ltac:(lia)) as (sv' & v' & H1 & H2).
      exists sv', v'. split; [|exact H2].
      replace (Z.to_nat (j + 1) + k')%nat with (Z.to_nat j + S k')%nat by lia. exact H1.
Qed.

Section ProtoRows.
Variable mapUnicodeToLower : string -> string.
Variable filename : string.
Variable protos : gmap string bool.

Local Abbreviation loop := (protoLoop mapUnicodeToLower filename protos).
Local Abbreviation protoName := (protoOf mapUnicodeToLower).

(** The loop only appends: a counter set once taken is in the result. *)
Lemma protoLoop_keeps (n : nat) :
  forall lines stats stats',
    (length lines <= n)%nat ->
    loop lines stats = Ok stats' ->
    forall s, s ∈ stats -> s ∈ stats'.
Proof.
  induction n as [|n IH]; intros lines stats stats' Hn Hloop s Hs.
  - destruct lines; [|simpl in Hn; lia]. injection Hloop as <-. exact Hs.
  - destruct lines as [|line rest]; [injection Hloop as <-; exact Hs|].
    destruct (Z.eq_dec (strings.IndexByte line ":") (-1)) as [Hr|Hr].
    { rewrite protoLoop_cons in Hloop. cbv zeta in Hloop. rewrite Hr in Hloop.
      discriminate. }
    rewrite protoLoop_header in Hloop by exact Hr.
    destruct (requested protos (protoName line)) eqn:Hreq; simpl negb in Hloop;
      cbv iota in Hloop.
    + destruct (slice_from line _) as [names|]; [|discriminate].
      destruct rest as [|dataLine rest]; [discriminate|].
      destruct (slice_from dataLine _) as [vals|]; [|discriminate].
      destruct (negb _); [discriminate|].
      destruct (readStats _ 0 _ ∅) as [m| |]; try discriminate.
      apply (IH rest _ _ ltac:(simpl in Hn; lia) Hloop s).
      apply elem_of_app. left. exact Hs.
    + destruct rest as [|dataLine rest]; [injection Hloop as <-; exact Hs|].
      exact (IH rest _ _ ltac:(simpl in Hn; lia) Hloop s Hs).
Qed.
End ProtoRows.

(** X17: a line of /proc/net/snmp that stands where a header line is
    expected and has no colon makes NetProtoCounters return the
    expected-colon error, a FormatError, and no result, whether its
    protocol was asked for or not; the pairs before it have been read. *)
Theorem NetProtoCounters_missing_colon (mapUnicodeToLower : string -> string) (h : Host)
    (protocols pre post : list string) (line : string) :
  ReadLines h (HostProc h ["net/snmp"]) = Some (pre ++ line :: post) ->
  pairsOk mapUnicodeToLower (protosOf (protocolsOrAll protocols)) pre = true ->
  strings.IndexByte line ":" = -1 ->
  NetProtoCounters mapUnicodeToLower h protocols
  = mkIO [AccReadLines (HostProc h ["net/snmp"])]
         (Err (ErrExpectedColon (HostProc h ["net/snmp"])))
  /\ classOf (ErrExpectedColon (HostProc h ["net/snmp"])) = Some FormatError.
Proof.
  intros Hfile Hpre Hr. split; [|reflexivity].
  rewrite (NetProtoCounters_eq _ _ _ _ Hfile). f_equal.
  destruct (protoLoop_pairsOk mapUnicodeToLower (HostProc h ["net/snmp"]) _ pre Hpre)
    as (st & Hloop & _).
  rewrite Hloop, protoLoop_cons. cbv zeta. rewrite Hr. reflexivity.
Qed.

Lemma NetProtoCounters_missing_colon_witness :
  NetProtoCounters (fun s => s) noColonHost ["tcp"]
  = mkIO [AccReadLines (HostProc noColonHost ["net/snmp"])]
         (Err (ErrExpectedColon (HostProc noColonHost ["net/snmp"])))
  /\ classOf (ErrExpectedColon (HostProc noColonHost ["net/snmp"])) = Some FormatError.
Proof.
  apply (NetProtoCounters_missing_colon (fun s => s) noColonHost ["tcp"]
           ["Ip: Forwarding DefaultTTL"; "Ip: 1 64"] ["Tcp: 1 200"]
           "Tcp RtoAlgorithm RtoMin").
  - vm_compute. reflexivity.
  - vm_compute. reflexivity.
  - vm_compute. reflexivity.
Defined.

(** X18: in a result of NetProtoCounters the counter set of a protocol
    that was asked for maps every label of the header line to the number
    in the same column of the value line, read as a decimal integer of 64
    bits, when the labels of the line differ from one another. *)
Theorem NetProtoCounters_stats (mapUnicodeToLower : string -> string) (h : Host)
    (protocols pre post : list string) (header values names vals : string)
    (stats : list NetProtoCountersStat) :
  ReadLines h (HostProc h ["net/snmp"]) = Some (pre ++ header :: values :: post) ->
  pairsOk mapUnicodeToLower (protosOf (protocolsOrAll protocols)) pre = true ->
  strings.IndexByte header ":" <> -1 ->
  protoOf mapUnicodeToLower header ∈ protocolsOrAll protocols ->
  slice_from header (strings.IndexByte header ":" + 2) = Some names ->
  slice_from values (strings.IndexByte header ":" + 2) = Some vals ->
  NoDup (strings.Split names " ") ->
  outcome (NetProtoCounters mapUnicodeToLower h protocols) = Ok stats ->
  exists s, s ∈ stats
    /\ Protocol s = protoOf mapUnicodeToLower header
    /\ forall (k : nat) name, strings.Split names " " !! k = Some name ->
         exists sv v, strings.Split vals " " !! k = Some sv
           /\ strconv.ParseInt sv 10 64 = (v, None)
           /\ Stats s !! name = Some v.
Proof.
  intros Hfile Hpre Hr Hreq Hn Hv Hnd.
  rewrite (NetProtoCounters_eq _ _ _ _ Hfile). cbn [outcome].
  destruct (protoLoop_pairsOk mapUnicodeToLower (HostProc h ["net/snmp"]) _ pre Hpre)
    as (st & Hloop & _).
  rewrite Hloop, protoLoop_header by exact Hr.
  apply requested_protosOf in Hreq. rewrite Hreq, Hn, Hv. cbn [negb].
  destruct (negb (_ =? _)); [discriminate|].
  destruct (readStats _ 0 _ ∅) as [m| |] eqn:Em; try discriminate.
  intros Hrest.
  exists {| Protocol := protoOf mapUnicodeToLower header; Stats := m |}.
  split; [|split; [reflexivity|]].
  - eapply (protoLoop_keeps _ _ _ (length post)); [reflexivity|exact Hrest|].
    apply elem_of_app. right. apply list_elem_of_singleton. reflexivity.
  - cbn [Stats]. intros k name Hk.
    destruct (readStats_lookup _ 0 _ ∅ m ltac:(lia) Em Hnd) as [Hin _].
    exact (Hin k name Hk).
Qed.

Lemma NetProtoCounters_stats_witness :
  exists s, s ∈ [{| Protocol := "tcp";
                    Stats := <["RtoAlgorithm" := 1]>
                               (<["RtoMin" := 200]> (<["RtoMax" := 120000]> ∅)) |}]
    /\ Protocol s = protoOf (fun s => s) "Tcp: RtoAlgorithm RtoMin RtoMax"
    /\ forall (k : nat) name,
         strings.Split "RtoAlgorithm RtoMin RtoMax" " " !! k = Some name ->
         exists sv v, strings.Split "1 200 120000" " " !! k = Some sv
           /\ strconv.ParseInt sv 10 64 = (v, None)
           /\ Stats s !! name = Some v.
Proof.
  apply (NetProtoCounters_stats (fun s => s) sampleHost ["tcp"]
           ["Ip: Forwarding DefaultTTL"; "Ip: 1 64";
            "Icmp: InMsgs InErrors"; "Icmp: 12 0";
            "IcmpMsg: InType3 OutType3"; "IcmpMsg: 5 5"]
           ["Udp: InDatagrams NoPorts"; "Udp: 7 0";
            "UdpLite: InDatagrams NoPorts"; "UdpLite: 0 0"]
           "Tcp: RtoAlgorithm RtoMin RtoMax" "Tcp: 1 200 120000").
  - vm_compute. reflexivity.
  - vm_compute. reflexivity.
  - vm_compute. discriminate.
  - vm_compute. left.
  - vm_compute. reflexivity.
  - vm_compute. reflexivity.
  - apply (bool_decide_unpack (NoDup (strings.Split "RtoAlgorithm RtoMin RtoMax" " "))).
    vm_compute. reflexivity.
  - vm_compute. reflexivity.
Defined.

(** X19: when the lines of a protocol that was asked for split into the
    same number of tokens and a value is no decimal integer of 64 bits,
    NetProtoCounters returns the error of the first such value and no
    result; the taxonomy of the specification has no class for it. *)
Theorem NetProtoCounters_bad_value (mapUnicodeToLower : string -> string) (h : Host)
    (protocols pre post : list string) (header values names vals : string)
    (k : nat) (sv : string) (v : Z) (e : NumErr) :
  ReadLines h (HostProc h ["net/snmp"]) = Some (pre ++ header :: values :: post) ->
  pairsOk mapUnicodeToLower (protosOf (protocolsOrAll protocols)) pre = true ->
  strings.IndexByte header ":" <> -1 ->
  protoOf mapUnicodeToLower header ∈ protocolsOrAll protocols ->
  slice_from header (strings.IndexByte header ":" + 2) = Some names ->
  slice_from values (strings.IndexByte header ":" + 2) = Some vals ->
  length (strings.Split names " ") = length (strings.Split vals " ") ->
  strings.Split vals " " !! k = Some sv ->
  strconv.ParseInt sv 10 64 = (v, Some e) ->
  (forall k' : nat, (k' < k)%nat ->
     exists sv' v', strings.Split vals " " !! k' = Some sv'
       /\ strconv.ParseInt sv' 10 64 = (v', None)) ->
  NetProtoCounters mapUnicodeToLower h protocols
  = mkIO [AccReadLines (HostProc h ["net/snmp"])] (Err (ErrNum e))
  /\ classOf (ErrNum e) = None.
Proof.
  intros Hfile Hpre Hr Hreq Hn Hv Hlen Hsv Hp Hbefore. split; [|reflexivity].
  rewrite (NetProtoCounters_eq _ _ _ _ Hfile). f_equal.
  destruct (protoLoop_pairsOk mapUnicodeToLower (HostProc h ["net/snmp"]) _ pre Hpre)
    as (st & Hloop & _).
  rewrite Hloop, protoLoop_header by exact Hr.
  apply requested_protosOf in Hreq. rewrite Hreq, Hn, Hv. cbn [negb].
  rewrite Hlen, Z.eqb_refl. cbn [negb].
  rewrite (readStats_bad _ 0 _ ∅ k sv v e); [reflexivity|lia| |exact Hsv|exact Hp|exact Hbefore].
  rewrite Hlen. eapply lookup_lt_Some. exact Hsv.
Qed.

Lemma NetProtoCounters_bad_value_witness :
  NetProtoCounters (fun s => s) badValueHost ["tcp"]
  = mkIO [AccReadLines (HostProc badValueHost ["net/snmp"])] (Err (ErrNum ErrSyntax))
  /\ classOf (ErrNum ErrSyntax) = None.
Proof.
  apply (NetProtoCounters_bad_value (fun s => s) badValueHost ["tcp"]
           ["Ip: Forwarding DefaultTTL"; "Ip: 1 64"] []
           "Tcp: RtoAlgorithm RtoMin" "Tcp: 1 x" "RtoAlgorithm RtoMin" "1 x"
           1%nat "x" 0 ErrSyntax).
  - vm_compute. reflexivity.
  - vm_compute. reflexivity.
  - vm_compute. discriminate.
  - vm_compute. left.
  - vm_compute. reflexivity.
  - vm_compute. reflexivity.
  - vm_compute. reflexivity.
  - vm_compute. reflexivity.
  - vm_compute. reflexivity.
  - intros k' Hk'. assert (k' = O) as -> by lia.
    exists "1", 1. split; vm_compute; reflexivity.
Defined.

(** X20: when the last line of /proc/net/snmp is a header line with no
    value line after it, NetProtoCounters panics if the protocol of the
    line was asked for, at the read of the missing line or of the labels,
    and passes the line over if it was not. *)
Theorem NetProtoCounters_trailing_header (mapUnicodeToLower : string -> string) (h : Host)
    (protocols pre : list string) (header : string) :
  ReadLines h (HostProc h ["net/snmp"]) = Some (pre ++ [header]) ->
  pairsOk mapUnicodeToLower (protosOf (protocolsOrAll protocols)) pre = true ->
  strings.IndexByte header ":" <> -1 ->
  (protoOf mapUnicodeToLower header ∈ protocolsOrAll protocols ->
   exists p, outcome (NetProtoCounters mapUnicodeToLower h protocols) = Panic p)
  /\ (protoOf mapUnicodeToLower header ∉ protocolsOrAll protocols ->
      exists stats,
        outcome (NetProtoCounters mapUnicodeToLower h protocols) = Ok stats
        /\ Protocol <$> stats
           = List.filter (requested (protosOf (protocolsOrAll protocols)))
               (pairProtos mapUnicodeToLower pre)).
Proof.
  intros Hfile Hpre Hr.
  rewrite (NetProtoCounters_eq _ _ _ _ Hfile). cbn [outcome].
  destruct (protoLoop_pairsOk mapUnicodeToLower (HostProc h ["net/snmp"]) _ pre Hpre)
    as (st & Hloop & Hst).
  rewrite Hloop, protoLoop_header by exact Hr. split.
  - intros Hreq. apply requested_protosOf in Hreq. rewrite Hreq. cbn [negb].
    destruct (slice_from header _); eauto.
  - intros Hreq.
    destruct (requested _ (protoOf mapUnicodeToLower header)) eqn:E.
    + apply requested_protosOf in E. contradiction.
    + cbn [negb]. exists ([] ++ st). split; [reflexivity|exact Hst].
Qed.

Lemma NetProtoCounters_trailing_header_witness :
  exists p, outcome (NetProtoCounters (fun s => s) trailingHeaderHost []) = Panic p.
Proof.
  apply (proj1 (NetProtoCounters_trailing_header (fun s => s) trailingHeaderHost []
                  ["Ip: Forwarding DefaultTTL"; "Ip: 1 64"] "Tcp: RtoAlgorithm RtoMin"
                  ltac:(vm_compute; reflexivity) ltac:(vm_compute; reflexivity)
                  ltac:(vm_compute; discriminate))).
  vm_compute. right. right. right. left.
Defined.

(** * The counters of an interface *)

Lemma uintField_Ok (fields : list string) (i v : Z) :
  uintField fields i = Ok v -> fieldValue fields i v.
Proof.
  unfold uintField. rewrite res_bind_eq.
  destruct (index fields i) as [s| |] eqn:Ei; try discriminate.
  destruct (strconv.ParseUint s 10 64) as [w [e|]] eqn:Ep; [discriminate|].
  intros [= <-]. apply index_Ok in Ei as [_ Ei]. exists s. split; assumption.
Qed.

Lemma uintField_value (fields : list string) (i v : Z) :
  0 <= i -> fieldValue fields i v -> uintField fields i = Ok v.
Proof.
  intros Hi (s & Hs & Hp). unfold uintField.
  rewrite (index_lookup _ _ _ Hi Hs), res_bind_eq, Hp. reflexivity.
Qed.

Lemma uintField_Err (fields : list string) (i : Z) (e : error) :
  uintField fields i = Err e -> exists n, e = ErrNum n.
Proof.
  unfold uintField, index. rewrite res_bind_eq.
  destruct (_ && _); [|discriminate].
  destruct (strconv.ParseUint _ 10 64) as [w [n|]]; [|discriminate].
  intros [= <-]. exists n. reflexivity.
Qed.

Lemma uintField_Panic (fields : list string) (i : Z) (p : panic) :
  uintField fields i = Panic p ->
  p = IndexOutOfRange /\ ~ (0 <= i < Z.of_nat (length fields)).
Proof.
  unfold uintField, index. rewrite res_bind_eq.
  destruct (Z.leb_spec 0 i); destruct (Z.ltb_spec i (Z.of_nat (length fields)));
    cbn [andb]; try (intros [= <-]; split; [reflexivity|lia]).
  destruct (strconv.ParseUint _ 10 64) as [w [n|]]; discriminate.
Qed.

Lemma uintField_out_of_range (fields : list string) (i : Z) :
  Z.of_nat (length fields) <= i -> uintField fields i = Panic IndexOutOfRange.
Proof.
  intros Hi. unfold uintField, index.
  destruct (Z.ltb_spec i (Z.of_nat (length fields))); [lia|].
  rewrite andb_false_r. reflexivity.
Qed.


(** The body of the loop of NetIOCountersByFile by the name and the fields
    of the line. *)
Lemma ioRow_eq (line : string) :
  ioRow line =
  match devName line with
  | None => Ok None
  | Some name =>
    bytesRecv ← uintField (devFields line) 0;
    packetsRecv ← uintField (devFields line) 1;
    errIn ← uintField (devFields line) 2;
    dropIn ← uintField (devFields line) 3;
    bytesSent ← uintField (devFields line) 8;
    packetsSent ← uintField (devFields line) 9;
    errOut ← uintField (devFields line) 10;
    dropOut ← uintField (devFields line) 13;
    Ok (Some {| Name := name;
                BytesRecv := bytesRecv;
                PacketsRecv := packetsRecv;
                Errin := errIn;
                Dropin := dropIn;
                BytesSent := bytesSent;
                PacketsSent := packetsSent;
                Errout := errOut;
                Dropout := dropOut |})
  end.
Proof.
  unfold ioRow, devName, devFields.
  destruct (_ =? 2); cbn [negb]; [|reflexivity].
  destruct (String.eqb _ _); reflexivity.
Qed.

(** The columns a record is made of. *)
Lemma ioRow_Some (line : string) (nic : NetIOCountersStat) :
  ioRow line = Ok (Some nic) ->
  devName line = Some (Name nic)
  /\ fieldValue (devFields line) 0 (BytesRecv nic)
  /\ fieldValue (devFields line) 1 (PacketsRecv nic)
  /\ fieldValue (devFields line) 2 (Errin nic)
  /\ fieldValue (devFields line) 3 (Dropin nic)
  /\ fieldValue (devFields line) 8 (BytesSent nic)
  /\ fieldValue (devFields line) 9 (PacketsSent nic)
  /\ fieldValue (devFields line) 10 (Errout nic)
  /\ fieldValue (devFields line) 13 (Dropout nic).
Proof.
  rewrite ioRow_eq. destruct (devName line) as [name|]; [|discriminate].
  rewrite res_bind_eq.
  destruct (uintField (devFields line) 0) as [v0| |] eqn:E0; try discriminate.
  rewrite res_bind_eq.
  destruct (uintField (devFields line) 1) as [v1| |] eqn:E1; try discriminate.
  rewrite res_bind_eq.
  destruct (uintField (devFields line) 2) as [v2| |] eqn:E2; try discriminate.
  rewrite res_bind_eq.
  destruct (uintField (devFields line) 3) as [v3| |] eqn:E3; try discriminate.
  rewrite res_bind_eq.
  destruct (uintField (devFields line) 8) as [v8| |] eqn:E8; try discriminate.
  rewrite res_bind_eq.
  destruct (uintField (devFields line) 9) as [v9| |] eqn:E9; try discriminate.
  rewrite res_bind_eq.
  destruct (uintField (devFields line) 10) as [v10| |] eqn:E10; try discriminate.
  rewrite res_bind_eq.
  destruct (uintField (devFields line) 13) as [v13| |] eqn:E13; try discriminate.
  intros [= <-]. cbn [Name BytesRecv PacketsRecv Errin Dropin BytesSent PacketsSent
                      Errout Dropout].
  repeat split; try reflexivity; apply uintField_Ok; assumption.
Qed.


Lemma ioRow_Err (line : string) (e : error) :
  ioRow line = Err e -> exists n, e = ErrNum n.
Proof.
  rewrite ioRow_eq. destruct (devName line) as [name|]; [|discriminate].
  rewrite res_bind_eq.
  destruct (uintField (devFields line) 0) eqn:E0; try discriminate;
    [|intros [= <-]; eapply uintField_Err; exact E0].
  rewrite res_bind_eq.
  destruct (uintField (devFields line) 1) eqn:E1; try discriminate;
    [|intros [= <-]; eapply uintField_Err; exact E1].
  rewrite res_bind_eq.
  destruct (uintField (devFields line) 2) eqn:E2; try discriminate;
    [|intros [= <-]; eapply uintField_Err; exact E2].
  rewrite res_bind_eq.
  destruct (uintField (devFields line) 3) eqn:E3; try discriminate;
    [|intros [= <-]; eapply uintField_Err; exact E3].
  rewrite res_bind_eq.
  destruct (uintField (devFields line) 8) eqn:E8; try discriminate;
    [|intros [= <-]; eapply uintField_Err; exact E8].
  rewrite res_bind_eq.
  destruct (uintField (devFields line) 9) eqn:E9; try discriminate;
    [|intros [= <-]; eapply uintField_Err; exact E9].
  rewrite res_bind_eq.
  destruct (uintField (devFields line) 10) eqn:E10; try discriminate;
    [|intros [= <-]; eapply uintField_Err; exact E10].
  rewrite res_bind_eq.
  destruct (uintField (devFields line) 13) eqn:E13; try discriminate.
  intros [= <-]. eapply uintField_Err; exact E13.
Qed.

Lemma ioRow_Panic (line : string) (p : panic) :
  ioRow line = Panic p ->
  p = IndexOutOfRange
  /\ devName line <> None
  /\ Z.of_nat (length (devFields line)) < 14.
Proof.
  rewrite ioRow_eq. destruct (devName line) as [name|]; [|discriminate].
  assert (Hp : forall i, 0 <= i < 14 -> uintField (devFields line) i = Panic p ->
                 p = IndexOutOfRange /\ Some name <> None
                 /\ Z.of_nat (length (devFields line)) < 14).
  { intros i Hi H. apply uintField_Panic in H as [-> H].
    split; [reflexivity|]. split; [discriminate|lia]. }
  rewrite res_bind_eq.
  destruct (uintField (devFields line) 0) eqn:E0; try discriminate;
    [|intros [= <-]; apply (Hp 0); [lia|exact E0]].
  rewrite res_bind_eq.
  destruct (uintField (devFields line) 1) eqn:E1; try discriminate;
    [|intros [= <-]; apply (Hp 1); [lia|exact E1]].
  rewrite res_bind_eq.
  destruct (uintField (devFields line) 2) eqn:E2; try discriminate;
    [|intros [= <-]; apply (Hp 2); [lia|exact E2]].
  rewrite res_bind_eq.
  destruct (uintField (devFields line) 3) eqn:E3; try discriminate;
    [|intros [= <-]; apply (Hp 3); [lia|exact E3]].
  rewrite res_bind_eq.
  destruct (uintField (devFields line) 8) eqn:E8; try discriminate;
    [|intros [= <-]; apply (Hp 8); [lia|exact E8]].
  rewrite res_bind_eq.
  destruct (uintField (devFields line) 9) eqn:E9; try discriminate;
    [|intros [= <-]; apply (Hp 9); [lia|exact E9]].
  rewrite res_bind_eq.
  destruct (uintField (devFields line) 10) eqn:E10; try discriminate;
    [|intros [= <-]; apply (Hp 10); [lia|exact E10]].
  rewrite res_bind_eq.
  destruct (uintField (devFields line) 13) eqn:E13; try discriminate.
  intros [= <-]. apply (Hp 13); [lia|exact E13].
Qed.

(** X21: NetIOCountersByFile makes a record of a line exactly when the
    line names an interface before its first colon and the fields after
    the colon at the positions 0, 1, 2, 3, 8, 9, 10 and 13 are decimal
    numbers of 64 bits; these are, in this order, the bytes, packets,
    errors and drops received, the bytes, packets and errors sent, and the
    drops sent of the record. *)
Theorem ioRow_columns (line : string) (nic : NetIOCountersStat) :
  ioRow line = Ok (Some nic)
  <-> devName line = Some (Name nic)
      /\ fieldValue (devFields line) 0 (BytesRecv nic)
      /\ fieldValue (devFields line) 1 (PacketsRecv nic)
      /\ fieldValue (devFields line) 2 (Errin nic)
      /\ fieldValue (devFields line) 3 (Dropin nic)
      /\ fieldValue (devFields line) 8 (BytesSent nic)
      /\ fieldValue (devFields line) 9 (PacketsSent nic)
      /\ fieldValue (devFields line) 10 (Errout nic)
      /\ fieldValue (devFields line) 13 (Dropout nic).
Proof.
  split; [apply ioRow_Some|].
  intros (Hn & H0 & H1 & H2 & H3 & H8 & H9 & H10 & H13).
  rewrite ioRow_eq, Hn.
  rewrite (uintField_value _ 0 _ ltac:(lia) H0), res_bind_eq.
  rewrite (uintField_value _ 1 _ ltac:(lia) H1), res_bind_eq.
  rewrite (uintField_value _ 2 _ ltac:(lia) H2), res_bind_eq.
  rewrite (uintField_value _ 3 _ ltac:(lia) H3), res_bind_eq.
  rewrite (uintField_value _ 8 _ ltac:(lia) H8), res_bind_eq.
  rewrite (uintField_value _ 9 _ ltac:(lia) H9), res_bind_eq.
  rewrite (uintField_value _ 10 _ ltac:(lia) H10), res_bind_eq.
  rewrite (uintField_value _ 13 _ ltac:(lia) H13), res_bind_eq.
  destruct nic. reflexivity.
Qed.

Lemma ioRow_columns_witness :
  ioRow devEth0
  = Ok (Some {| Name := "eth0"; BytesSent := 654321; BytesRecv := 123456;
                PacketsSent := 987; PacketsRecv := 789; Errin := 1; Errout := 3;
                Dropin := 2; Dropout := 5 |}).
Proof.
  apply (proj2 (ioRow_columns devEth0
           {| Name := "eth0"; BytesSent := 654321; BytesRecv := 123456;
              PacketsSent := 987; PacketsRecv := 789; Errin := 1; Errout := 3;
              Dropin := 2; Dropout := 5 |})).
  split; [vm_compute; reflexivity|].
  split; [exists "123456"; split; vm_compute; reflexivity|].
  split; [exists "789"; split; vm_compute; reflexivity|].
  split; [exists "1"; split; vm_compute; reflexivity|].
  split; [exists "2"; split; vm_compute; reflexivity|].
  split; [exists "654321"; split; vm_compute; reflexivity|].
  split; [exists "987"; split; vm_compute; reflexivity|].
  split; [exists "3"; split; vm_compute; reflexivity|].
  exists "5"; split; vm_compute; reflexivity.
Defined.

(** The loop of NetIOCountersByFile, part by part. *)
Lemma ioRows_app (pre post : list string) :
  forall acc,
    ioRows (pre ++ post) acc =
    match ioRows pre acc with
    | Ok (ret, None) => ioRows post ret
    | r => r
    end.
Proof.
  induction pre as [|line pre IH]; intros acc; cbn [app ioRows].
  - reflexivity.
  - destruct (ioRow line) as [[nic|]| |]; try reflexivity; apply IH.
Qed.



Section InterfaceCounterProperties.
Variable getNetIOCountersAll :
  list NetIOCountersStat -> list NetIOCountersStat * option error.

Lemma NetIOCountersByFile_rows h pernic filename h1 h2 rows :
  ReadLines h filename = Some (h1 :: h2 :: rows) ->
  NetIOCountersByFile getNetIOCountersAll h pernic filename =
  ([AccReadLines filename],
   match ioRows rows [] with
   | Panic p => Panics (Runtime p)
   | Err e => Returns [] (Some e)
   | Ok (ret, Some err) => Returns ret (Some err)
   | Ok (ret, None) =>
     if negb pernic
     then let '(all, err) := getNetIOCountersAll ret in Returns all err
     else Returns ret None
   end).
Proof.
  intros Hr. unfold NetIOCountersByFile. rewrite Hr.
  cbn [length].
  destruct (Z.ltb_spec (Z.of_nat (S (S (length rows))) - 1) 0); [lia|]. reflexivity.
Qed.
End InterfaceCounterProperties.



(** X23: when a line that names an interface has a field that is no
    number at one of the positions read, NetIOCountersByFile returns the
    error of that field together with the records of the lines before it,
    and does so also when it was asked for the sum only: the records are
    then returned unsummed. *)
Theorem NetIOCountersByFile_partial
    (getNetIOCountersAll : list NetIOCountersStat -> list NetIOCountersStat * option error)
    (h : Host) (pernic : bool) (filename h1 h2 : string) (pre post : list string)
    (bad : string) (ret : list NetIOCountersStat) (e : error) :
  ReadLines h filename = Some (h1 :: h2 :: pre ++ bad :: post) ->
  ioRows pre [] = Ok (ret, None) ->
  ioRow bad = Err e ->
  NetIOCountersByFile getNetIOCountersAll h pernic filename
  = ([AccReadLines filename], Returns ret (Some e))
  /\ exists n, e = ErrNum n.
Proof.
  intros Hr Hpre Hbad. split; [|eapply ioRow_Err; exact Hbad].
  rewrite (NetIOCountersByFile_rows _ _ _ _ _ _ _ Hr).
  rewrite ioRows_app, Hpre. cbn [ioRows]. rewrite Hbad. reflexivity.
Qed.

Lemma NetIOCountersByFile_partial_witness :
  NetIOCountersByFile countAll (devHost [devLo; devBad; devEth0]) false "/proc/net/dev"
  = ([AccReadLines "/proc/net/dev"],
     Returns [ {| Name := "lo"; BytesSent := 2000; BytesRecv := 1000;
                  PacketsSent := 20; PacketsRecv := 10; Errin := 0; Errout := 0;
                  Dropin := 0; Dropout := 0 |} ] (Some (ErrNum ErrSyntax)))
  /\ exists n, ErrNum ErrSyntax = ErrNum n.
Proof.
  apply (NetIOCountersByFile_partial countAll (devHost [devLo; devBad; devEth0]) false
           "/proc/net/dev" devHeader1 devHeader2 [devLo] [devEth0] devBad).
  - vm_compute. reflexivity.
  - vm_compute. reflexivity.
  - vm_compute. reflexivity.
Defined.

(** X24: a file that was read and has fewer than two lines makes
    NetIOCountersByFile panic: with no line at the negative capacity of
    the result, with one line at [lines[2:]]; a file that cannot be read
    gives the error of the read and no record. *)
Theorem NetIOCountersByFile_short_file
    (getNetIOCountersAll : list NetIOCountersStat -> list NetIOCountersStat * option error)
    (h : Host) (pernic : bool) (filename : string) :
  (ReadLines h filename = None ->
   NetIOCountersByFile getNetIOCountersAll h pernic filename
   = ([AccReadLines filename], Returns [] (Some (ErrIO filename))))
  /\ (ReadLines h filename = Some [] ->
      NetIOCountersByFile getNetIOCountersAll h pernic filename
      = ([AccReadLines filename], Panics MakeSliceCapOutOfRange))
  /\ (forall line, ReadLines h filename = Some [line] ->
      NetIOCountersByFile getNetIOCountersAll h pernic filename
      = ([AccReadLines filename], Panics (Runtime SliceBoundsOutOfRange))).
Proof.
  unfold NetIOCountersByFile. split; [|split].
  - intros ->. reflexivity.
  - intros ->. reflexivity.
  - intros line ->. reflexivity.
Qed.

Lemma NetIOCountersByFile_short_file_witness :
  NetIOCountersByFile countAll noProcHost true "/proc/net/dev"
  = ([AccReadLines "/proc/net/dev"], Returns [] (Some (ErrIO "/proc/net/dev")))
  /\ NetIOCountersByFile countAll (hostOfFiles [("/proc/net/dev", [])]) true "/proc/net/dev"
     = ([AccReadLines "/proc/net/dev"], Panics MakeSliceCapOutOfRange)
  /\ NetIOCountersByFile countAll (hostOfFiles [("/proc/net/dev", [devHeader1])]) true
       "/proc/net/dev"
     = ([AccReadLines "/proc/net/dev"], Panics (Runtime SliceBoundsOutOfRange)).
Proof.
  split; [|split].
  - apply (proj1 (NetIOCountersByFile_short_file countAll noProcHost true "/proc/net/dev")).
    reflexivity.
  - apply (proj1 (proj2 (NetIOCountersByFile_short_file countAll
                           (hostOfFiles [("/proc/net/dev", [])]) true "/proc/net/dev"))).
    reflexivity.
  - apply (proj2 (proj2 (NetIOCountersByFile_short_file countAll
                           (hostOfFiles [("/proc/net/dev", [devHeader1])]) true
                           "/proc/net/dev")) devHeader1).
    reflexivity.
Defined.

(** X25: a line that names an interface and has fewer than 14 fields after
    the colon, those at the positions read being numbers, makes the loop
    of NetIOCountersByFile panic at the first position it has no field
    for. *)
Theorem ioRow_short_panics (line name : string) :
  devName line = Some name ->
  Z.of_nat (length (devFields line)) < 14 ->
  (forall i, In i devPositions -> i < Z.of_nat (length (devFields line)) ->
     exists v, fieldValue (devFields line) i v) ->
  ioRow line = Panic IndexOutOfRange.
Proof.
  intros Hn Hlen Hall. rewrite ioRow_eq, Hn.
  assert (Hstep : forall i, In i devPositions ->
            uintField (devFields line) i = Panic IndexOutOfRange
            \/ exists v, uintField (devFields line) i = Ok v).
  { intros i Hi.
    destruct (Z.ltb_spec i (Z.of_nat (length (devFields line)))) as [Hlt|Hge].
    - right. destruct (Hall i Hi Hlt) as [v Hv]. exists v.
      apply uintField_value; [|exact Hv].
      unfold devPositions in Hi. cbn [In] in Hi. lia.
    - left. apply uintField_out_of_range. exact Hge. }
  unfold devPositions in Hstep. cbn [In] in Hstep.
  destruct (Hstep 0 ltac:(tauto)) as [->|[v0 ->]]; [reflexivity|]. rewrite res_bind_eq.
  destruct (Hstep 1 ltac:(tauto)) as [->|[v1 ->]]; [reflexivity|]. rewrite res_bind_eq.
  destruct (Hstep 2 ltac:(tauto)) as [->|[v2 ->]]; [reflexivity|]. rewrite res_bind_eq.
  destruct (Hstep 3 ltac:(tauto)) as [->|[v3 ->]]; [reflexivity|]. rewrite res_bind_eq.
  destruct (Hstep 8 ltac:(tauto)) as [->|[v8 ->]]; [reflexivity|]. rewrite res_bind_eq.
  destruct (Hstep 9 ltac:(tauto)) as [->|[v9 ->]]; [reflexivity|]. rewrite res_bind_eq.
  destruct (Hstep 10 ltac:(tauto)) as [->|[v10 ->]]; [reflexivity|]. rewrite res_bind_eq.
  rewrite (uintField_out_of_range _ 13) by lia. reflexivity.
Qed.

Lemma ioRow_short_panics_witness :
  ioRow devShort = Panic IndexOutOfRange.
Proof.
  apply (ioRow_short_panics devShort "eth2").
  - vm_compute. reflexivity.
  - vm_compute. reflexivity.
  - intros i Hi Hlt. unfold devPositions in Hi. cbn [In] in Hi.
    assert (Hlen : Z.of_nat (length (devFields devShort)) = 4) by (vm_compute; reflexivity).
    rewrite Hlen in Hlt.
    destruct Hi as [<-|[<-|[<-|[<-|Hi]]]]; [| | | |exfalso; lia].
    + exists 1, "1". split; vm_compute; reflexivity.
    + exists 2, "2". split; vm_compute; reflexivity.
    + exists 3, "3". split; vm_compute; reflexivity.
    + exists 4, "4". split; vm_compute; reflexivity.
Defined.

(** X26: NetIOCountersByFile does not panic on a file of two lines or more
    in which every line after the second that names an interface has at
    least 14 fields after its colon. *)
Theorem NetIOCountersByFile_no_panic
    (getNetIOCountersAll : list NetIOCountersStat -> list NetIOCountersStat * option error)
    (h : Host) (pernic : bool) (filename h1 h2 : string) (rows : list string) :
  ReadLines h filename = Some (h1 :: h2 :: rows) ->
  (forall row, row ∈ rows -> devName row <> None ->
     14 <= Z.of_nat (length (devFields row))) ->
  forall p, snd (NetIOCountersByFile getNetIOCountersAll h pernic filename) <> Panics p.
Proof.
  intros Hr Hrows p. rewrite (NetIOCountersByFile_rows _ _ _ _ _ _ _ Hr). cbn [snd].
  assert (Hno : forall acc q, ioRows rows acc <> Panic q).
  { clear Hr. induction rows as [|line rows IH]; intros acc q; cbn [ioRows]; [discriminate|].
    assert (IH' : forall acc q, ioRows rows acc <> Panic q).
    { apply IH. intros row Hrow. apply Hrows. right. exact Hrow. }
    destruct (ioRow line) as [[nic|]| |q'] eqn:E; try discriminate; try apply IH'.
    apply ioRow_Panic in E as (_ & Hname & Hlen).
    pose proof (Hrows line ltac:(left) Hname). lia. }
  destruct (ioRows rows []) as [[ret [e|]]|e|q] eqn:E; try discriminate.
  - destruct (negb pernic); [destruct (getNetIOCountersAll ret)|]; discriminate.
  - exfalso. eapply Hno; exact E.
Qed.

Lemma NetIOCountersByFile_no_panic_witness :
  snd (NetIOCountersByFile countAll (devHost [devLo; devBad; devEth0]) false "/proc/net/dev")
  <> Panics (Runtime IndexOutOfRange).
Proof.
  apply (NetIOCountersByFile_no_panic countAll (devHost [devLo; devBad; devEth0]) false
           "/proc/net/dev" devHeader1 devHeader2 [devLo; devBad; devEth0]).
  - vm_compute. reflexivity.
  - intros row Hrow _.
    repeat (apply elem_of_cons in Hrow as [->|Hrow]; [vm_compute; discriminate|]).
    apply elem_of_nil in Hrow. contradiction.
Defined.

(** X27: whether the sum or one record per interface is asked for only
    matters when the file was read to its end without error: the call for
    the sum then hands the records of the other call to
    getNetIOCountersAll and returns what that gives; in every other case,
    and in the file it reads, both calls do the same. *)
Theorem NetIOCountersByFile_pernic
    (getNetIOCountersAll : list NetIOCountersStat -> list NetIOCountersStat * option error)
    (h : Host) (filename : string) :
  fst (NetIOCountersByFile getNetIOCountersAll h false filename)
  = fst (NetIOCountersByFile getNetIOCountersAll h true filename)
  /\ snd (NetIOCountersByFile getNetIOCountersAll h false filename)
     = match snd (NetIOCountersByFile getNetIOCountersAll h true filename) with
       | Returns ret None => let '(all, err) := getNetIOCountersAll ret in Returns all err
       | r => r
       end.
Proof.
  split; [reflexivity|].
  unfold NetIOCountersByFile. cbn [snd].
  destruct (ReadLines h filename) as [lines|]; [|reflexivity].
  destruct (_ <? 0); [reflexivity|].
  destruct lines as [|l1 [|l2 rows]]; try reflexivity.
  destruct (ioRows rows []) as [[ret [e|]]|e|p]; reflexivity.
Qed.

(** * Connection tracking *)

(** X28: NetFilterCounters returns one record, the first number of the
    count file and the first number of the maximum file, exactly when both
    files were read and neither is empty; it returns the error of the
    count file without reading the maximum file, and panics when a file
    was read and holds no number. *)
Theorem NetFilterCounters_cases (ReadInts : string -> option (list Z)) (h : Host) :
  let countfile := HostProc h ["sys/net/netfilter/nf_conntrack_count"] in
  let maxfile := HostProc h ["sys/net/netfilter/nf_conntrack_max"] in
  (forall stats,
     snd (NetFilterCounters ReadInts h) = Ok stats
     <-> exists c cs m ms,
           ReadInts countfile = Some (c :: cs)
           /\ ReadInts maxfile = Some (m :: ms)
           /\ stats = [{| ConnTrackCount := c; ConnTrackMax := m |}])
  /\ (ReadInts countfile = None ->
      NetFilterCounters ReadInts h = ([countfile], Err (ErrIO countfile)))
  /\ (forall p,
        snd (NetFilterCounters ReadInts h) = Panic p
        <-> p = IndexOutOfRange
            /\ exists count max,
                 ReadInts countfile = Some count /\ ReadInts maxfile = Some max
                 /\ (count = [] \/ max = [])).
Proof.
  intros countfile maxfile. unfold NetFilterCounters. fold countfile maxfile.
  split; [|split].
  - intros stats. split.
    + destruct (ReadInts countfile) as [[|c cs]|]; [| |discriminate];
        (destruct (ReadInts maxfile) as [[|m ms]|]; try discriminate).
      cbn. intros [= <-]. exists c, cs, m, ms. repeat split.
    + intros (c & cs & m & ms & -> & -> & ->). reflexivity.
  - intros ->. reflexivity.
  - intros p. split.
    + destruct (ReadInts countfile) as [[|c cs]|]; [| |discriminate];
        (destruct (ReadInts maxfile) as [[|m ms]|]; try discriminate);
        cbn; intros [= <-]; (split; [reflexivity|]).
      * exists [], []. tauto.
      * exists [], (m :: ms). tauto.
      * exists (c :: cs), []. tauto.
    + intros (-> & count & max & -> & -> & Hempty). cbn [snd].
      destruct count as [|c cs]; [reflexivity|].
      destruct Hempty as [Hc| ->]; [discriminate|reflexivity].
Qed.

Lemma NetFilterCounters_cases_witness :
  snd (NetFilterCounters sampleReadInts sampleHost)
  = Ok [{| ConnTrackCount := 12; ConnTrackMax := 65536 |}].
Proof.
  apply (proj2 (proj1 (NetFilterCounters_cases sampleReadInts sampleHost)
                  [{| ConnTrackCount := 12; ConnTrackMax := 65536 |}])).
  exists 12, [], 65536, []. split; [vm_compute; reflexivity|].
  split; [vm_compute; reflexivity|reflexivity].
Defined.

(** * The duplicate check over the rows of a call *)

Section DedupRows.
Variable String : NetConnectionStat -> string.




End DedupRows.



(** * The port of a token, both ways *)

Lemma decodeAddress_no_port_inv (family : Z) (src s : string) :
  decodeAddress family src = Err (ErrDoesNotContainPort s) ->
  length (strings.Split src ":") <> 2%nat.
Proof.
  unfold decodeAddress.
  destruct (Z.eqb_spec (Z.of_nat (length (strings.Split src ":"))) 2) as [Hlen|Hlen];
    cbn [negb]; [|intros _; lia].
  destruct (strconv.ParseInt _ 0 64) as [v [e|]]; [discriminate|].
  destruct (hex.DecodeString _) as [decoded [e|]]; [discriminate|].
  destruct (family =? syscall.AF_INET); [discriminate|].
  unfold parseIPv6HexString. destruct (negb _); discriminate.
Qed.

Lemma decodeAddress_invalid_port_inv (family : Z) (src addr port s : string) :
  strings.Split src ":" = [addr; port] ->
  decodeAddress family src = Err (ErrInvalidPort s) ->
  exists v e, strconv.ParseInt ("0x" +:+ port) 0 64 = (v, Some e).
Proof.
  intros Hsplit. unfold decodeAddress. rewrite Hsplit. cbn [length nth].
  change (negb (Z.of_nat 2 =? 2)) with false. cbv iota.
  destruct (strconv.ParseInt ("0x" +:+ port) 0 64) as [v [e|]]; [intros _; eauto|].
  destruct (hex.DecodeString addr) as [decoded [e|]]; [discriminate|].
  destruct (family =? syscall.AF_INET); [discriminate|].
  unfold parseIPv6HexString. destruct (negb _); discriminate.
Qed.

(** C9 as stated fails: the port part "100000016" is a hexadecimal number,
    4294967318, and the port returned is 22; and the port part "00_16",
    which is no hexadecimal number, is decoded, to the port 22, the parse
    being that of a Go literal, in which digits may be set apart by
    underscores. *)
Lemma decodeAddress_port_counterexample :
  strings.Split "0100007F:100000016" ":" = ["0100007F"; "100000016"]
  /\ allHex "100000016" = true
  /\ hexValue "100000016" = 4294967318
  /\ decodeAddress syscall.AF_INET "0100007F:100000016" = Ok {| IP := "127.0.0.1"; Port := 22 |}
  /\ ~ (forall family src addr port r,
          strings.Split src ":" = [addr; port] ->
          allHex port = true -> port <> EmptyString ->
          decodeAddress family src = Ok r -> Port r = hexValue port)
  /\ allHex "00_16" = false
  /\ decodeAddress syscall.AF_INET "0100007F:00_16" = Ok {| IP := "127.0.0.1"; Port := 22 |}.
Proof.
  assert (H : decodeAddress syscall.AF_INET "0100007F:100000016"
              = Ok {| IP := "127.0.0.1"; Port := 22 |}) by (vm_compute; reflexivity).
  split; [vm_compute; reflexivity|].
  split; [vm_compute; reflexivity|].
  split; [vm_compute; reflexivity|].
  split; [exact H|].
  split; [|split; vm_compute; reflexivity].
  intros Hclaim.
  specialize (Hclaim syscall.AF_INET "0100007F:100000016" "0100007F" "100000016" _
                eq_refl eq_refl ltac:(discriminate) H).
  vm_compute in Hclaim. discriminate Hclaim.
Qed.

(** C9, amended: decodeAddress fails with [ErrDoesNotContainPort] exactly
    when the token does not split on ':' into exactly two parts.  Otherwise
    it parses "0x" followed by the right-hand part as a 64-bit signed
    integer and fails with [ErrInvalidPort] exactly when that parse fails,
    which it does on an empty part, on a part with a byte that is neither a
    hexadecimal digit nor an underscore, and on a hexadecimal number of
    2^63 or more.  When decoding succeeds the parse has succeeded and the
    port is the parsed value modulo 2^32: the value of a right-hand part of
    hexadecimal digits modulo 2^32, and that value itself when it is below
    2^32.  Every error is a MalformedInput. *)
Theorem decodeAddress_port (family : Z) (src : string) :
  ((exists s, decodeAddress family src = Err (ErrDoesNotContainPort s))
   <-> length (strings.Split src ":") <> 2%nat)
  /\ (length (strings.Split src ":") <> 2%nat ->
      decodeAddress family src = Err (ErrDoesNotContainPort src))
  /\ (forall addr port, strings.Split src ":" = [addr; port] ->
        ((exists s, decodeAddress family src = Err (ErrInvalidPort s))
         <-> exists v e, strconv.ParseInt ("0x" +:+ port) 0 64 = (v, Some e))
        /\ (forall v e, strconv.ParseInt ("0x" +:+ port) 0 64 = (v, Some e) ->
              decodeAddress family src = Err (ErrInvalidPort src))
        /\ (forall r, decodeAddress family src = Ok r ->
              exists v, strconv.ParseInt ("0x" +:+ port) 0 64 = (v, None)
                        /\ Port r = v mod 2 ^ 32)
        /\ (port = EmptyString \/ hasStrayByte port = true ->
            decodeAddress family src = Err (ErrInvalidPort src))
        /\ (allHex port = true -> port <> EmptyString -> 2 ^ 63 <= hexValue port ->
            decodeAddress family src = Err (ErrInvalidPort src))
        /\ (allHex port = true -> port <> EmptyString ->
            forall r, decodeAddress family src = Ok r ->
              Port r = hexValue port mod 2 ^ 32
              /\ (hexValue port < 2 ^ 32 -> Port r = hexValue port)))
  /\ (forall e, decodeAddress family src = Err e -> classOf e = Some MalformedInput).
Proof.
  assert (Hno : length (strings.Split src ":") <> 2%nat ->
                decodeAddress family src = Err (ErrDoesNotContainPort src)).
  { intros Hlen. unfold decodeAddress.
    destruct (Z.eqb_spec (Z.of_nat (length (strings.Split src ":"))) 2); [lia | reflexivity]. }
  split; [|split; [exact Hno|split]].
  - split.
    + intros [s Hs]. eapply decodeAddress_no_port_inv. exact Hs.
    + intros Hlen. exists src. apply Hno, Hlen.
  - intros addr port Hsplit.
    assert (Hbad : forall v e, strconv.ParseInt ("0x" +:+ port) 0 64 = (v, Some e) ->
                     decodeAddress family src = Err (ErrInvalidPort src))
      by (intros v e; apply decodeAddress_split_bad with (addr := addr); assumption).
    assert (Hok : forall r, decodeAddress family src = Ok r ->
                    exists v, strconv.ParseInt ("0x" +:+ port) 0 64 = (v, None)
                              /\ Port r = v mod 2 ^ 32)
      by (intros r; apply decodeAddress_split_ok with (addr := addr); assumption).
    split; [|split; [exact Hbad|split; [exact Hok|split; [|split]]]].
    + split.
      * intros [s Hs]. eapply decodeAddress_invalid_port_inv; eassumption.
      * intros (v & e & Hp). exists src. eapply Hbad. exact Hp.
    + intros Hs. destruct (ParseInt_0x_stray port Hs) as (v & e & Hp). eauto.
    + intros Hhex Hne Hbig. change (2 ^ 63) with 9223372036854775808 in Hbig.
      pose proof (ParseInt_0x_hex port Hhex Hne) as Hp.
      destruct (Z.ltb_spec (hexValue port) 9223372036854775808); [lia|]. eauto.
    + intros Hhex Hne r Hr. split.
      * destruct (Hok r Hr) as (v & Hv & ->).
        rewrite (ParseInt_0x_hex port Hhex Hne) in Hv.
        destruct (hexValue port <? 9223372036854775808); [|discriminate].
        injection Hv as <-. reflexivity.
      * intros Hsmall. destruct (Hok r Hr) as (v & Hv & ->).
        rewrite (ParseInt_0x_hex port Hhex Hne) in Hv.
        destruct (hexValue port <? 9223372036854775808); [|discriminate].
        injection Hv as <-. apply Z.mod_small.
        split; [apply hexValue_nonneg; assumption | assumption].
  - intros e. apply decodeAddress_err_class.
Qed.

Lemma decodeAddress_port_witness :
  decodeAddress syscall.AF_INET "0500000A" = Err (ErrDoesNotContainPort "0500000A")
  /\ decodeAddress syscall.AF_INET "0500000A:" = Err (ErrInvalidPort "0500000A:")
  /\ decodeAddress syscall.AF_INET "0500000A:8000000000000000"
     = Err (ErrInvalidPort "0500000A:8000000000000000")
  /\ (forall r, decodeAddress syscall.AF_INET "0100007F:100000016" = Ok r ->
        Port r = hexValue "100000016" mod 2 ^ 32
        /\ (hexValue "100000016" < 2 ^ 32 -> Port r = hexValue "100000016"))
  /\ ~ (exists s, decodeAddress syscall.AF_INET "0100007G:0016" = Err (ErrInvalidPort s)).
Proof.
  split; [|split; [|split; [|split]]].
  - destruct (decodeAddress_port syscall.AF_INET "0500000A") as (_ & Hno & _).
    apply Hno. vm_compute. discriminate.
  - destruct (decodeAddress_port syscall.AF_INET "0500000A:") as (_ & _ & Hsplit & _).
    destruct (Hsplit "0500000A" EmptyString eq_refl) as (_ & _ & _ & Hstray & _).
    apply Hstray. left. reflexivity.
  - destruct (decodeAddress_port syscall.AF_INET "0500000A:8000000000000000")
      as (_ & _ & Hsplit & _).
    destruct (Hsplit "0500000A" "8000000000000000" eq_refl) as (_ & _ & _ & _ & Hbig & _).
    apply Hbig.
    + vm_compute. reflexivity.
    + discriminate.
    + vm_compute. discriminate.
  - destruct (decodeAddress_port syscall.AF_INET "0100007F:100000016")
      as (_ & _ & Hsplit & _).
    destruct (Hsplit "0100007F" "100000016" eq_refl) as (_ & _ & _ & _ & _ & Hhex).
    apply Hhex.
    + vm_compute. reflexivity.
    + discriminate.
  - destruct (decodeAddress_port syscall.AF_INET "0100007G:0016") as (_ & _ & Hsplit & _).
    destruct (Hsplit "0100007G" "0016" eq_refl) as (Hiff & _).
    intros Hs. apply Hiff in Hs as (v & e & Hp). vm_compute in Hp. discriminate Hp.
Defined.

(** * Requests that are not in lower case *)

(** C8 as stated fails: the request ["Tcp"] names the protocol tcp, case
    aside, and the lines of Tcp have three labels for two values, but the
    request is looked up as it was given while the prefix of the line is
    put in lower case, so the pair is passed over and the call returns the
    empty list and no error; so does the request ["TCP"].  The request
    ["tcp"] gives the error. *)
Lemma NetProtoCounters_columns_counterexample :
  ReadLines mismatchHost (HostProc mismatchHost ["net/snmp"])
  = Some (["Ip: Forwarding DefaultTTL"; "Ip: 1 64"]
            ++ "Tcp: RtoAlgorithm RtoMin RtoMax" :: "Tcp: 1 200"
            :: ["Udp: InDatagrams NoPorts"; "Udp: 7 0"])
  /\ protoOf (fun s => s) "Tcp: RtoAlgorithm RtoMin RtoMax"
     ∈ (strings.ToLower (fun s => s) <$> protocolsOrAll ["Tcp"])
  /\ length (strings.Split "RtoAlgorithm RtoMin RtoMax" " ")
     <> length (strings.Split "1 200" " ")
  /\ NetProtoCounters (fun s => s) mismatchHost ["Tcp"]
     = mkIO [AccReadLines "/proc/net/snmp"] (Ok [])
  /\ NetProtoCounters (fun s => s) mismatchHost ["TCP"]
     = mkIO [AccReadLines "/proc/net/snmp"] (Ok [])
  /\ NetProtoCounters (fun s => s) mismatchHost ["tcp"]
     = mkIO [AccReadLines "/proc/net/snmp"] (Err (ErrExpectedSameColumns "/proc/net/snmp"))
  /\ ~ (forall (mapUnicodeToLower : string -> string) (h : Host)
               (protocols pre post : list string) (header values names vals : string),
          ReadLines h (HostProc h ["net/snmp"]) = Some (pre ++ header :: values :: post) ->
          pairsOk mapUnicodeToLower (protosOf (protocolsOrAll protocols)) pre = true ->
          strings.IndexByte header ":" <> -1 ->
          protoOf mapUnicodeToLower header
          ∈ (strings.ToLower mapUnicodeToLower <$> protocolsOrAll protocols) ->
          slice_from header (strings.IndexByte header ":" + 2) = Some names ->
          slice_from values (strings.IndexByte header ":" + 2) = Some vals ->
          length (strings.Split names " ") <> length (strings.Split vals " ") ->
          exists e, outcome (NetProtoCounters mapUnicodeToLower h protocols) = Err e
                    /\ classOf e = Some FormatError).
Proof.
  assert (Hfile : ReadLines mismatchHost (HostProc mismatchHost ["net/snmp"])
            = Some (["Ip: Forwarding DefaultTTL"; "Ip: 1 64"]
                      ++ "Tcp: RtoAlgorithm RtoMin RtoMax" :: "Tcp: 1 200"
                      :: ["Udp: InDatagrams NoPorts"; "Udp: 7 0"]))
    by (vm_compute; reflexivity).
  assert (Hreq : protoOf (fun s => s) "Tcp: RtoAlgorithm RtoMin RtoMax"
                 ∈ (strings.ToLower (fun s => s) <$> protocolsOrAll ["Tcp"]))
    by (vm_compute; left).
  assert (Hlen : length (strings.Split "RtoAlgorithm RtoMin RtoMax" " ")
                 <> length (strings.Split "1 200" " "))
    by (vm_compute; discriminate).
  split; [exact Hfile|]. split; [exact Hreq|]. split; [exact Hlen|].
  split; [vm_compute; reflexivity|].
  split; [vm_compute; reflexivity|].
  split; [vm_compute; reflexivity|].
  intros Hclaim.
  destruct (Hclaim (fun s => s) mismatchHost ["Tcp"]
              ["Ip: Forwarding DefaultTTL"; "Ip: 1 64"]
              ["Udp: InDatagrams NoPorts"; "Udp: 7 0"]
              "Tcp: RtoAlgorithm RtoMin RtoMax" "Tcp: 1 200"
              "RtoAlgorithm RtoMin RtoMax" "1 200"
              Hfile ltac:(vm_compute; reflexivity) ltac:(vm_compute; discriminate)
              Hreq ltac:(vm_compute; reflexivity) ltac:(vm_compute; reflexivity) Hlen)
    as (e & He & _).
  vm_compute in He. discriminate He.
Qed.
